(** * Ranking aggregation and canonicalization pipeline

    A shallow embedding of the three core scripts of the repository

    - [4.merge_and_sort_1st_iPTM_2nd_iPAE_final_stats_batch_processing.py]
      (the Score Aggregator),
    - [6.ranking_batch1.2.py] (Rank Join & Tagging),
    - [9_exluding_doublets.py] (Duplicate Resolution),

    together with the properties the specification states about them.

    Conventions of the embedding.
    - A Python [str] is a [string]; its characters are the code points
      0..255.  In that range the regular-expression class [\d] is exactly
      the ten characters 0..9.
    - A [dict] whose iteration order is never observed is a [gmap]; the
      master ranking of the duplicate-resolution script is iterated by its
      fuzzy matcher, so it is an insertion-ordered association list.
    - The file system is a finite map from paths to file contents.
    - A function that may raise returns a [py_result]. *)

From Stdlib Require Import ZArith Lia Ascii Permutation.
From stdpp Require Import gmap strings list pretty sorting.

(** ** Python string primitives *)

Module PyStr.

(** The line feed, the only character the regular-expression dot rejects. *)
Definition LF : ascii := "010"%char.

(** [\d] restricted to code points below 256. *)
Definition is_digit (c : ascii) : bool :=
match Ascii.is_nat c with Some _ => true | None => false end.

Definition is_char (a c : ascii) : bool := bool_decide (a = c).

(** [s.startswith(p)] *)
Fixpoint startswith (p s : string) : bool :=
match p, s with
| "", _ => true
| String a p', String b s' => is_char a b && startswith p' s'
| String _ _, "" => false
end.

(** [s[n:]] *)
Fixpoint drop (n : nat) (s : string) : string :=
match n, s with
| 0, _ => s
| S _, "" => ""
| S k, String _ t => drop k t
end.

(** [s[:n]] *)
Fixpoint take (n : nat) (s : string) : string :=
match n, s with
| 0, _ => ""
| S _, "" => ""
| S k, String c t => String c (take k t)
end.

(** [s[i]] when [i] is in range. *)
Fixpoint get (i : nat) (s : string) : option ascii :=
match s, i with
| "", _ => None
| String c _, 0 => Some c
| String _ t, S k => get k t
end.

(** [sub in s] *)
Fixpoint contains (sub s : string) : bool :=
startswith sub s ||
match s with
| "" => false
| String _ t => contains sub t
end.

(** [s.endswith(suf)] *)
Fixpoint endswith (suf s : string) : bool :=
bool_decide (s = suf) ||
match s with
| "" => false
| String _ t => endswith suf t
end.

(** [s.rfind(c)] for a single character, [None] standing for [-1]. *)
Fixpoint rfind (c : ascii) (s : string) : option nat :=
match s with
| "" => None
| String a t =>
  match rfind c t with
  | Some i => Some (S i)
  | None => if is_char c a then Some 0 else None
  end
end.

(** The longest run of digits at the head of [s], and what follows it:
    what a greedy [\d*] consumes. *)
Fixpoint span_digits (s : string) : string * string :=
match s with
| "" => ("", "")
| String c t =>
  if is_digit c then (String c (span_digits t).1, (span_digits t).2)
  else ("", s)
end.

(** [s.replace(old, new)] for a non-empty [old]: occurrences are replaced
    from the left and do not overlap.  [skip] counts the characters of the
    occurrence found last that are still to be passed over. *)
Fixpoint replace_go (old new : string) (skip : nat) (s : string) : string :=
match s with
| "" => ""
| String c t =>
  match skip with
  | S k => replace_go old new k t
  | 0 =>
    if startswith old s
    then new +:+ replace_go old new (String.length old - 1) t
    else String c (replace_go old new 0 t)
  end
end.

Definition replace (old new s : string) : string := replace_go old new 0 s.

(** Characters [str.strip()] removes, among the code points below 256. *)
Definition is_space (c : ascii) : bool :=
let n := nat_of_ascii c in
((9 <=? n) && (n <=? 13)) || ((28 <=? n) && (n <=? 32))
|| (n =? 133) || (n =? 160).

Fixpoint lstrip (s : string) : string :=
match s with
| "" => ""
| String c t => if is_space c then lstrip t else s
end.

Fixpoint rstrip (s : string) : string :=
match s with
| "" => ""
| String c t =>
  match rstrip t with
  | "" => if is_space c then "" else String c ""
  | t' => String c t'
  end
end.

(** [s.strip()] *)
Definition strip (s : string) : string := rstrip (lstrip s).

(** [os.path.basename(p)]: what follows the last slash. *)
Definition basename (p : string) : string :=
match rfind "/" p with
| Some i => drop (S i) p
| None => p
end.

(** [os.path.splitext(p)[0]], after [genericpath._splitext] with the POSIX
    separators: the last dot splits the name unless it lies in the
    directory part or only dots precede it in the file name. *)
Definition splitext_root (p : string) : string :=
let filenameIndex := match rfind "/" p with Some i => S i | None => 0 end in
match rfind "." p with
| Some dotIndex =>
  if (filenameIndex <=? dotIndex) &&
     existsb (fun i => negb (bool_decide (get i p = Some "."%char)))
             (seq filenameIndex (dotIndex - filenameIndex))
  then take dotIndex p
  else p
| None => p
end.

(** A fixed-length regular expression made of character classes, tried at
    the head of [s]. *)
Fixpoint classes_here (cs : list (ascii -> bool)) (s : string) : bool :=
match cs, s with
| [], _ => true
| f :: cs', String c t => f c && classes_here cs' t
| _ :: _, "" => false
end.

(** Whether [.*$] can match the whole of [s]: no line feed in [s], except
    that [$] also matches just before a line feed that ends the string. *)
Fixpoint dot_star_eol (s : string) : bool :=
match s with
| "" => true
| String c t =>
  if is_char LF c then bool_decide (t = "") else dot_star_eol t
end.

(** What such a match leaves behind: the final line feed, if there is one. *)
Fixpoint final_newline (s : string) : string :=
match s with
| "" => ""
| String c t =>
  match t with
  | "" => if is_char LF c then String c "" else ""
  | _ => final_newline t
  end
end.

(** [re.sub(cs + '.*$', '', s)] for a fixed-length head [cs] that cannot
    match a line feed: the leftmost place where the head matches and the
    rest of the string is a single line is cut, down to the end of the
    string (a final line feed stays).  After that match there is nothing
    left for a second one. *)
Fixpoint re_sub_to_eol (cs : list (ascii -> bool)) (s : string) : string :=
match s with
| "" => ""
| String c t =>
  if classes_here cs s && dot_star_eol (drop (length cs) s)
  then final_newline s
  else String c (re_sub_to_eol cs t)
end.

(** The literal characters of a pattern as classes. *)
Fixpoint literal (p : string) : list (ascii -> bool) :=
match p with
| "" => []
| String a p' => is_char a :: literal p'
end.

End PyStr.

(** ** The interpreter's view of a script *)

(** A call either returns or lets an exception escape. *)
Inductive py_result (A : Type) : Type :=
| Returned (a : A)
| Raised (e : string).
Arguments Returned {A} a.
Arguments Raised {A} e.


(** A file the scripts open with [os.path.exists] and [pd.read_csv]. *)
Inductive file_state (A : Type) : Type :=
| Absent
| Unreadable (e : string)
| Readable (a : A).
Arguments Absent {A}.
Arguments Unreadable {A} e.
Arguments Readable {A} a.

(** ** Stable sorting *)

Module PyList.

(** Stable insertion into a sorted list whose elements all followed [x]
    in the input: [x] goes before the first element it does not exceed,
    so before every element it ties with. *)
Fixpoint insert_stable {A : Type} (cmp : A -> A -> comparison)
    (x : A) (l : list A) : list A :=
match l with
| [] => [x]
| y :: l' =>
  match cmp x y with
  | Gt => y :: insert_stable cmp x l'
  | _ => x :: l
  end
end.

(** A stable sort, as [list.sort] and [np.lexsort] are. *)
Definition stable_sort {A : Type} (cmp : A -> A -> comparison)
    (l : list A) : list A :=
foldr (insert_stable cmp) [] l.

End PyList.

(** ** Score tables *)

Module Pandas.

(** One line of a score table.  A float cell is [None] for NaN (an empty
    cell, or a column the file of origin does not have) and [Some k] for a
    number, [k] being its place in the order of the floats; only that
    order is ever used.  [Design] is [None] for a missing identifier. *)
Record row : Type := Row {
  Design : option string;
  Average_i_pTM : option Z;
  Average_i_pAE : option Z;
  source_subfolder : string;
  source_file : string
}.

(** A parsed CSV file: its header and its lines in file order. *)
Record csv : Type := Csv {
  header : list string;
  records : list row
}.

(** A data frame: the column names, and the lines with their index label. *)
Record DataFrame : Type := Frame {
  columns : list string;
  body : list (nat * row)
}.

(** Fresh labels [0 .. n-1], as [RangeIndex] gives them. *)
Definition range_index (rs : list row) : list (nat * row) :=
zip (seq 0 (length rs)) rs.

(** [pd.read_csv] on a file that parses. *)
Definition read_csv (c : csv) : DataFrame :=
Frame (header c) (range_index (records c)).

(** [df.to_csv(path, index=False)] *)
Definition to_csv (df : DataFrame) : csv :=
Csv (columns df) (body df).*2.

(** [df[col] = value] for a column name: the column is appended to the
    header unless it is there already. *)
Definition add_column (col : string) (cols : list string) : list string :=
if bool_decide (col ∈ cols) then cols else cols ++ [col].

(** [df["source_subfolder"] = subdir; df["source_file"] = file] *)
Definition tag_source (subdir file : string) (df : DataFrame) : DataFrame :=
Frame
  (add_column "source_file" (add_column "source_subfolder" (columns df)))
  (prod_map id
     (fun r => Row (Design r) (Average_i_pTM r) (Average_i_pAE r) subdir file)
   <$> body df).

(** The union of the headers, each name at its first place. *)
Definition union_columns (dfs : list DataFrame) : list string :=
foldl (fun acc df => foldl (fun a c => add_column c a) acc (columns df))
      [] dfs.

(** [pd.concat(dfs, ignore_index=True)] *)
Definition concat_frames (dfs : list DataFrame) : DataFrame :=
Frame (union_columns dfs)
      (range_index (concat ((fun df => (body df).*2) <$> dfs))).

(** [df.reset_index(drop=True)] *)
Definition reset_index (df : DataFrame) : DataFrame :=
Frame (columns df) (range_index (body df).*2).



(** Order of two cells of a sort column: NaN goes last whatever the
    direction ([na_position='last']). *)
Definition cmp_cell (ascending : bool) (a b : option Z) : comparison :=
match a, b with
| None, None => Eq
| None, Some _ => Gt
| Some _, None => Lt
| Some x, Some y => if ascending then (x ?= y)%Z else (y ?= x)%Z
end.

(** A sort column and its direction. *)
Definition sort_key : Type := (row -> option Z) * bool.

(** Lexicographic order on the sort columns. *)
Fixpoint cmp_rows (by_ : list sort_key) (r1 r2 : row) : comparison :=
match by_ with
| [] => Eq
| (col, ascending) :: rest =>
  match cmp_cell ascending (col r1) (col r2) with
  | Eq => cmp_rows rest r1 r2
  | c => c
  end
end.

(** The stable sort [np.lexsort] performs for several columns. *)
Definition lexsort (cmp : row -> row -> comparison)
    (l : list (nat * row)) : list (nat * row) :=
PyList.stable_sort (fun a b : nat * row => cmp a.2 b.2) l.

Section SortValues.

(** For a single column pandas sorts with NumPy's default
    [kind='quicksort'], which orders the lines but promises nothing on the
    order of ties: it is a parameter of the model. *)
Variable argsort_quick :
  (row -> row -> comparison) -> list (nat * row) -> list (nat * row).

(** [df.sort_values(by, ascending=...)] *)
Definition sort_values (by_ : list sort_key) (df : DataFrame) : DataFrame :=
match by_ with
| [] => df
| [k] => Frame (columns df) (argsort_quick (cmp_rows [k]) (body df))
| _ => Frame (columns df) (lexsort (cmp_rows by_) (body df))
end.

(** The columns the aggregator sorts on, when the frame has them:
    [Average_i_pTM] descending, then [Average_i_pAE] ascending. *)
Definition sort_columns (df : DataFrame) : list sort_key :=
(if bool_decide ("Average_i_pTM" ∈ columns df)
 then [(Average_i_pTM, false)] else [])
++
(if bool_decide ("Average_i_pAE" ∈ columns df)
 then [(Average_i_pAE, true)] else []).


End SortValues.

(** [df['rank'] = range(1, len(df) + 1)]: the rank of a line is its place
    in the table, counted from 1. *)
Definition assign_ranks {A : Type} (lines : list A) : list (nat * A) :=
zip (seq 1 (length lines)) lines.

End Pandas.

(** ** The Score Aggregator (script 4) *)

Module Aggregator.
Import PyStr Pandas.

(** What the script prints that matters here. *)
Inductive event : Type :=
| ErrorReading (file e : string)
| SortedData (subdir : string)
| WarnNoMetricColumn (subdir : string)
| Created (file : string)
| NoCsvFound
| NoCsvToMerge
| PoolingCompleted.

(** A [*.csv] file and what [pd.read_csv] does with it. *)
Definition csv_file : Type := string * py_result csv.

(** The [stats] directory: its subdirectories in [os.listdir] order, each
    with its [*.csv] files in [glob] order, and the [*.csv] files lying
    directly in it. *)
Record stats_dir : Type := Stats {
  subdirs : list (string * list csv_file);
  direct_csv : list csv_file
}.

(** What a run leaves: the per-subfolder frames and the master frame as
    they are handed to [to_csv], and the log. *)
Record outcome : Type := Outcome {
  merged_subdirs : list (string * DataFrame);
  master : option DataFrame;
  log : list event
}.

Definition not_merged (f : csv_file) : bool :=
negb (startswith "merged_" f.1).

(** [sorted(csv_files)]: by name. *)
Definition sorted_files (files : list csv_file) : list csv_file :=
merge_sort (fun a b : csv_file => String.le a.1 b.1) files.

(** The [for csv_file in sorted(csv_files)] loop with its [try]: a file
    that reads is tagged and appended (to [subdir_dfs] and to [all_dfs]
    alike), a file on which [read_csv] raises is reported. *)
Definition read_loop (subdir : string) (files : list csv_file)
    : list DataFrame * list event :=
foldl (fun (acc : list DataFrame * list event) (f : csv_file) =>
         match f.2 with
         | Returned c =>
           (acc.1 ++ [tag_source subdir f.1 (read_csv c)], acc.2)
         | Raised e => (acc.1, acc.2 ++ [ErrorReading f.1 e])
         end)
      ([], []) files.

Section Run.

Variable argsort_quick :
  (row -> row -> comparison) -> list (nat * row) -> list (nat * row).

(** The sort of a concatenated frame and what is printed about it. *)
Definition sort_and_report (name : string) (df : DataFrame)
    : DataFrame * list event :=
match sort_columns df with
| [] => (df, [WarnNoMetricColumn name])
| by_ => (sort_values argsort_quick by_ df, [SortedData name])
end.

(** One turn of [for subdir in subdirs]. *)
Definition process_subdir
    (st : list DataFrame * list (string * DataFrame) * list event)
    (sd : string * list csv_file)
    : list DataFrame * list (string * DataFrame) * list event :=
let '(all_dfs, outs, lg) := st in
let csv_files := filter (fun f => not_merged f) sd.2 in
match csv_files with
| [] => st
| _ =>
  let (subdir_dfs, errs) := read_loop sd.1 (sorted_files csv_files) in
  match subdir_dfs with
  | [] => (all_dfs, outs, lg ++ errs)
  | _ =>
    let (merged, msgs) := sort_and_report sd.1 (concat_frames subdir_dfs) in
    (all_dfs ++ subdir_dfs,
     outs ++ [(sd.1, merged)],
     lg ++ errs ++ msgs ++ [Created ("merged_" +:+ sd.1 +:+ "_stats.csv")])
  end
end.

(** The part of the script after the subdirectories are known. *)
Definition merge_all (sds : list (string * list csv_file)) : outcome :=
let '(all_dfs, outs, lg) := foldl process_subdir ([], [], []) sds in
match all_dfs with
| [] => Outcome outs None (lg ++ [NoCsvToMerge; PoolingCompleted])
| _ =>
  let (sorted, msgs) := sort_and_report "master" (concat_frames all_dfs) in
  let master_df :=
    match sort_columns (concat_frames all_dfs) with
    | [] => sorted
    | _ => reset_index sorted
    end in
  Outcome outs (Some master_df)
    (lg ++ msgs ++ [Created "merged_all_final_design_stats.csv";
                    PoolingCompleted])
end.

(** The whole script.  Without subdirectories the files lying directly in
    [stats] are linked into a new [direct_files] subdirectory, except the
    [merged_] ones; with no file at all the script calls [exit()]. *)
Definition run (stats : stats_dir) : py_result outcome :=
match subdirs stats with
| [] =>
  match direct_csv stats with
  | [] => Returned (Outcome [] None [NoCsvFound])
  | files =>
    Returned (merge_all [("direct_files", filter (fun f => not_merged f) files)])
  end
| sds => Returned (merge_all sds)
end.

End Run.

End Aggregator.

(** ** Paths and the file system *)

Module PyPath.
Import PyStr.

(** The file system: file contents by path, paths spelled as
    [os.walk(".")] and [os.path.join] spell them. *)
Abbreviation filesystem := (gmap string string).

Definition has_slash (s : string) : bool := contains "/" s.

Fixpoint all_slashes (s : string) : bool :=
match s with
| "" => true
| String c t => is_char "/" c && all_slashes t
end.

(** [s.rstrip('/')] *)
Fixpoint rstrip_slashes (s : string) : string :=
match s with
| "" => ""
| String c t =>
  match rstrip_slashes t with
  | "" => if is_char "/" c then "" else String c ""
  | t' => String c t'
  end
end.

(** [os.path.dirname(p)] *)
Definition dirname (p : string) : string :=
let head := match rfind "/" p with Some i => take (S i) p | None => "" end in
if all_slashes head then head else rstrip_slashes head.

(** [os.path.join(a, b)] *)
Definition join (a b : string) : string :=
if startswith "/" b then b
else if bool_decide (a = "") || endswith "/" a then a +:+ b
else a +:+ "/" +:+ b.

(** [s.split(c)] for a single character. *)
Fixpoint split (c : ascii) (s : string) : list string :=
match s with
| "" => [""]
| String a t =>
  if is_char c a then "" :: split c t
  else
    match split c t with
    | x :: r => String a x :: r
    | [] => [String a ""]
    end
end.

(** [Path(p).parts]: the root if there is one, then the components that
    are neither empty nor a single dot. *)
Definition parts (p : string) : list string :=
(if startswith "//" p && negb (startswith "///" p) then ["//"]
 else if startswith "/" p then ["/"] else [])
++ filter (fun x => x ≠ "" ∧ x ≠ ".") (split "/" p).

(** [shutil.copy2(src, dst)]: raises when the source is missing. *)
Definition copy2 (src dst : string) (fs : filesystem) : py_result filesystem :=
match fs !! src with
| Some data => Returned (<[dst := data]> fs)
| None => Raised "FileNotFoundError"
end.

(** [os.path.exists(p)] *)
Definition exists_ (p : string) (fs : filesystem) : bool :=
bool_decide (is_Some (fs !! p)).

End PyPath.

(** ** Rank Join & Tagging (script 6) *)

Module RankJoin.
Import PyStr PyPath Pandas.

(** [s\d+_mpnn\d+] tried at the head of [s].  Each [\d+] takes the whole
    run of digits: giving a digit back never helps, as the next thing to
    match is not a digit. *)
Definition identifier_here (s : string) : option string :=
match s with
| String c t =>
  if is_char "s" c then
    let (d1, r1) := span_digits t in
    if bool_decide (d1 = "") then None
    else if startswith "_mpnn" r1 then
      let (d2, _) := span_digits (drop 5 r1) in
      if bool_decide (d2 = "") then None
      else Some ("s" +:+ d1 +:+ "_mpnn" +:+ d2)
    else None
  else None
| "" => None
end.

(** [re.search(r'(s\d+_mpnn\d+)', filename)]: the leftmost match, or
    [None]. *)
Fixpoint extract_identifier (filename : string) : option string :=
match filename with
| "" => None
| String _ t =>
  match identifier_here filename with
  | Some m => Some m
  | None => extract_identifier t
  end
end.

Inductive event : Type :=
| MasterNotFound
| ColumnNotFound (file : string)
| NoRankingsFound
| NoPdbFiles
| NoMotherFolder (pdb_path : string)
| NoIdentifier (pdb_filename : string)
| RankingsNotFound (identifier pdb_filename : string)
    (individual master : option nat)
| Overwritten (pdb_filename identifier new_filename : string)
| Copied (pdb_filename identifier new_filename : string)
| Summary (copied overwritten skipped total : nat).

(** The [for _, row in df.iterrows()] loop that fills a ranking: a line
    with a missing identifier, or one from which no identifier can be
    extracted, is passed over; an identifier met again is overwritten. *)
Definition fill_rankings (lines : list (nat * row))
    (init : gmap string nat) : gmap string nat :=
foldl (fun (m : gmap string nat) (l : nat * row) =>
         match Design l.2 with
         | Some d =>
           match extract_identifier d with
           | Some identifier => <[identifier := l.1]> m
           | None => m
           end
         | None => m
         end)
      init lines.

(** The ranking held by one table: lines are ranked by their place. *)
Definition table_rankings (c : csv) (init : gmap string nat)
    : gmap string nat :=
fill_rankings (assign_ranks (records c)) init.

(** [filename.replace("merged_", "").replace("_stats.csv", "")] *)
Definition subfolder_name (filename : string) : string :=
replace "_stats.csv" "" (replace "merged_" "" filename).

Definition master_name : string := "merged_all_final_design_stats.csv".

(** One turn of the loop over [glob("merged_*_stats.csv")]. *)
Definition load_individual
    (acc : py_result (gmap string (gmap string nat) * list event))
    (f : string * py_result csv)
    : py_result (gmap string (gmap string nat) * list event) :=
match acc with
| Raised e => Raised e
| Returned (individual_rankings, lg) =>
  if bool_decide (f.1 = master_name) then acc
  else
    match f.2 with
    | Raised e => Raised e
    | Returned c =>
      if bool_decide ("Design" ∈ header c) then
        let name := subfolder_name f.1 in
        let old := default ∅ (individual_rankings !! name) in
        Returned (<[name := table_rankings c old]> individual_rankings, lg)
      else Returned (individual_rankings, lg ++ [ColumnNotFound f.1])
    end
end.

(** The [stats] directory as this script reads it: the master table and
    the files [glob] finds under [merged_*_stats.csv] (the master table is
    one of them). *)
Record stats_files : Type := StatsFiles {
  master_file : file_state csv;
  merged_files : list (string * py_result csv)
}.

(** [get_file_rankings()]: the per-subfolder rankings, the master
    ranking, and what was printed. *)
Definition get_file_rankings (stats : stats_files)
    : py_result (gmap string (gmap string nat) * gmap string nat * list event) :=
match master_file stats with
| Absent => Returned (∅, ∅, [MasterNotFound])
| Unreadable e => Raised e
| Readable c =>
  if bool_decide ("Design" ∈ header c) then
    match foldl load_individual (Returned (∅, [])) (merged_files stats) with
    | Raised e => Raised e
    | Returned (individual_rankings, lg) =>
      Returned (individual_rankings, table_rankings c ∅, lg)
    end
  else Returned (∅, ∅, [ColumnNotFound master_name])
end.

(** [root.endswith("pooled/aligned") or "/pooled/aligned" in root] *)
Definition in_pooled_aligned (root : string) : bool :=
endswith "pooled/aligned" root || contains "/pooled/aligned" root.

(** What [os.walk(".")] yields: each directory visited with its
    subdirectories, and for each of those what [os.listdir] finds in it. *)
Definition walk : Type := list (string * list (string * list string)).

(** [find_corresponding_pdb_files()] *)
Definition find_corresponding_pdb_files (w : walk) : list string :=
concat
  ((fun entry : string * list (string * list string) =>
      if in_pooled_aligned entry.1 then
        concat
          ((fun sub : string * list string =>
              if contains "filtered" sub.1 then
                join (join entry.1 sub.1) <$> filter (fun file => endswith ".pdb" file) sub.2
              else [])
           <$> entry.2)
      else [])
   <$> w).

Fixpoint mother_go (prev : string) (ps : list string) : option string :=
match ps with
| [] => None
| part :: rest =>
  if bool_decide (part = "pooled") then Some prev else mother_go part rest
end.

(** [extract_mother_folder_name(pdb_path)]: the component before the
    first [pooled] that is not the first component. *)
Definition extract_mother_folder_name (pdb_path : string) : option string :=
match parts pdb_path with
| [] => None
| first :: rest => mother_go first rest
end.

(** A file that [clear_podium_directories()] removes: it lies directly in
    a directory named [podium] whose parent passes the [pooled/aligned]
    test. *)
Definition in_cleared_podium (p : string) : bool :=
bool_decide (basename (dirname p) = "podium")
&& in_pooled_aligned (dirname (dirname p)).

(** [clear_podium_directories()] *)
Definition clear_podium_directories (fs : filesystem) : filesystem :=
filter (fun kv : string * string => in_cleared_podium kv.1 = false) fs.

(** [f"{individual_rank}_{master_rank}_{pdb_filename}"] *)
Definition new_filename (individual_rank master_rank : nat)
    (pdb_filename : string) : string :=
pretty individual_rank +:+ "_" +:+ pretty master_rank +:+ "_" +:+ pdb_filename.

Record loop_state : Type := LoopState {
  files : filesystem;
  copied_files : nat;
  skipped_files : nat;
  overwritten_files : nat;
  printed : list event
}.

Definition skip (st : loop_state) (e : event) : loop_state :=
LoopState (files st) (copied_files st) (S (skipped_files st))
          (overwritten_files st) (printed st ++ [e]).

(** The two look-ups of the loop body. *)
Definition individual_lookup
    (individual_rankings : gmap string (gmap string nat))
    (mother_folder identifier : string) : option nat :=
individual_rankings !! mother_folder ≫= fun m => m !! identifier.

(** The body of [for pdb_path in pdb_files]. *)
Definition process_pdb
    (individual_rankings : gmap string (gmap string nat))
    (master_rankings : gmap string nat)
    (st : loop_state) (pdb_path : string) : py_result loop_state :=
match extract_mother_folder_name pdb_path with
| None => Returned (skip st (NoMotherFolder pdb_path))
| Some mother_folder =>
  if bool_decide (mother_folder = "")
  then Returned (skip st (NoMotherFolder pdb_path))
  else
  let pdb_filename := basename pdb_path in
  match extract_identifier pdb_filename with
  | None => Returned (skip st (NoIdentifier pdb_filename))
  | Some identifier =>
    let individual_rank :=
      individual_lookup individual_rankings mother_folder identifier in
    let master_rank := master_rankings !! identifier in
    match individual_rank, master_rank with
    | Some ir, Some mr =>
      let dest_path :=
        join (join (dirname pdb_path) "podium")
             (new_filename ir mr pdb_filename) in
      let file_existed := exists_ dest_path (files st) in
      match copy2 pdb_path dest_path (files st) with
      | Raised e => Raised e
      | Returned fs' =>
        Returned
          (LoopState fs' (S (copied_files st)) (skipped_files st)
             (if file_existed then S (overwritten_files st)
              else overwritten_files st)
             (printed st ++
                [(if file_existed then Overwritten else Copied)
                   pdb_filename identifier
                   (new_filename ir mr pdb_filename)]))
      end
    | _, _ =>
      Returned (skip st (RankingsNotFound identifier pdb_filename
                           individual_rank master_rank))
    end
  end
end.

(** The loop itself: an exception ends it. *)
Definition copy_loop
    (individual_rankings : gmap string (gmap string nat))
    (master_rankings : gmap string nat)
    (st : loop_state) (pdb_files : list string) : py_result loop_state :=
foldl (fun (acc : py_result loop_state) (pdb_path : string) =>
         match acc with
         | Raised e => Raised e
         | Returned s => process_pdb individual_rankings master_rankings s pdb_path
         end)
      (Returned st) pdb_files.

(** [copy_files_with_rankings()], the whole stage: the state of the file
    system and the counters at its end. *)
Definition copy_files_with_rankings (stats : stats_files) (w : walk)
    (fs : filesystem) : py_result loop_state :=
let fs1 := clear_podium_directories fs in
match get_file_rankings stats with
| Raised e => Raised e
| Returned (individual_rankings, master_rankings, lg) =>
  if bool_decide (master_rankings = ∅) && bool_decide (individual_rankings = ∅)
  then Returned (LoopState fs1 0 0 0 (lg ++ [NoRankingsFound]))
  else
    match find_corresponding_pdb_files w with
    | [] => Returned (LoopState fs1 0 0 0 (lg ++ [NoPdbFiles]))
    | pdb_files =>
      match copy_loop individual_rankings master_rankings
              (LoopState fs1 0 0 0 lg) pdb_files with
      | Raised e => Raised e
      | Returned st =>
        Returned
          (LoopState (files st) (copied_files st) (skipped_files st)
             (overwritten_files st)
             (printed st ++
                [Summary (copied_files st) (overwritten_files st)
                   (skipped_files st) (length pdb_files)]))
      end
    end
end.

End RankJoin.

(** ** Duplicate Resolution (script 9) *)

Module Doublets.
Import PyStr PyPath Pandas.

(** A [dict] in insertion order: a key keeps the place of its first
    insertion when its value is overwritten. *)
Fixpoint dict_get {V : Type} (k : string) (d : list (string * V)) : option V :=
match d with
| [] => None
| (k', v) :: rest => if bool_decide (k = k') then Some v else dict_get k rest
end.

Fixpoint dict_set {V : Type} (k : string) (v : V) (d : list (string * V))
    : list (string * V) :=
match d with
| [] => [(k, v)]
| (k', v') :: rest =>
  if bool_decide (k = k') then (k, v) :: rest else (k', v') :: dict_set k v rest
end.

(** [k in d] *)
Definition dict_mem {V : Type} (k : string) (d : list (string * V)) : bool :=
match dict_get k d with Some _ => true | None => false end.

(** [_s(\d+)_] tried at the head of [s]; the group is the run of digits. *)
Definition s_number_here (s : string) : option string :=
if startswith "_s" s then
  let (d, r) := span_digits (drop 2 s) in
  if bool_decide (d = "") then None
  else if startswith "_" r then Some d else None
else None.

(** [extract_s_number(filename)]: [re.search(r'_s(\d+)_', filename)] *)
Fixpoint extract_s_number (filename : string) : option string :=
match filename with
| "" => None
| String _ t =>
  match s_number_here filename with
  | Some d => Some d
  | None => extract_s_number t
  end
end.

(** [re.sub(r'^\d+_\d+_', '', s)]: the anchor allows one match, at the
    head. *)
Definition strip_rank_prefix (s : string) : string :=
let (d1, r1) := span_digits s in
if bool_decide (d1 = "") then s
else if startswith "_" r1 then
  let (d2, r2) := span_digits (drop 1 r1) in
  if bool_decide (d2 = "") then s
  else if startswith "_" r2 then drop 1 r2 else s
else s.

(** [re.sub(r'_model\d+.*$', '', s)] *)
Definition strip_model (s : string) : string :=
re_sub_to_eol (literal "_model" ++ [is_digit]) s.

(** [re.sub(r'_aligned.*$', '', s)] *)
Definition strip_aligned (s : string) : string :=
re_sub_to_eol (literal "_aligned") s.

(** The four rewriting steps at the head of the extractor. *)
Definition normalize (filename : string) : string :=
strip_aligned (strip_model (strip_rank_prefix (splitext_root filename))).

Inductive event : Type :=
| MasterNotFound
| ColumnNotFound
| NoRankingsLoaded
| Loaded (n : nat)
| PooledDirNotFound (pooled_path : string)
| Processing (pooled_dir : string)
| SubstitutionMatch (base_name alt_name : string)
| FuzzyMatch (core_identifier csv_name : string) (csv_rank : nat)
| NoRankingFound (core_identifier filename : string)
| CopiedCounts (copied_unique copied_not_unique : nat)
| Cancelled
| Complete.

(** [extract_core_identifier_with_ag1_fallback(filename, master_rankings)],
    with what it prints. *)
Definition extract_core_identifier_with_ag1_fallback (filename : string)
    (master_rankings : list (string * nat)) : string * list event :=
let base_name := normalize filename in
if dict_mem base_name master_rankings then (base_name, [])
else
  let alt_name := replace "_ag1_" "_7_" base_name in
  if contains "_ag1_" base_name && dict_mem alt_name master_rankings
  then (alt_name, [SubstitutionMatch base_name alt_name])
  else (base_name, []).

(** The loop of [get_master_rankings()] over the ranked lines. *)
Definition fill_rankings (lines : list (nat * row)) : list (string * nat) :=
foldl (fun (d : list (string * nat)) (l : nat * row) =>
         match Design l.2 with
         | Some design => dict_set (splitext_root (strip design)) l.1 d
         | None => d
         end)
      [] lines.

(** [get_master_rankings()] *)
Definition get_master_rankings (master_file : file_state csv)
    : py_result (list (string * nat) * list event) :=
match master_file with
| Absent => Returned ([], [MasterNotFound])
| Unreadable e => Raised e
| Readable c =>
  if bool_decide ("Design" ∈ header c)
  then Returned (fill_rankings (assign_ranks (records c)), [])
  else Returned ([], [ColumnNotFound])
end.

(** The fuzzy look-up: the first entry, in the order of the dictionary,
    whose key contains the identifier or is contained in it. *)
Fixpoint fuzzy_match (core_identifier : string)
    (master_rankings : list (string * nat)) : option (string * nat) :=
match master_rankings with
| [] => None
| (csv_name, csv_rank) :: rest =>
  if contains csv_name core_identifier || contains core_identifier csv_name
  then Some (csv_name, csv_rank)
  else fuzzy_match core_identifier rest
end.

(** The rank the loop of [find_best_and_worst_ranked_files] finds for one
    file, the identifier it used, and what it prints. *)
Definition resolve (file_path : string) (master_rankings : list (string * nat))
    : option nat * string * list event :=
let filename := basename file_path in
let (core_identifier, lg) :=
  extract_core_identifier_with_ag1_fallback filename master_rankings in
match dict_get core_identifier master_rankings with
| Some rank => (Some rank, core_identifier, lg)
| None =>
  match fuzzy_match core_identifier master_rankings with
  | Some (csv_name, csv_rank) =>
    (Some csv_rank, core_identifier,
     lg ++ [FuzzyMatch core_identifier csv_name csv_rank])
  | None =>
    (None, core_identifier, lg ++ [NoRankingFound core_identifier filename])
  end
end.

(** An entry of [file_rankings]: path, rank, identifier. *)
Definition entry : Type := string * nat * string.

Definition rank_of (e : entry) : nat := e.1.2.
Definition path_of (e : entry) : string := e.1.1.

(** The first loop of [find_best_and_worst_ranked_files]. *)
Definition collect_rankings (files : list string)
    (master_rankings : list (string * nat)) : list entry * list event :=
foldl (fun (acc : list entry * list event) (file_path : string) =>
         let '(rank, core_identifier, lg) := resolve file_path master_rankings in
         match rank with
         | Some r => (acc.1 ++ [(file_path, r, core_identifier)], acc.2 ++ lg)
         | None => (acc.1, acc.2 ++ lg)
         end)
      ([], []) files.

(** [file_rankings.sort(key=lambda x: x[1])] *)
Definition sort_by_rank (l : list entry) : list entry :=
PyList.stable_sort (fun a b => Nat.compare (rank_of a) (rank_of b)) l.

(** [find_best_and_worst_ranked_files(files, master_rankings)]: the best
    entry if any file has a rank, the other ranked entries, all ranked
    entries in order of rank. *)
Definition find_best_and_worst_ranked_files (files : list string)
    (master_rankings : list (string * nat))
    : option entry * list entry * list entry * list event :=
let (file_rankings, lg) := collect_rankings files master_rankings in
match sort_by_rank file_rankings with
| [] => (None, [], [], lg)
| best_file :: worst_files =>
  (Some best_file, worst_files, best_file :: worst_files, lg)
end.

(** The state of a run: the file system, the [shutil.copy2] calls made so
    far (source, destination), and what was printed. *)
Record state : Type := State {
  files : filesystem;
  copies : list (string * string);
  printed : list event
}.

(** [if not os.path.exists(dest_path): shutil.copy2(file_path, dest_path)]
    with the counter that goes with it. *)
Definition copy_if_absent (file_path dest_dir : string)
    (st : state) (counter : nat) : py_result (state * nat) :=
let dest_path := join dest_dir (basename file_path) in
if exists_ dest_path (files st) then Returned (st, counter)
else
  match copy2 file_path dest_path (files st) with
  | Raised e => Raised e
  | Returned fs' =>
    Returned (State fs' (copies st ++ [(file_path, dest_path)]) (printed st),
              S counter)
  end.

(** The [for worst_file in worst_files] loop. *)
Definition copy_worst (not_unique_dir : string) (worst_files : list entry)
    (st : state) (counter : nat) : py_result (state * nat) :=
foldl (fun (acc : py_result (state * nat)) (worst_file : entry) =>
         match acc with
         | Raised e => Raised e
         | Returned (s, n) => copy_if_absent (path_of worst_file) not_unique_dir s n
         end)
      (Returned (st, counter)) worst_files.

(** The state inside the loop over the groups, with both counters. *)
Definition group_state : Type := state * nat * nat.

(** The body of [for s_number, files in s_number_groups.items()]. *)
Definition process_group (unique_dir not_unique_dir : string)
    (master_rankings : list (string * nat))
    (gs : group_state) (group : string * list string)
    : py_result group_state :=
let '(st, copied_unique, copied_not_unique) := gs in
match group.2 with
| [file_path] =>
  match copy_if_absent file_path unique_dir st copied_unique with
  | Raised e => Raised e
  | Returned (st', cu) => Returned (st', cu, copied_not_unique)
  end
| files_ =>
  let '(best_file, worst_files, _, lg) :=
    find_best_and_worst_ranked_files files_ master_rankings in
  let st0 := State (files st) (copies st) (printed st ++ lg) in
  match best_file with
  | Some best =>
    match copy_if_absent (path_of best) unique_dir st0 copied_unique with
    | Raised e => Raised e
    | Returned (st1, cu) =>
      match copy_worst not_unique_dir worst_files st1 copied_not_unique with
      | Raised e => Raised e
      | Returned (st2, cn) => Returned (st2, cu, cn)
      end
    end
  | None => Returned (st0, copied_unique, copied_not_unique)
  end
end.

(** [s_number_groups[s_number].append(pdb_file)] on a [defaultdict(list)] *)
Definition group_append (s_number pdb_file : string)
    (groups : list (string * list string)) : list (string * list string) :=
dict_set s_number (default [] (dict_get s_number groups) ++ [pdb_file]) groups.

(** The grouping loop: a file without grouping token joins no group. *)
Definition group_by_s_number (pdb_files : list string)
    : list (string * list string) :=
foldl (fun (groups : list (string * list string)) (pdb_file : string) =>
         match extract_s_number (basename pdb_file) with
         | Some s_number =>
           if bool_decide (s_number = "") then groups
           else group_append s_number pdb_file groups
         | None => groups
         end)
      [] pdb_files.

(** The loop over the groups. *)
Definition process_groups (unique_dir not_unique_dir : string)
    (master_rankings : list (string * nat))
    (gs : group_state) (groups : list (string * list string))
    : py_result group_state :=
foldl (fun (acc : py_result group_state) (group : string * list string) =>
         match acc with
         | Raised e => Raised e
         | Returned s => process_group unique_dir not_unique_dir master_rankings s group
         end)
      (Returned gs) groups.

Definition selection_dir : string := "./selection".

Definition pooled_dirs : list string :=
["filtered_pdbs_jc_5.0A"; "filtered_pdbs_jc_5.5A"; "filtered_pdbs_jc_6.0A"].

(** The body of [for pooled_dir in pooled_dirs].  [glob_pdb] gives, for a
    directory that exists, the result of [glob(pooled_path + "/*.pdb")]. *)
Definition process_pooled_dir (glob_pdb : string -> option (list string))
    (master_rankings : list (string * nat))
    (acc : py_result state) (pooled_dir : string) : py_result state :=
match acc with
| Raised e => Raised e
| Returned st =>
  let pooled_path := join selection_dir pooled_dir in
  match glob_pdb pooled_path with
  | None =>
    Returned (State (files st) (copies st)
                (printed st ++ [PooledDirNotFound pooled_path]))
  | Some pdb_files =>
    let unique_dir := join pooled_path "unique" in
    let not_unique_dir := join pooled_path "not_unique_basefold" in
    let st0 := State (files st) (copies st) (printed st ++ [Processing pooled_dir]) in
    match process_groups unique_dir not_unique_dir master_rankings
            (st0, 0, 0) (group_by_s_number pdb_files) with
    | Raised e => Raised e
    | Returned (st1, cu, cn) =>
      Returned (State (files st1) (copies st1)
                  (printed st1 ++ [CopiedCounts cu cn]))
    end
  end
end.

(** [process_duplicates()] *)
Definition process_duplicates (master_file : file_state csv)
    (glob_pdb : string -> option (list string)) (fs : filesystem)
    : py_result state :=
match get_master_rankings master_file with
| Raised e => Raised e
| Returned (master_rankings, lg) =>
  match master_rankings with
  | [] => Returned (State fs [] (lg ++ [NoRankingsLoaded]))
  | _ =>
    foldl (process_pooled_dir glob_pdb master_rankings)
          (Returned (State fs [] (lg ++ [Loaded (length master_rankings)])))
          pooled_dirs
  end
end.


End Doublets.

(** * Properties *)

(** ** Stable sorting *)

Section StableSort.
Context {A : Type} (cmp : A -> A -> comparison) (label : A -> nat).

(** What the sort needs of the comparison: it is a total preorder. *)
Hypothesis cmp_antisym : forall a b, cmp a b = CompOpp (cmp b a).
Hypothesis cmp_trans :
  forall a b c, cmp a b <> Gt -> cmp b c <> Gt -> cmp a c <> Gt.


Lemma insert_stable_perm x l : PyList.insert_stable cmp x l ≡ₚ x :: l.
Proof.
induction l as [|y l IH]; simpl; [done|].
destruct (cmp x y); try done.
rewrite IH. apply Permutation_swap.
Qed.

Lemma stable_sort_perm l : PyList.stable_sort cmp l ≡ₚ l.
Proof.
induction l as [|x l IH]; simpl; [done|].
rewrite insert_stable_perm. by rewrite IH.
Qed.





End StableSort.



Lemma assign_ranks_lookup {A : Type} (lines : list A) (k : nat) (x : A) :
  (k, x) ∈ Pandas.assign_ranks lines <-> exists i, k = S i /\ lines !! i = Some x.
Proof.
unfold Pandas.assign_ranks. rewrite list_elem_of_lookup. split.
- intros [i Hi]. exists i. apply lookup_zip_with_Some in Hi
    as (k' & x' & [= <- <-] & Hk & Hx).
  apply lookup_seq in Hk as [-> _]. done.
- intros (i & -> & Hx). exists i. apply lookup_zip_with_Some.
  exists (S i), x. split; [done|]. split; [|done].
  apply lookup_seq. split; [done|]. by eapply lookup_lt_Some.
Qed.

(** ** The order of the sort columns *)








(** ** Rank tables of the Score Aggregator *)

Section RankTables.
Import Pandas.
Variable argsort_quick :
  (row -> row -> comparison) -> list (nat * row) -> list (nat * row).



End RankTables.


(** A table of three lines: the first has the lowest primary metric, the
    other two tie on both metrics. *)
Definition sample_scores : Pandas.DataFrame :=
Pandas.Frame ["Design"; "Average_i_pTM"; "Average_i_pAE"]
  [(0, Pandas.Row (Some "d_s1_mpnn1") (Some 5%Z) (Some 3%Z) "run1" "a.csv");
   (1, Pandas.Row (Some "d_s2_mpnn1") (Some 9%Z) (Some 3%Z) "run1" "a.csv");
   (2, Pandas.Row (Some "d_s3_mpnn1") (Some 9%Z) (Some 3%Z) "run1" "a.csv")].


(** C2. The ranks given to a table of N lines, the master table or a
    per-subfolder one, are exactly 1, ..., N in this order: every number
    from 1 to N is the rank of a line, no other number is, no rank is
    given twice, and the lines are the table's own. *)
Theorem ranks_dense_permutation (c : Pandas.csv) :
  let ranked := Pandas.assign_ranks (Pandas.records c) in
  let n := length (Pandas.records c) in
  ranked.*1 = seq 1 n /\
  ranked.*2 = Pandas.records c /\
  NoDup ranked.*1 /\
  (forall k, k ∈ ranked.*1 <-> 1 <= k <= n).
Proof.
intros ranked n. subst ranked n. unfold Pandas.assign_ranks.
assert ((zip (seq 1 (length (Pandas.records c))) (Pandas.records c)).*1
        = seq 1 (length (Pandas.records c))) as Hfst.
{ apply fst_zip. rewrite length_seq. done. }
rewrite Hfst. split; [done|]. split.
- apply snd_zip. rewrite length_seq. done.
- split; [apply NoDup_seq|].
  intros k. rewrite elem_of_seq. lia.
Qed.

(** ** Rankings read back from the master table *)

Lemma assign_ranks_snoc {A : Type} (lines : list A) (x : A) :
  Pandas.assign_ranks (lines ++ [x])
  = Pandas.assign_ranks lines ++ [(S (length lines), x)].
Proof.
unfold Pandas.assign_ranks. rewrite length_app. simpl.
rewrite Nat.add_1_r, seq_S.
apply (zip_with_app pair (seq 1 (length lines)) [1 + length lines] lines [x]).
by rewrite length_seq.
Qed.

Lemma assign_ranks_bound {A : Type} (lines : list A) (k : nat) (x : A) :
  (k, x) ∈ Pandas.assign_ranks lines -> 1 <= k <= length lines.
Proof.
intros (i & -> & Hi)%assign_ranks_lookup.
apply lookup_lt_Some in Hi. lia.
Qed.

Section LastWins.
Context {M : Type} (lookup : string -> M -> option nat)
  (step : M -> nat * Pandas.row -> M) (key : Pandas.row -> option string).

(** A ranking is filled line by line, each line setting the entry of its
    own key and no other. *)
Hypothesis lookup_step : forall m l id,
  lookup id (step m l)
  = if decide (key l.2 = Some id) then Some l.1 else lookup id m.

Lemma last_line_wins (rows : list Pandas.row) (init : M) (id : string)
    (k : nat) (r : Pandas.row) :
  (k, r) ∈ Pandas.assign_ranks rows -> key r = Some id ->
  exists k' r',
    lookup id (foldl step init (Pandas.assign_ranks rows)) = Some k' /\
    k <= k' /\ (k', r') ∈ Pandas.assign_ranks rows /\ key r' = Some id.
Proof.
revert k r. induction rows as [|x rows IH] using rev_ind; intros k r Hin Hkey.
- by apply elem_of_nil in Hin.
- pose proof (assign_ranks_bound _ _ _ Hin) as Hb.
  rewrite length_app in Hb. simpl in Hb.
  rewrite assign_ranks_snoc in Hin |- *. rewrite foldl_app. simpl.
  rewrite lookup_step. simpl.
  destruct (decide (key x = Some id)) as [Hx|Hx].
  + exists (S (length rows)), x. split; [done|]. split; [lia|].
    split; [|done]. apply elem_of_app. right. by apply list_elem_of_singleton.
  + apply elem_of_app in Hin as [Hin|Hin].
    * destruct (IH k r Hin Hkey) as (k' & r' & Hl & Hle & Hin' & Hk').
      exists k', r'. split; [done|]. split; [done|]. split; [|done].
      apply elem_of_app. by left.
    * apply list_elem_of_singleton in Hin. injection Hin as -> ->. done.
Qed.

End LastWins.

Lemma dict_get_set {V : Type} (k k' : string) (v : V) (d : list (string * V)) :
  Doublets.dict_get k (Doublets.dict_set k' v d)
  = if decide (k = k') then Some v else Doublets.dict_get k d.
Proof.
induction d as [|[k0 v0] d IH]; simpl.
- destruct (decide (k = k')) as [->|Hne].
  + by rewrite bool_decide_eq_true_2.
  + by rewrite bool_decide_eq_false_2.
- destruct (decide (k' = k0)) as [->|Hne0].
  + rewrite bool_decide_eq_true_2 by done. simpl.
    destruct (decide (k = k0)) as [->|Hne].
    * by rewrite bool_decide_eq_true_2.
    * by rewrite bool_decide_eq_false_2.
  + rewrite bool_decide_eq_false_2 by done. simpl. rewrite IH.
    destruct (decide (k = k0)) as [->|Hne].
    * rewrite bool_decide_eq_true_2 by done.
      destruct (decide (k0 = k')); [congruence|done].
    * by rewrite bool_decide_eq_false_2.
Qed.

(** The join key of a line of the master table, for each of the two
    scripts that read it. *)
Definition join_key (r : Pandas.row) : option string :=
Pandas.Design r ≫= RankJoin.extract_identifier.

Definition design_key (r : Pandas.row) : option string :=
(fun design => PyStr.splitext_root (PyStr.strip design)) <$> Pandas.Design r.

(** C9. When several lines of the master table have the same join key,
    the ranking built from the table keeps for that key the rank of the
    last of them, which is the highest: it is the rank of a line with
    that key and no line with that key has a higher one.  This holds for
    the ranking of Rank Join and for that of Duplicate Resolution. *)
Theorem duplicated_identifier_keeps_last_rank (c : Pandas.csv) (id : string)
    (k : nat) (r : Pandas.row) :
  (k, r) ∈ Pandas.assign_ranks (Pandas.records c) ->
  (join_key r = Some id ->
   exists k' r',
     RankJoin.table_rankings c ∅ !! id = Some k' /\ k <= k' /\
     (k', r') ∈ Pandas.assign_ranks (Pandas.records c) /\
     join_key r' = Some id) /\
  (design_key r = Some id ->
   exists k' r',
     Doublets.dict_get id
       (Doublets.fill_rankings (Pandas.assign_ranks (Pandas.records c)))
     = Some k' /\ k <= k' /\
     (k', r') ∈ Pandas.assign_ranks (Pandas.records c) /\
     design_key r' = Some id).
Proof.
intros Hin. split; intros Hkey.
- unfold RankJoin.table_rankings, RankJoin.fill_rankings.
  apply (last_line_wins (fun id (m : gmap string nat) => m !! id) _ join_key)
    with (k := k) (r := r); [|done..].
  intros m l id'. unfold join_key.
  destruct (Pandas.Design l.2) as [d|]; simpl.
  + destruct (RankJoin.extract_identifier d) as [i|]; simpl.
    * destruct (decide (Some i = Some id')) as [[= ->]|Hne].
      -- apply lookup_insert_eq.
      -- apply lookup_insert_ne. congruence.
    * destruct (decide (None = Some id')); done.
  + destruct (decide (None = Some id')); done.
- unfold Doublets.fill_rankings.
  apply (last_line_wins (fun id (m : list (string * nat)) => Doublets.dict_get id m)
           _ design_key) with (k := k) (r := r); [|done..].
  intros m l id'. unfold design_key.
  destruct (Pandas.Design l.2) as [d|]; simpl.
  + rewrite dict_get_set.
    destruct (decide (id' = PyStr.splitext_root (PyStr.strip d))) as [->|Hne].
    * rewrite decide_True by done. done.
    * rewrite decide_False by congruence. done.
  + destruct (decide (None = Some id')); done.
Qed.

(** Two lines of a master table that share their identifier. *)
Definition sample_master : Pandas.csv :=
Pandas.Csv ["Design"; "Average_i_pTM"; "Average_i_pAE"]
  [Pandas.Row (Some "d_s1_mpnn1") (Some 9%Z) (Some 3%Z) "run1" "a.csv";
   Pandas.Row (Some "d_s2_mpnn1") (Some 8%Z) (Some 3%Z) "run1" "a.csv";
   Pandas.Row (Some "d_s1_mpnn1") (Some 7%Z) (Some 3%Z) "run2" "b.csv"].

Lemma duplicated_identifier_keeps_last_rank_witness :
  let r := Pandas.Row (Some "d_s1_mpnn1") (Some 9%Z) (Some 3%Z) "run1" "a.csv" in
  (1, r) ∈ Pandas.assign_ranks (Pandas.records sample_master) /\
  join_key r = Some "s1_mpnn1" /\
  RankJoin.table_rankings sample_master ∅ !! "s1_mpnn1" = Some 3 /\
  exists k' r',
    RankJoin.table_rankings sample_master ∅ !! "s1_mpnn1" = Some k' /\ 1 <= k' /\
    (k', r') ∈ Pandas.assign_ranks (Pandas.records sample_master) /\
    join_key r' = Some "s1_mpnn1".
Proof.
intros r.
assert ((1, r) ∈ Pandas.assign_ranks (Pandas.records sample_master)) as Hin.
{ apply (list_elem_of_lookup_2 _ 0). reflexivity. }
split; [done|]. split; [reflexivity|]. split; [by vm_compute|].
apply (duplicated_identifier_keeps_last_rank sample_master "s1_mpnn1" 1 r Hin).
reflexivity.
Defined.

(** ** What the Score Aggregator merges *)

Section Merged.
Import Pandas Aggregator.

(** A line with the provenance the aggregator gives it. *)
Definition retag (subdir file : string) (r : row) : row :=
Row (Design r) (Average_i_pTM r) (Average_i_pAE r) subdir file.

(** The lines a [*.csv] file brings in: all of them when it reads, none
    when [read_csv] raises. *)
Definition lines_of_file (subdir : string) (f : csv_file) : list row :=
match f.2 with
| Returned c => retag subdir f.1 <$> records c
| Raised _ => []
end.

(** The lines a subdirectory brings in. *)
Definition lines_of_subdir (sd : string * list csv_file) : list row :=
sorted_files (filter (fun f => not_merged f) sd.2) ≫= lines_of_file sd.1.

Definition error_of_file (f : csv_file) : list event :=
match f.2 with
| Returned _ => []
| Raised e => [ErrorReading f.1 e]
end.

(** The lines of the master table of a run. *)
Definition master_rows (out : outcome) : list row :=
match master out with
| Some df => (body df).*2
| None => []
end.

Definition frame_rows (dfs : list DataFrame) : list row :=
dfs ≫= fun df => (body df).*2.

Lemma frame_rows_app (dfs1 dfs2 : list DataFrame) :
  frame_rows (dfs1 ++ dfs2) = frame_rows dfs1 ++ frame_rows dfs2.
Proof. unfold frame_rows. apply bind_app. Qed.

Lemma range_index_rows (rs : list row) : (range_index rs).*2 = rs.
Proof. unfold range_index. apply snd_zip. by rewrite length_seq. Qed.

Lemma concat_bind {A : Type} (l : list (list A)) : concat l = l ≫= id.
Proof. induction l as [|x l IH]; simpl; [done|]. by rewrite IH. Qed.

Lemma concat_frames_rows (dfs : list DataFrame) :
  (body (concat_frames dfs)).*2 = frame_rows dfs.
Proof.
unfold concat_frames, frame_rows. simpl. rewrite range_index_rows.
induction dfs as [|df dfs IH]; csimpl; [done|]. by f_equal.
Qed.


Variable argsort_quick :
  (row -> row -> comparison) -> list (nat * row) -> list (nat * row).

(** All that is asked of the single-column sort: it rearranges. *)
Hypothesis argsort_quick_perm : forall cmp l, argsort_quick cmp l ≡ₚ l.




(** A subdirectory without file to read goes through the same steps as
    the others, to no effect. *)
Lemma process_subdir_eq all_dfs outs lg sd :
  process_subdir argsort_quick (all_dfs, outs, lg) sd
  = let (subdir_dfs, errs) :=
      read_loop sd.1 (sorted_files (filter (fun f => not_merged f) sd.2)) in
    match subdir_dfs with
    | [] => (all_dfs, outs, lg ++ errs)
    | _ =>
      let (merged, msgs) :=
        sort_and_report argsort_quick sd.1 (concat_frames subdir_dfs) in
      (all_dfs ++ subdir_dfs, outs ++ [(sd.1, merged)],
       lg ++ errs ++ msgs ++ [Created ("merged_" +:+ sd.1 +:+ "_stats.csv")])
    end.
Proof.
unfold process_subdir.
destruct (filter (fun f => not_merged f) sd.2) as [|f0 fs0]; [|done].
simpl. by rewrite app_nil_r.
Qed.



End Merged.


(** A batch of two files: one cannot be read, the other has no [Design]
    column. *)
Definition table_without_design : Pandas.csv :=
Pandas.Csv ["Average_i_pTM"; "Average_i_pAE"]
  [Pandas.Row None (Some 5%Z) (Some 3%Z) "" ""].

Definition sample_batch : list (string * list Aggregator.csv_file) :=
[("run1", [("a.csv", Returned table_without_design);
           ("b.csv", Raised "ParserError")])].



(** ** Exit status *)

Lemma get_master_rankings_absent :
  Doublets.get_master_rankings Absent = Returned ([], [Doublets.MasterNotFound]).
Proof. reflexivity. Qed.




(** ** Duplicate groups *)

Section Groups.
Import PyStr PyPath Doublets.

Lemma dict_get_elem {V : Type} (k : string) (v : V) (d : list (string * V)) :
  dict_get k d = Some v -> (k, v) ∈ d.
Proof.
induction d as [|[k0 v0] d IH]; simpl; [done|].
case_bool_decide as Hk.
- intros [= ->]. subst. apply elem_of_cons. by left.
- intros H. apply elem_of_cons. right. by apply IH.
Qed.

Lemma dict_set_elem {V : Type} (k k' : string) (v v' : V)
    (d : list (string * V)) :
  (k', v') ∈ dict_set k v d -> (k', v') = (k, v) \/ (k', v') ∈ d.
Proof.
induction d as [|[k0 v0] d IH]; simpl.
- intros H%list_elem_of_singleton. by left.
- case_bool_decide as Hk.
  + intros [H|H]%elem_of_cons; [by left|].
    right. apply elem_of_cons. by right.
  + intros [H|H]%elem_of_cons.
    * right. apply elem_of_cons. by left.
    * destruct (IH H) as [?|?]; [by left|].
      right. apply elem_of_cons. by right.
Qed.

(** Every member of a group is one of the files listed and carries the
    grouping token of the group. *)
Lemma group_members (pdb_files : list string) (s_number : string)
    (members : list string) (f : string) :
  (s_number, members) ∈ group_by_s_number pdb_files -> f ∈ members ->
  f ∈ pdb_files /\ extract_s_number (basename f) = Some s_number.
Proof.
unfold group_by_s_number.
set (step := fun (groups : list (string * list string)) (pdb_file : string) => _).
assert (forall init,
  (forall k ms x, (k, ms) ∈ init -> x ∈ ms ->
     x ∈ pdb_files /\ extract_s_number (basename x) = Some k) ->
  forall l, (forall x, x ∈ l -> x ∈ pdb_files) ->
  forall k ms x, (k, ms) ∈ foldl step init l -> x ∈ ms ->
     x ∈ pdb_files /\ extract_s_number (basename x) = Some k) as H.
{ intros init Hinit l. revert init Hinit.
  induction l as [|y l IH]; intros init Hinit Hl; simpl; [done|].
  apply IH.
  - intros k ms x Hin Hx. unfold step in Hin.
    destruct (extract_s_number (basename y)) as [sn|] eqn:Hy; [|eauto].
    case_bool_decide; [eauto|].
    unfold group_append in Hin.
    apply dict_set_elem in Hin as [[= -> ->]|Hin]; [|eauto].
    apply elem_of_app in Hx as [Hx|Hx%list_elem_of_singleton].
    + destruct (dict_get sn init) as [old|] eqn:Hget; simpl in Hx.
      * apply dict_get_elem in Hget. eauto.
      * by apply elem_of_nil in Hx.
    + subst. split; [|done]. apply Hl. apply elem_of_cons. by left.
  - intros x Hx. apply Hl. apply elem_of_cons. by right. }
intros Hin Hf. apply (H [] ) with (l := pdb_files) (ms := members); auto.
intros k ms x Hk. by apply elem_of_nil in Hk.
Qed.

(** The [shutil.copy2] calls a step adds to those made before it all
    have their source among [srcs]. *)
Definition copies_from (srcs : string -> Prop) (st st' : state) : Prop :=
exists new, copies st' = copies st ++ new /\
            forall s d, (s, d) ∈ new -> srcs s.

Lemma copies_from_refl srcs st : copies_from srcs st st.
Proof.
exists []. split; [by rewrite app_nil_r|].
intros s d H. by apply elem_of_nil in H.
Qed.

Lemma copies_from_trans srcs st1 st2 st3 :
  copies_from srcs st1 st2 -> copies_from srcs st2 st3 ->
  copies_from srcs st1 st3.
Proof.
intros (n1 & E1 & H1) (n2 & E2 & H2). exists (n1 ++ n2).
split; [by rewrite E2, E1, app_assoc|].
intros s d [H|H]%elem_of_app; eauto.
Qed.

Lemma copies_from_weaken (srcs srcs' : string -> Prop) st st' :
  (forall s, srcs s -> srcs' s) ->
  copies_from srcs st st' -> copies_from srcs' st st'.
Proof. intros Hw (n & E & H). exists n. split; [done|]. eauto. Qed.

(** Files are added, never removed. *)
Definition grows (fs fs' : filesystem) : Prop :=
forall p, is_Some (fs !! p) -> is_Some (fs' !! p).

Lemma copy_if_absent_spec file_path dest_dir st counter st' counter' :
  copy_if_absent file_path dest_dir st counter = Returned (st', counter') ->
  exists_ (join dest_dir (basename file_path)) (files st') = true /\
  grows (files st) (files st') /\
  printed st' = printed st /\
  (st' = st \/
   (exists_ (join dest_dir (basename file_path)) (files st) = false /\
    exists data, files st !! file_path = Some data /\
      files st' = <[join dest_dir (basename file_path) := data]> (files st) /\
      copies st' = copies st ++ [(file_path, join dest_dir (basename file_path))])).
Proof.
unfold copy_if_absent, copy2.
destruct (exists_ _ (files st)) eqn:Hex.
- intros [= <- <-]. split; [done|]. split; [by intros p|]. split; [done|].
  by left.
- destruct (files st !! file_path) as [data|] eqn:Hsrc; [|done].
  intros [= <- <-]. simpl. split; [|split; [|split]].
  + unfold exists_. apply bool_decide_eq_true_2.
    rewrite lookup_insert_eq. eauto.
  + intros p Hp. destruct (decide (join dest_dir (basename file_path) = p))
      as [->|Hne].
    * rewrite lookup_insert_eq. eauto.
    * by rewrite lookup_insert_ne.
  + done.
  + right. split; [done|]. exists data. done.
Qed.

Lemma copy_if_absent_copies file_path dest_dir st counter st' counter' :
  copy_if_absent file_path dest_dir st counter = Returned (st', counter') ->
  copies_from (fun s => s = file_path) st st'.
Proof.
intros H. apply copy_if_absent_spec in H as (_ & _ & _ & [->|(_ & d & _ & _ & E)]).
- apply copies_from_refl.
- exists [(file_path, join dest_dir (basename file_path))]. split; [done|].
  intros s d' Hin%list_elem_of_singleton. by injection Hin as -> _.
Qed.

Lemma exists_grows p fs fs' :
  grows fs fs' -> exists_ p fs = true -> exists_ p fs' = true.
Proof.
unfold exists_. intros Hg H. apply bool_decide_eq_true in H.
apply bool_decide_eq_true_2. by apply Hg.
Qed.

Lemma copy_worst_spec not_unique_dir worst_files st counter st' counter' :
  copy_worst not_unique_dir worst_files st counter = Returned (st', counter') ->
  grows (files st) (files st') /\
  printed st' = printed st /\
  (forall e, e ∈ worst_files ->
     exists_ (join not_unique_dir (basename (path_of e))) (files st') = true) /\
  copies_from (fun s => exists e, e ∈ worst_files /\ s = path_of e) st st'.
Proof.
unfold copy_worst. revert st counter.
induction worst_files as [|w ws IH]; intros st counter; simpl.
- intros [= <- <-]. split; [by intros p|]. split; [done|]. split.
  + intros e H. by apply elem_of_nil in H.
  + apply copies_from_refl.
- destruct (copy_if_absent (path_of w) not_unique_dir st counter)
    as [[st1 c1]|e] eqn:Hc.
  + intros H. apply IH in H as (Hg & Hp & Hex & Hcp).
    pose proof (copy_if_absent_copies _ _ _ _ _ _ Hc) as Hcp1.
    apply copy_if_absent_spec in Hc as (Hex1 & Hg1 & Hp1 & _).
    split; [intros p Hp0; by apply Hg, Hg1|].
    split; [congruence|]. split.
    * intros e [->|He]%elem_of_cons; [by eapply exists_grows|by apply Hex].
    * eapply copies_from_trans.
      -- eapply copies_from_weaken; [|exact Hcp1].
         intros s ->. exists w. split; [apply elem_of_cons; by left|done].
      -- eapply copies_from_weaken; [|exact Hcp].
         intros s (e & He & ->). exists e.
         split; [apply elem_of_cons; by right|done].
  + intros H. exfalso. clear -H.
    induction ws as [|w' ws' IHw]; simpl in H; [done|]. auto.
Qed.

End Groups.

(** ** The best-ranked member of a group *)

Section BestRanked.
Import PyStr PyPath Doublets.

(** The global rank the stage finds for a file: by its identifier, by the
    substituted identifier, or by the fuzzy look-up. *)
Definition resolved_rank (master_rankings : list (string * nat))
    (file_path : string) : option nat :=
(resolve file_path master_rankings).1.1.

Definition entry_of (master_rankings : list (string * nat))
    (file_path : string) : option entry :=
match resolve file_path master_rankings with
| (Some r, core_identifier, _) => Some (file_path, r, core_identifier)
| (None, _, _) => None
end.

Lemma collect_rankings_entries files master_rankings :
  (collect_rankings files master_rankings).1
  = omap (entry_of master_rankings) files.
Proof.
unfold collect_rankings.
set (step := fun (acc : list entry * list event) (file_path : string) => _).
assert (forall acc, (foldl step acc files).1
                    = acc.1 ++ omap (entry_of master_rankings) files) as H.
{ induction files as [|f files IH]; intros acc; simpl.
  - by rewrite app_nil_r.
  - rewrite IH. unfold step, entry_of.
    destruct (resolve f master_rankings) as [[[r|] core] lg]; simpl.
    + by rewrite <- app_assoc.
    + done. }
apply (H ([], [])).
Qed.

Lemma entry_of_Some master_rankings f e :
  entry_of master_rankings f = Some e ->
  path_of e = f /\ resolved_rank master_rankings f = Some (rank_of e).
Proof.
unfold entry_of, resolved_rank.
destruct (resolve f master_rankings) as [[[r|] core] lg]; [|done].
intros [= <-]. done.
Qed.



Lemma sort_by_rank_perm l : sort_by_rank l ≡ₚ l.
Proof. apply stable_sort_perm. Qed.


(** What [find_best_and_worst_ranked_files] returns: the ranked members
    in order of rank, the first of them apart. *)
Lemma find_best_and_worst_spec files master_rankings :
  let res := find_best_and_worst_ranked_files files master_rankings in
  let sorted := sort_by_rank (omap (entry_of master_rankings) files) in
  res.1.1.1 = head sorted /\ res.1.1.2 = tail sorted /\ res.1.2 = sorted.
Proof.
unfold find_best_and_worst_ranked_files.
pose proof (collect_rankings_entries files master_rankings) as H.
destruct (collect_rankings files master_rankings) as [file_rankings lg].
simpl in H. subst file_rankings.
destruct (sort_by_rank _) as [|b w]; done.
Qed.

End BestRanked.

(** ** Routing of the members of a group *)

Section Routing.
Import PyStr PyPath Doublets.

Lemma sorted_entries_elem master_rankings members e :
  e ∈ sort_by_rank (omap (entry_of master_rankings) members)
  <-> exists f, f ∈ members /\ entry_of master_rankings f = Some e.
Proof. rewrite sort_by_rank_perm. apply list_elem_of_omap. Qed.

(** The body of the loop for a group of several files, in terms of the
    ranked members in order of rank. *)
Lemma process_group_many unique_dir not_unique_dir master_rankings
    st cu cn s_number members :
  1 < length members ->
  process_group unique_dir not_unique_dir master_rankings (st, cu, cn)
    (s_number, members)
  = let st0 :=
      State (files st) (copies st)
        (printed st ++
         (find_best_and_worst_ranked_files members master_rankings).2) in
    match sort_by_rank (omap (entry_of master_rankings) members) with
    | [] => Returned (st0, cu, cn)
    | best :: worst =>
      match copy_if_absent (path_of best) unique_dir st0 cu with
      | Raised e => Raised e
      | Returned (st1, cu') =>
        match copy_worst not_unique_dir worst st1 cn with
        | Raised e => Raised e
        | Returned (st2, cn') => Returned (st2, cu', cn')
        end
      end
    end.
Proof.
intros Hlen. unfold process_group. cbn [snd].
destruct members as [|f1 [|f2 rest]]; [simpl in Hlen; lia..|].
pose proof (find_best_and_worst_spec (f1 :: f2 :: rest) master_rankings)
  as (Hb & Hw & _).
cbv zeta in Hb, Hw.
destruct (find_best_and_worst_ranked_files (f1 :: f2 :: rest) master_rankings)
  as [[[best worst] all] lg].
cbn [fst snd] in Hb, Hw |- *. subst best worst.
destruct (sort_by_rank _) as [|b w]; reflexivity.
Qed.

(** Whatever the group, only members of the group are copied. *)
Lemma process_group_copies unique_dir not_unique_dir master_rankings
    st cu cn group st' cu' cn' :
  process_group unique_dir not_unique_dir master_rankings (st, cu, cn) group
  = Returned (st', cu', cn') ->
  copies_from (fun s => s ∈ group.2) st st'.
Proof.
destruct group as [s_number members].
destruct (decide (1 < length members)) as [Hlen|Hlen].
- rewrite process_group_many by done. cbv zeta.
  set (st0 := State (files st) (copies st) _).
  assert (copies st0 = copies st) as Hst0 by done.
  destruct (sort_by_rank _) as [|b w] eqn:Hs.
  + intros [= <- _ _]. exists []. split; [by rewrite app_nil_r|].
    intros s d H. by apply elem_of_nil in H.
  + assert (forall e, e ∈ b :: w -> path_of e ∈ members) as Hmem.
    { intros e He. rewrite <- Hs in He.
      apply sorted_entries_elem in He as (f & Hf & He).
      apply entry_of_Some in He as [-> _]. done. }
    destruct (copy_if_absent (path_of b) unique_dir st0 cu)
      as [[st1 cu1]|err] eqn:Hc1; [|done].
    destruct (copy_worst not_unique_dir w st1 cn)
      as [[st2 cn2]|err] eqn:Hc2; [|done].
    intros [= <- _ _].
    apply copy_if_absent_copies in Hc1.
    apply copy_worst_spec in Hc2 as (_ & _ & _ & Hc2).
    assert (copies_from (fun s => s ∈ members) st0 st2) as (new & E & Hnew).
    { eapply copies_from_trans.
      - eapply copies_from_weaken; [|exact Hc1].
        intros s ->. apply Hmem. apply elem_of_cons. by left.
      - eapply copies_from_weaken; [|exact Hc2].
        intros s (e & He & ->). apply Hmem. apply elem_of_cons. by right. }
    exists new. split; [by rewrite E|done].
- destruct members as [|f1 [|f2 rest]]; [| |simpl in Hlen; lia].
  + unfold process_group. cbn [snd].
    pose proof (find_best_and_worst_spec [] master_rankings) as (Hb & _).
    cbv zeta in Hb.
    destruct (find_best_and_worst_ranked_files [] master_rankings)
      as [[[best worst] all] lg].
    cbn [fst snd] in Hb. subst best. simpl.
    intros [= <- _ _]. exists []. split; [by rewrite app_nil_r|].
    intros s d H. by apply elem_of_nil in H.
  + unfold process_group. cbn [snd].
    destruct (copy_if_absent f1 unique_dir st cu) as [[st1 cu1]|err] eqn:Hc1;
      [|done].
    intros [= <- _ _]. apply copy_if_absent_copies in Hc1.
    eapply copies_from_weaken; [|exact Hc1].
    intros s ->. simpl. by apply list_elem_of_singleton.
Qed.

Lemma process_groups_copies unique_dir not_unique_dir master_rankings
    groups st cu cn st' cu' cn' :
  process_groups unique_dir not_unique_dir master_rankings (st, cu, cn) groups
  = Returned (st', cu', cn') ->
  copies_from (fun s => exists g, g ∈ groups /\ s ∈ g.2) st st'.
Proof.
unfold process_groups. revert st cu cn.
induction groups as [|g groups IH]; intros st cu cn; cbn [foldl].
- intros [= <- _ _]. apply copies_from_refl.
- destruct (process_group unique_dir not_unique_dir master_rankings
              (st, cu, cn) g) as [[[st1 cu1] cn1]|err] eqn:Hg.
  + intros H. apply IH in H. apply process_group_copies in Hg.
    eapply copies_from_trans.
    * eapply copies_from_weaken; [|exact Hg].
      intros s Hs. exists g. split; [apply elem_of_cons; by left|done].
    * eapply copies_from_weaken; [|exact H].
      intros s (g' & Hg' & Hs). exists g'.
      split; [apply elem_of_cons; by right|done].
  + intros H. exfalso. clear -H. rename groups into gs.
    induction gs as [|g' gs IHg]; cbn [foldl] in H; [done|]. auto.
Qed.

(** Every file the stage copies carries a grouping token. *)
Lemma process_duplicates_copies master_file glob_pdb fs st :
  process_duplicates master_file glob_pdb fs = Returned st ->
  forall s d, (s, d) ∈ copies st -> is_Some (extract_s_number (basename s)).
Proof.
unfold process_duplicates.
destruct (get_master_rankings master_file) as [[master_rankings lg]|err];
  [|done].
assert (forall dirs st0 st1,
  foldl (process_pooled_dir glob_pdb master_rankings) (Returned st0) dirs
  = Returned st1 ->
  copies_from (fun s => is_Some (extract_s_number (basename s))) st0 st1) as H.
{ induction dirs as [|dir dirs IH]; intros st0 st1; simpl.
  - intros [= <-]. apply copies_from_refl.
  - destruct (glob_pdb (join selection_dir dir)) as [pdb_files|] eqn:Hglob.
    + destruct (process_groups _ _ master_rankings _ (group_by_s_number pdb_files))
        as [[[st2 cu] cn]|err] eqn:Hg.
      * intros Hrest. apply IH in Hrest. apply process_groups_copies in Hg.
        destruct Hg as (new & E & Hnew). simpl in E.
        eapply copies_from_trans; [|exact Hrest].
        exists new. split; [done|]. intros s d Hsd.
        destruct (Hnew s d Hsd) as ([k ms] & Hin & Hs).
        destruct (group_members _ _ _ _ Hin Hs) as [_ ->]. eauto.
      * intros Hrest. exfalso. clear -Hrest.
        induction dirs as [|d' ds IHd]; simpl in Hrest; [done|]. auto.
    + intros Hrest. apply IH in Hrest.
      destruct Hrest as (new & E & Hnew). exists new. done. }
destruct master_rankings as [|m ms].
- intros [= <-] s d Hin. by apply elem_of_nil in Hin.
- intros Hrun s d Hin. apply H in Hrun as (new & E & Hnew).
  simpl in E. rewrite E in Hin. eauto.
Qed.

End Routing.

(** C10. In Duplicate Resolution a file whose name holds no grouping
    token [_s<digits>_] is a member of no group, whatever the directory
    listing, and the stage never copies it: no [shutil.copy2] call of a
    run has it as its source. *)
Theorem file_without_token_is_omitted
    (master_file : file_state Pandas.csv)
    (glob_pdb : string -> option (list string)) (fs : PyPath.filesystem)
    (st : Doublets.state) (f : string) :
  Doublets.extract_s_number (PyStr.basename f) = None ->
  Doublets.process_duplicates master_file glob_pdb fs = Returned st ->
  (forall pdb_files s_number members,
     (s_number, members) ∈ Doublets.group_by_s_number pdb_files ->
     f ∉ members) /\
  (forall s d, (s, d) ∈ Doublets.copies st -> s <> f).
Proof.
intros Hnone Hrun. split.
- intros pdb_files s_number members Hin Hf.
  destruct (group_members _ _ _ _ Hin Hf) as [_ H]. congruence.
- intros s d Hin ->.
  destruct (process_duplicates_copies _ _ _ _ Hrun _ _ Hin) as [x Hx].
  congruence.
Qed.

(** A master table and a directory listing for Duplicate Resolution: a
    group of three files, the third of which has no rank, and a file
    without grouping token. *)
Definition sample_rankings : Pandas.csv :=
Pandas.Csv ["Design"; "Average_i_pTM"; "Average_i_pAE"]
  [Pandas.Row (Some "a_s1_x") (Some 9%Z) (Some 3%Z) "run1" "a.csv";
   Pandas.Row (Some "b_s1_y") (Some 8%Z) (Some 3%Z) "run1" "a.csv"].

Definition sample_group : list string :=
["./selection/filtered_pdbs_jc_5.0A/b_s1_y.pdb";
 "./selection/filtered_pdbs_jc_5.0A/a_s1_x.pdb";
 "./selection/filtered_pdbs_jc_5.0A/zz_s1_q.pdb"].

Definition sample_listing (pooled_path : string) : option (list string) :=
if bool_decide (pooled_path = "./selection/filtered_pdbs_jc_5.0A")
then Some (sample_group ++ ["./selection/filtered_pdbs_jc_5.0A/nogroup.pdb"])
else None.

Definition sample_selection : PyPath.filesystem :=
list_to_map
  ((fun p => (p, "ATOM" +:+ p))
   <$> sample_group ++ ["./selection/filtered_pdbs_jc_5.0A/nogroup.pdb"]).

Lemma file_without_token_is_omitted_witness :
  Doublets.extract_s_number
    (PyStr.basename "./selection/filtered_pdbs_jc_5.0A/nogroup.pdb") = None /\
  exists st,
    Doublets.process_duplicates (Readable sample_rankings) sample_listing
      sample_selection = Returned st /\
    forall s d, (s, d) ∈ Doublets.copies st ->
                s <> "./selection/filtered_pdbs_jc_5.0A/nogroup.pdb".
Proof.
split; [reflexivity|].
destruct (Doublets.process_duplicates (Readable sample_rankings) sample_listing
            sample_selection) as [st|e] eqn:Hrun.
- exists st. split; [reflexivity|].
  apply (file_without_token_is_omitted (Readable sample_rankings)
           sample_listing sample_selection st
           "./selection/filtered_pdbs_jc_5.0A/nogroup.pdb" eq_refl Hrun).
- vm_compute in Hrun. discriminate Hrun.
Defined.




(** ** Rank Join: which files get a podium copy *)

Section PodiumCopies.
Import PyStr PyPath RankJoin.
Variable individual_rankings : gmap string (gmap string nat).
Variable master_rankings : gmap string nat.

(** The identifier of a candidate file and the outcome of its two
    look-ups, when the mother folder and the identifier are found. *)
Definition rank_lookups (pdb_path : string)
    : option (string * option nat * option nat) :=
match extract_mother_folder_name pdb_path with
| Some mother_folder =>
  if bool_decide (mother_folder = "") then None
  else
    match extract_identifier (basename pdb_path) with
    | Some identifier =>
      Some (identifier,
            individual_lookup individual_rankings mother_folder identifier,
            master_rankings !! identifier)
    | None => None
    end
| None => None
end.

(** Both ranks of a candidate file, when both look-ups succeed. *)
Definition both_ranks (pdb_path : string) : option (nat * nat) :=
match rank_lookups pdb_path with
| Some (_, Some ir, Some mr) => Some (ir, mr)
| _ => None
end.

(** Where the copy of a candidate file goes. *)
Definition podium_path (pdb_path : string) (ranks : nat * nat) : string :=
join (join (dirname pdb_path) "podium")
     (new_filename ranks.1 ranks.2 (basename pdb_path)).

(** What is printed about a file that is passed over: the reason, and
    for a failed look-up the outcome of both. *)
Definition skip_report (pdb_path : string) (e : event) : Prop :=
(e = NoMotherFolder pdb_path /\ rank_lookups pdb_path = None) \/
(e = NoIdentifier (basename pdb_path) /\ rank_lookups pdb_path = None) \/
(exists identifier ir mr,
   e = RankingsNotFound identifier (basename pdb_path) ir mr /\
   rank_lookups pdb_path = Some (identifier, ir, mr) /\
   (ir = None \/ mr = None)).

Lemma process_pdb_spec st pdb_path st' :
  process_pdb individual_rankings master_rankings st pdb_path = Returned st' ->
  match both_ranks pdb_path with
  | Some ranks =>
    exists data, files st !! pdb_path = Some data /\
      files st' = <[podium_path pdb_path ranks := data]> (files st) /\
      copied_files st' = S (copied_files st) /\
      skipped_files st' = skipped_files st /\
      exists e, printed st' = printed st ++ [e]
  | None =>
    files st' = files st /\
    copied_files st' = copied_files st /\
    skipped_files st' = S (skipped_files st) /\
    exists e, printed st' = printed st ++ [e] /\ skip_report pdb_path e
  end.
Proof.
unfold process_pdb, both_ranks, skip_report. unfold rank_lookups.
destruct (extract_mother_folder_name pdb_path) as [mother_folder|].
- case_bool_decide as Hmf.
  + intros [= <-]. simpl. repeat (split; [done|]). eauto.
  + destruct (extract_identifier (basename pdb_path)) as [identifier|].
    * destruct (individual_lookup individual_rankings mother_folder identifier)
        as [ir|]; destruct (master_rankings !! identifier) as [mr|].
      -- unfold copy2, podium_path. simpl.
         destruct (files st !! pdb_path) as [data|]; [|done].
         intros [= <-]. simpl. exists data. repeat (split; [done|]). eauto.
      -- intros [= <-]. simpl. repeat (split; [done|]).
         eexists. split; [done|]. right. right. eauto 10.
      -- intros [= <-]. simpl. repeat (split; [done|]).
         eexists. split; [done|]. right. right. eauto 10.
      -- intros [= <-]. simpl. repeat (split; [done|]).
         eexists. split; [done|]. right. right. eauto 10.
    * intros [= <-]. simpl. repeat (split; [done|]). eauto 10.
- intros [= <-]. simpl. repeat (split; [done|]). eauto.
Qed.

Lemma copy_loop_cons st pdb_path pdb_files st' :
  copy_loop individual_rankings master_rankings st (pdb_path :: pdb_files)
  = Returned st' ->
  exists st1,
    process_pdb individual_rankings master_rankings st pdb_path = Returned st1 /\
    copy_loop individual_rankings master_rankings st1 pdb_files = Returned st'.
Proof.
unfold copy_loop. cbn [foldl].
destruct (process_pdb individual_rankings master_rankings st pdb_path)
  as [st1|e]; [eauto|].
intros H. exfalso. clear -H.
induction pdb_files as [|p ps IH]; cbn [foldl] in H; [done|auto].
Qed.

End PodiumCopies.


(** Two candidate files of one variant: the first is ranked in both
    tables, the second in none. *)
Definition sample_candidates : list string :=
["./run1/pooled/aligned/filtered_pdbs_jc_5.0A/d_s1_mpnn1_model1.pdb";
 "./run1/pooled/aligned/filtered_pdbs_jc_5.0A/d_s9_mpnn1_model1.pdb"].

Definition sample_tree : PyPath.filesystem :=
list_to_map ((fun p => (p, "ATOM" +:+ p)) <$> sample_candidates).



Lemma sample_podium_name :
  podium_path "./run1/pooled/aligned/filtered_pdbs_jc_5.0A/d_s1_mpnn1_model1.pdb"
    (1, 2)
  = "./run1/pooled/aligned/filtered_pdbs_jc_5.0A/podium/1_2_d_s1_mpnn1_model1.pdb".
Proof. by vm_compute. Qed.


(** ** Running Duplicate Resolution again *)

Section RerunDoublets.
Import PyStr PyPath Doublets.

Lemma grows_refl fs : grows fs fs.
Proof. by intros p. Qed.

Lemma grows_trans fs1 fs2 fs3 : grows fs1 fs2 -> grows fs2 fs3 -> grows fs1 fs3.
Proof. intros H1 H2 p Hp. by apply H2, H1. Qed.

(** A copy whose destination exists is not made. *)
Lemma copy_if_absent_skip file_path dest_dir st counter :
  exists_ (join dest_dir (basename file_path)) (files st) = true ->
  copy_if_absent file_path dest_dir st counter = Returned (st, counter).
Proof. unfold copy_if_absent. by intros ->. Qed.

Lemma copy_worst_skip not_unique_dir worst_files st counter :
  (forall e, e ∈ worst_files ->
     exists_ (join not_unique_dir (basename (path_of e))) (files st) = true) ->
  copy_worst not_unique_dir worst_files st counter = Returned (st, counter).
Proof.
unfold copy_worst. induction worst_files as [|w ws IH]; intros Hex.
- done.
- cbn [foldl]. rewrite copy_if_absent_skip.
  + apply IH. intros e He. apply Hex. apply elem_of_cons. by right.
  + apply Hex. apply elem_of_cons. by left.
Qed.

(** A group processed once is left alone by any later run over a file
    system that has kept the files of the first. *)
Lemma process_group_rerun unique_dir not_unique_dir master_rankings
    st cu cn group st' cu' cn' :
  process_group unique_dir not_unique_dir master_rankings (st, cu, cn) group
  = Returned (st', cu', cn') ->
  grows (files st) (files st') /\
  forall st2 cu2 cn2, grows (files st') (files st2) ->
    exists lg,
      process_group unique_dir not_unique_dir master_rankings
        (st2, cu2, cn2) group
      = Returned (State (files st2) (copies st2) lg, cu2, cn2).
Proof.
destruct group as [s_number members].
destruct (decide (1 < length members)) as [Hlen|Hlen].
- rewrite process_group_many by done. cbv zeta.
  set (st0 := State (files st) (copies st) _).
  destruct (sort_by_rank (omap (entry_of master_rankings) members))
    as [|b w] eqn:Hs.
  + intros [= <- _ _]. split; [apply grows_refl|].
    intros st2 cu2 cn2 _. rewrite process_group_many by done. cbv zeta.
    rewrite Hs. eauto.
  + destruct (copy_if_absent (path_of b) unique_dir st0 cu)
      as [[st1 cu1]|err] eqn:Hc1; [|done].
    destruct (copy_worst not_unique_dir w st1 cn)
      as [[st3 cn3]|err] eqn:Hc2; [|done].
    intros [= <- _ _].
    apply copy_if_absent_spec in Hc1 as (Hex1 & Hg1 & _ & _).
    apply copy_worst_spec in Hc2 as (Hg2 & _ & Hex2 & _).
    split; [exact (grows_trans _ _ _ Hg1 Hg2)|].
    intros st2 cu2 cn2 Hg. rewrite process_group_many by done. cbv zeta.
    rewrite Hs. rewrite copy_if_absent_skip.
    * rewrite copy_worst_skip; [eauto|].
      intros e He. cbn [files]. eapply exists_grows; [exact Hg|]. by apply Hex2.
    * cbn [files]. eapply exists_grows; [exact Hg|].
      eapply exists_grows; [exact Hg2|]. done.
- destruct members as [|f1 [|f2 rest]]; [| |simpl in Hlen; lia].
  + unfold process_group. cbn [snd].
    destruct (find_best_and_worst_spec [] master_rankings) as (Hb & _ & _).
    cbv zeta in Hb.
    destruct (find_best_and_worst_ranked_files [] master_rankings)
      as [[[best worst] all] lg].
    cbn [fst snd] in Hb. subst best. simpl.
    intros [= <- _ _]. split; [apply grows_refl|]. eauto.
  + unfold process_group. cbn [snd].
    destruct (copy_if_absent f1 unique_dir st cu) as [[st1 cu1]|err] eqn:Hc1;
      [|done].
    intros [= <- _ _].
    apply copy_if_absent_spec in Hc1 as (Hex1 & Hg1 & _ & _).
    split; [done|]. intros st2 cu2 cn2 Hg.
    rewrite copy_if_absent_skip by (by eapply exists_grows).
    exists (printed st2). by destruct st2.
Qed.

Lemma process_groups_cons unique_dir not_unique_dir master_rankings
    gs g groups res :
  process_groups unique_dir not_unique_dir master_rankings gs (g :: groups)
  = Returned res ->
  exists gs1,
    process_group unique_dir not_unique_dir master_rankings gs g = Returned gs1 /\
    process_groups unique_dir not_unique_dir master_rankings gs1 groups
    = Returned res.
Proof.
unfold process_groups. cbn [foldl].
destruct (process_group unique_dir not_unique_dir master_rankings gs g)
  as [gs1|e]; [eauto|].
intros H. exfalso. clear -H.
induction groups as [|g' gs' IH]; cbn [foldl] in H; [done|auto].
Qed.

Lemma process_groups_rerun unique_dir not_unique_dir master_rankings
    groups st cu cn st' cu' cn' :
  process_groups unique_dir not_unique_dir master_rankings (st, cu, cn) groups
  = Returned (st', cu', cn') ->
  grows (files st) (files st') /\
  forall st2 cu2 cn2, grows (files st') (files st2) ->
    exists lg,
      process_groups unique_dir not_unique_dir master_rankings
        (st2, cu2, cn2) groups
      = Returned (State (files st2) (copies st2) lg, cu2, cn2).
Proof.
revert st cu cn. induction groups as [|g groups IH]; intros st cu cn.
- intros [= <- _ _]. split; [apply grows_refl|].
  intros st2 cu2 cn2 _. exists (printed st2). by destruct st2.
- intros (gs1 & Hg & Hrest)%process_groups_cons.
  destruct gs1 as [[st1 cu1] cn1].
  apply process_group_rerun in Hg as [Hg1 Hre1].
  apply IH in Hrest as [Hg2 Hre2].
  split; [exact (grows_trans _ _ _ Hg1 Hg2)|].
  intros st2 cu2 cn2 Hgr.
  destruct (Hre1 st2 cu2 cn2 (grows_trans _ _ _ Hg2 Hgr)) as [lg1 E1].
  destruct (Hre2 (State (files st2) (copies st2) lg1) cu2 cn2 Hgr) as [lg2 E2].
  exists lg2. unfold process_groups in *. cbn [foldl]. rewrite E1. exact E2.
Qed.

Lemma process_pooled_dirs_cons glob_pdb master_rankings st dir dirs res :
  foldl (process_pooled_dir glob_pdb master_rankings) (Returned st) (dir :: dirs)
  = Returned res ->
  exists st1,
    process_pooled_dir glob_pdb master_rankings (Returned st) dir = Returned st1 /\
    foldl (process_pooled_dir glob_pdb master_rankings) (Returned st1) dirs
    = Returned res.
Proof.
cbn [foldl].
destruct (process_pooled_dir glob_pdb master_rankings (Returned st) dir)
  as [st1|e]; [eauto|].
intros H. exfalso. clear -H.
induction dirs as [|d ds IH]; cbn [foldl] in H; [done|auto].
Qed.

Lemma process_pooled_dir_rerun glob_pdb master_rankings st dir st' :
  process_pooled_dir glob_pdb master_rankings (Returned st) dir = Returned st' ->
  grows (files st) (files st') /\
  forall st2, grows (files st') (files st2) ->
    exists lg,
      process_pooled_dir glob_pdb master_rankings (Returned st2) dir
      = Returned (State (files st2) (copies st2) lg).
Proof.
unfold process_pooled_dir.
destruct (glob_pdb (join selection_dir dir)) as [pdb_files|].
- destruct (process_groups _ _ master_rankings _ (group_by_s_number pdb_files))
    as [[[st1 cu] cn]|err] eqn:Hg; [|done].
  intros [= <-]. apply process_groups_rerun in Hg as [Hg1 Hre].
  split; [done|]. intros st2 Hgr.
  destruct (Hre (State (files st2) (copies st2)
                   (printed st2 ++ [Processing dir])) 0 0 Hgr) as [lg E].
  rewrite E. eauto.
- intros [= <-]. split; [apply grows_refl|]. eauto.
Qed.

Lemma process_pooled_dirs_rerun glob_pdb master_rankings dirs st st' :
  foldl (process_pooled_dir glob_pdb master_rankings) (Returned st) dirs
  = Returned st' ->
  grows (files st) (files st') /\
  forall st2, grows (files st') (files st2) ->
    exists lg,
      foldl (process_pooled_dir glob_pdb master_rankings) (Returned st2) dirs
      = Returned (State (files st2) (copies st2) lg).
Proof.
revert st. induction dirs as [|dir dirs IH]; intros st.
- intros [= <-]. split; [apply grows_refl|].
  intros st2 _. exists (printed st2). by destruct st2.
- intros (st1 & Hd & Hrest)%process_pooled_dirs_cons.
  apply process_pooled_dir_rerun in Hd as [Hg1 Hre1].
  apply IH in Hrest as [Hg2 Hre2].
  split; [exact (grows_trans _ _ _ Hg1 Hg2)|].
  intros st2 Hgr.
  destruct (Hre1 st2 (grows_trans _ _ _ Hg2 Hgr)) as [lg1 E1].
  destruct (Hre2 (State (files st2) (copies st2) lg1) Hgr) as [lg2 E2].
  exists lg2. cbn [foldl]. rewrite E1. exact E2.
Qed.

End RerunDoublets.

(** ** Path algebra *)

Section Paths.
Import PyStr PyPath.

Definition slash_free (s : string) : Prop := has_slash s = false.

Lemma has_slash_cons c t :
  has_slash (String c t) = is_char "/" c || has_slash t.
Proof.
unfold has_slash. simpl. destruct t; by rewrite andb_true_r.
Qed.

Lemma has_slash_app a b : has_slash (a +:+ b) = has_slash a || has_slash b.
Proof.
induction a as [|c a IH]; [done|].
change (String c a +:+ b) with (String c (a +:+ b)).
rewrite !has_slash_cons, IH. by rewrite orb_assoc.
Qed.

Lemma slash_free_app a b : slash_free a -> slash_free b -> slash_free (a +:+ b).
Proof. unfold slash_free. rewrite has_slash_app. by intros -> ->. Qed.

Lemma rfind_slash_free s : rfind "/" s = None <-> slash_free s.
Proof.
unfold slash_free. induction s as [|c s IH]; [done|].
rewrite has_slash_cons. simpl.
destruct (rfind "/" s) as [i|].
- split; [done|]. intros [_ H]%orb_false_elim. by apply IH in H.
- destruct (is_char "/" c); simpl; [done|]. split; [|done].
  intros _. by apply IH.
Qed.

Lemma rfind_tail_slash_free s i :
  rfind "/" s = Some i -> slash_free (drop (S i) s).
Proof.
revert i. induction s as [|c s IH]; intros i; [done|]. simpl.
destruct (rfind "/" s) as [j|] eqn:Hj.
- intros [= <-]. by apply IH.
- destruct (is_char "/" c); [|done]. intros [= <-]. simpl.
  destruct s; by apply rfind_slash_free.
Qed.

(** The name [os.path.basename] returns holds no slash. *)
Lemma basename_slash_free p : slash_free (basename p).
Proof.
unfold basename. destruct (rfind "/" p) as [i|] eqn:Hi.
- by apply rfind_tail_slash_free.
- by apply rfind_slash_free.
Qed.

Lemma rfind_app_slash a f :
  slash_free f -> rfind "/" (a +:+ String "/" f) = Some (String.length a).
Proof.
intros Hf. induction a as [|c a IH].
- simpl. apply rfind_slash_free in Hf.
  change ("" +:+ String "/" f) with (String "/" f). simpl. by rewrite Hf.
- change (String c a +:+ String "/" f) with (String c (a +:+ String "/" f)).
  simpl. by rewrite IH.
Qed.

Lemma drop_app_slash a f : drop (S (String.length a)) (a +:+ String "/" f) = f.
Proof.
induction a as [|c a IH]; [by destruct f|].
change (String c a +:+ String "/" f) with (String c (a +:+ String "/" f)).
simpl. simpl in IH. exact IH.
Qed.

Lemma take_app_slash a f :
  take (S (String.length a)) (a +:+ String "/" f) = a +:+ "/".
Proof.
induction a as [|c a IH]; [done|].
change (String c a +:+ String "/" f) with (String c (a +:+ String "/" f)).
change (String c a +:+ "/") with (String c (a +:+ "/")).
simpl. simpl in IH. by rewrite IH.
Qed.

Lemma basename_app_slash a f : slash_free f -> basename (a +:+ String "/" f) = f.
Proof.
intros Hf. unfold basename. rewrite rfind_app_slash by done.
apply drop_app_slash.
Qed.

Lemma basename_id f : slash_free f -> basename f = f.
Proof. intros Hf. unfold basename. apply rfind_slash_free in Hf. by rewrite Hf. Qed.

(** The last character of [s] exists and is not a slash. *)
Fixpoint ends_in_name (s : string) : bool :=
match s with
| "" => false
| String c "" => negb (is_char "/" c)
| String _ t => ends_in_name t
end.

Lemma ends_in_name_app a b : b <> "" -> ends_in_name (a +:+ b) = ends_in_name b.
Proof.
intros Hb. induction a as [|c a IH]; [done|].
change (String c a +:+ b) with (String c (a +:+ b)). simpl.
destruct (a +:+ b) eqn:E; [|done].
destruct a; [|done]. simpl in E. done.
Qed.

Lemma slash_free_ends_in_name s : s <> "" -> slash_free s -> ends_in_name s = true.
Proof.
unfold slash_free. induction s as [|c s IH]; [done|]. intros _.
rewrite has_slash_cons. intros [Hc Hs]%orb_false_elim. simpl.
destruct s; [by rewrite Hc|]. by apply IH.
Qed.

Lemma rstrip_slashes_app_slash s : rstrip_slashes (s +:+ "/") = rstrip_slashes s.
Proof.
induction s as [|c s IH]; [done|].
change (String c s +:+ "/") with (String c (s +:+ "/")). simpl. by rewrite IH.
Qed.

Lemma rstrip_slashes_name s : ends_in_name s = true -> rstrip_slashes s = s.
Proof.
induction s as [|c s IH]; [done|]. simpl.
destruct s as [|c' s'].
- simpl. by intros ->%negb_true_iff.
- intros H. rewrite (IH H). done.
Qed.

Lemma all_slashes_app_slash s :
  ends_in_name s = true -> all_slashes (s +:+ "/") = false.
Proof.
induction s as [|c s IH]; [done|].
change (String c s +:+ "/") with (String c (s +:+ "/")). simpl.
destruct s as [|c' s'].
- intros ->%negb_true_iff. done.
- intros H. rewrite (IH H). apply andb_false_r.
Qed.

Lemma dirname_app_slash a f :
  ends_in_name a = true -> slash_free f -> dirname (a +:+ String "/" f) = a.
Proof.
intros Ha Hf. unfold dirname. rewrite rfind_app_slash by done.
rewrite take_app_slash, all_slashes_app_slash by done.
rewrite rstrip_slashes_app_slash. by apply rstrip_slashes_name.
Qed.

Lemma endswith_slash s :
  endswith "/" s = true -> exists s', s = s' +:+ "/".
Proof.
induction s as [|c s IH]; [done|]. simpl.
case_bool_decide as Hc.
- intros _. exists "". done.
- simpl. intros H. destruct (IH H) as [s' ->]. by exists (String c s').
Qed.

Lemma endswith_slash_name s : ends_in_name s = true -> endswith "/" s = false.
Proof.
induction s as [|c s IH]; [done|]. simpl.
destruct s as [|c' s'].
- intros Hc%negb_true_iff. unfold is_char in Hc.
  apply bool_decide_eq_false in Hc.
  rewrite bool_decide_eq_false_2; [done|]. congruence.
- intros H. rewrite (IH H). rewrite bool_decide_eq_false_2; [done|].
  intros H'. inversion H'.
Qed.

Lemma startswith_slash_free s : slash_free s -> startswith "/" s = false.
Proof.
unfold slash_free. destruct s as [|c s]; [done|].
rewrite has_slash_cons. intros [Hc _]%orb_false_elim. simpl. by rewrite Hc.
Qed.

(** [join] with a name puts the name last, after a slash or alone. *)
Lemma join_name a b :
  b <> "" -> slash_free b ->
  ends_in_name (join a b) = true /\ basename (join a b) = b.
Proof.
intros Hb Hsf. unfold join. rewrite startswith_slash_free by done.
pose proof (slash_free_ends_in_name b Hb Hsf) as He.
case_bool_decide as Ha.
- subst. simpl. split; [done|]. by apply basename_id.
- simpl. destruct (endswith "/" a) eqn:Hend.
  + rewrite ends_in_name_app by done. split; [done|].
    apply endswith_slash in Hend as [a' ->].
    replace ((a' +:+ "/") +:+ b) with (a' +:+ String "/" b).
    * by apply basename_app_slash.
    * clear. induction a' as [|c a' IH]; [done|].
      change (String c a' +:+ String "/" b) with (String c (a' +:+ String "/" b)).
      by rewrite IH.
  + change ("/" +:+ b) with (String "/" b).
    rewrite ends_in_name_app by done. split; [|by apply basename_app_slash].
    destruct b; [done|]. exact He.
Qed.

(** The directory of a file joined to a directory that ends in a name. *)
Lemma dirname_join d f :
  ends_in_name d = true -> slash_free f -> dirname (join d f) = d.
Proof.
intros Hd Hf. unfold join. rewrite startswith_slash_free by done.
rewrite endswith_slash_name by done.
rewrite bool_decide_eq_false_2 by (by destruct d).
simpl. change ("/" +:+ f) with (String "/" f). by apply dirname_app_slash.
Qed.

(** The name of the directory a file lies in, for a file reached through
    two [join]s. *)
Lemma parent_of_join root sub file :
  sub <> "" -> slash_free sub -> slash_free file ->
  basename (dirname (join (join root sub) file)) = sub.
Proof.
intros Hne Hsub Hfile.
destruct (join_name root sub Hne Hsub) as [He Hb].
by rewrite dirname_join.
Qed.

End Paths.

(** ** Running Rank Join again *)

Section RerunRankJoin.
Import PyStr PyPath RankJoin.

Lemma pretty_N_char_digit (x : N) : is_digit (pretty_N_char x) = true.
Proof.
unfold pretty_N_char. repeat case_match; done.
Qed.

Lemma digit_not_slash c : is_digit c = true -> is_char "/" c = false.
Proof.
intros H. unfold is_char. apply bool_decide_eq_false_2. intros <-. done.
Qed.

Lemma pretty_N_go_slash_free (x : N) (s : string) :
  slash_free s -> slash_free (pretty_N_go x s).
Proof.
revert s. induction (N.lt_wf_0 x) as [x _ IH]. intros s Hs.
destruct (decide (0 < x)%N) as [Hx|Hx].
- rewrite pretty_N_go_step by done. apply IH.
  + apply N.div_lt; lia.
  + unfold slash_free. rewrite has_slash_cons.
    rewrite digit_not_slash by apply pretty_N_char_digit. exact Hs.
- assert (x = 0%N) as -> by lia. by rewrite pretty_N_go_0.
Qed.

(** A rank is printed with digits only. *)
Lemma pretty_nat_slash_free (n : nat) : slash_free (pretty n).
Proof.
unfold pretty, pretty_nat, pretty, pretty_N.
case_decide; [done|]. by apply pretty_N_go_slash_free.
Qed.

Lemma new_filename_slash_free ir mr name :
  slash_free name -> slash_free (new_filename ir mr name).
Proof.
intros Hn. unfold new_filename.
repeat apply slash_free_app; auto using pretty_nat_slash_free; done.
Qed.

(** A podium copy lies in a directory named [podium]. *)
Lemma podium_path_parent pdb_path ranks :
  basename (dirname (podium_path pdb_path ranks)) = "podium".
Proof.
unfold podium_path. apply parent_of_join; [done|done|].
apply new_filename_slash_free, basename_slash_free.
Qed.

(** The names [os.walk] and [os.listdir] return are not empty and hold
    no slash. *)
Definition is_name (s : string) : Prop := s <> "" /\ slash_free s.

Definition walk_names (w : walk) : Prop :=
Forall (fun entry : string * list (string * list string) =>
          Forall (fun sub : string * list string =>
                    is_name sub.1 /\ Forall is_name sub.2)
                 entry.2)
       w.

(** A candidate file lies in a directory whose name holds [filtered]. *)
Lemma candidate_parent w pdb_path :
  walk_names w -> pdb_path ∈ find_corresponding_pdb_files w ->
  contains "filtered" (basename (dirname pdb_path)) = true.
Proof.
intros Hw. unfold find_corresponding_pdb_files.
rewrite concat_bind. intros (l1 & Hin & Hl1)%list_elem_of_bind. 
unfold id in Hin.
apply list_elem_of_fmap in Hl1 as ([root subs] & -> & Hroot). simpl in Hin.
destruct (in_pooled_aligned root); [|by apply elem_of_nil in Hin].
rewrite concat_bind in Hin. apply list_elem_of_bind in Hin as (l2 & Hin & Hl2).
unfold id in Hin.
apply list_elem_of_fmap in Hl2 as ([sub listing] & -> & Hsub). simpl in Hin.
destruct (contains "filtered" sub) eqn:Hf; [|by apply elem_of_nil in Hin].
apply list_elem_of_fmap in Hin as (file & -> & Hfile).
apply list_elem_of_filter in Hfile as [_ Hfile].
unfold walk_names in Hw. rewrite Forall_forall in Hw.
specialize (Hw _ Hroot). rewrite Forall_forall in Hw.
destruct (Hw _ Hsub) as [[Hne Hsf] Hfiles]. simpl in Hne, Hsf, Hfiles.
rewrite Forall_forall in Hfiles.
destruct (Hfiles file Hfile) as [_ Hff].
by rewrite parent_of_join.
Qed.


Lemma clear_lookup (fs : filesystem) (x : string) :
  clear_podium_directories fs !! x
  = if in_cleared_podium x then None else fs !! x.
Proof.
unfold clear_podium_directories.
destruct (in_cleared_podium x) eqn:Hc.
- apply map_lookup_filter_None. right. intros y _. simpl. congruence.
- destruct (fs !! x) as [y|] eqn:Hx.
  + by apply map_lookup_filter_Some.
  + apply map_lookup_filter_None. by left.
Qed.

Section Loop.
Variable individual_rankings : gmap string (gmap string nat).
Variable master_rankings : gmap string nat.

Abbreviation both := (both_ranks individual_rankings master_rankings).
Abbreviation loop := (copy_loop individual_rankings master_rankings).

(** The writes of a run of the loop: for each file with both ranks, its
    podium path and its contents. *)
Definition writes (fs : filesystem) (pdb_files : list string)
    : list (string * string) :=
omap (fun p => ranks ← both p; data ← fs !! p; Some (podium_path p ranks, data))
     pdb_files.

Definition apply_writes (ws : list (string * string)) (fs : filesystem)
    : filesystem :=
foldl (fun (m : filesystem) (w : string * string) => <[w.1 := w.2]> m) fs ws.

Definition not_in_podium (pdb_files : list string) : Prop :=
forall p, p ∈ pdb_files -> basename (dirname p) <> "podium".

Lemma writes_ext fs fs' pdb_files :
  (forall p, p ∈ pdb_files -> fs !! p = fs' !! p) ->
  writes fs pdb_files = writes fs' pdb_files.
Proof.
intros H. unfold writes. induction pdb_files as [|p ps IH]; [done|].
cbn [omap list_omap]. rewrite (H p) by (apply elem_of_cons; by left).
fold (@omap list _ _ _
        (fun p => ranks ← both p; data ← fs !! p;
                  Some (podium_path p ranks, data)) ps).
fold (@omap list _ _ _
        (fun p => ranks ← both p; data ← fs' !! p;
                  Some (podium_path p ranks, data)) ps).
rewrite IH; [done|]. intros p' Hp'. apply H. apply elem_of_cons. by right.
Qed.

Lemma writes_targets fs pdb_files q d :
  (q, d) ∈ writes fs pdb_files -> basename (dirname q) = "podium".
Proof.
unfold writes. intros (p & _ & Hp)%list_elem_of_omap.
destruct (both p) as [ranks|]; [|done]. simpl in Hp.
destruct (fs !! p); [|done]. injection Hp as <- _.
apply podium_path_parent.
Qed.

(** The loop performs its writes one after the other; the sources are
    not among the targets, so each is read as it was at the start. *)
Lemma copy_loop_writes pdb_files st st' :
  not_in_podium pdb_files ->
  loop st pdb_files = Returned st' ->
  files st' = apply_writes (writes (files st) pdb_files) (files st) /\
  forall p, p ∈ pdb_files -> is_Some (both p) -> is_Some (files st !! p).
Proof.
revert st. induction pdb_files as [|p ps IH]; intros st Hsrc Hrun.
- injection Hrun as <-. split; [done|]. intros p H. by apply elem_of_nil in H.
- apply copy_loop_cons in Hrun as (st1 & Hstep & Hrest).
  assert (not_in_podium ps) as Hsrc'.
  { intros p' Hp'. apply Hsrc. apply elem_of_cons. by right. }
  destruct (IH st1 Hsrc' Hrest) as [Hfiles Hex].
  apply process_pdb_spec in Hstep. unfold writes. simpl.
  destruct (both p) as [ranks|] eqn:Hb.
  + destruct Hstep as (data & Hp & Hfs & _). rewrite Hp. simpl.
    assert (forall p', p' ∈ ps -> files st1 !! p' = files st !! p') as Hsame.
    { intros p' Hp'. rewrite Hfs. apply lookup_insert_ne.
      intros Heq. apply (Hsrc' p' Hp'). rewrite <- Heq.
      apply podium_path_parent. }
    split.
    * rewrite Hfiles, (writes_ext _ (files st) ps Hsame). by rewrite Hfs.
    * intros p' [->|Hp']%elem_of_cons Hr; [by rewrite Hp|].
      rewrite <- Hsame by done. by apply Hex.
  + destruct Hstep as (Hfs & _). simpl. rewrite Hfs in Hfiles, Hex.
    split; [done|].
    intros p' [->|Hp']%elem_of_cons Hr; [|by apply Hex].
    rewrite Hb in Hr. by destruct Hr.
Qed.

(** The loop returns as soon as the files it has to copy exist. *)
Lemma copy_loop_returns pdb_files st :
  not_in_podium pdb_files ->
  (forall p, p ∈ pdb_files -> is_Some (both p) -> is_Some (files st !! p)) ->
  exists st', loop st pdb_files = Returned st'.
Proof.
revert st. induction pdb_files as [|p ps IH]; intros st Hsrc Hex.
- by exists st.
- assert (exists st1,
    process_pdb individual_rankings master_rankings st p = Returned st1 /\
    forall p', p' ∈ ps -> is_Some (files st !! p') -> is_Some (files st1 !! p'))
    as (st1 & Hstep & Hkeep).
  { pose proof (Hex p (ltac:(apply elem_of_cons; by left))) as Hp.
    pose proof (process_pdb_spec individual_rankings master_rankings st p)
      as Hspec.
    destruct (process_pdb individual_rankings master_rankings st p)
      as [st1|e] eqn:Hstep.
    - exists st1. split; [done|]. specialize (Hspec st1 eq_refl).
      intros p' Hp' Hsome. destruct (both p) as [ranks|].
      + destruct Hspec as (data & _ & -> & _).
        destruct (decide (podium_path p ranks = p')) as [->|Hne].
        * rewrite lookup_insert_eq. eauto.
        * by rewrite lookup_insert_ne.
      + destruct Hspec as (-> & _). done.
    - exfalso. clear Hspec. revert Hstep Hp.
      unfold process_pdb, both_ranks, rank_lookups.
      destruct (extract_mother_folder_name p) as [mf|]; [|done].
      case_bool_decide; [done|].
      destruct (extract_identifier (basename p)) as [identifier|]; [|done].
      destruct (individual_lookup individual_rankings mf identifier) as [ir|];
        [|done].
      destruct (master_rankings !! identifier) as [mr|]; [|done].
      unfold copy2. intros Hstep Hp.
      destruct (Hp (ltac:(eauto))) as [data Hdata].
      rewrite Hdata in Hstep. done. }
  destruct (IH st1) as [st' Hrest].
  + intros p' Hp'. apply Hsrc. apply elem_of_cons. by right.
  + intros p' Hp' Hr. apply Hkeep; [done|]. apply Hex; [|done].
    apply elem_of_cons. by right.
  + exists st'. unfold copy_loop in *. cbn [foldl]. by rewrite Hstep.
Qed.

(** Two file systems that agree outside the targets of the writes are
    the same after the writes. *)
Lemma apply_writes_agree ws (m m' : filesystem) :
  (forall x, m !! x = m' !! x \/ x ∈ ws.*1) ->
  apply_writes ws m = apply_writes ws m'.
Proof.
revert m m'. induction ws as [|[q d] ws IH]; intros m m' H.
- apply map_eq. intros x. destruct (H x) as [?|Hx]; [done|].
  by apply elem_of_nil in Hx.
- change (apply_writes ((q, d) :: ws) m) with (apply_writes ws (<[q:=d]> m)).
  change (apply_writes ((q, d) :: ws) m') with (apply_writes ws (<[q:=d]> m')).
  apply IH. intros x.
  destruct (decide (q = x)) as [->|Hne].
  + left. by rewrite !lookup_insert_eq.
  + rewrite !lookup_insert_ne by done.
    destruct (H x) as [?|Hx]; [by left|].
    apply elem_of_cons in Hx as [Hx|Hx]; [simpl in Hx; congruence|by right].
Qed.

Lemma apply_writes_other ws (m : filesystem) x :
  x ∉ ws.*1 -> apply_writes ws m !! x = m !! x.
Proof.
revert m. induction ws as [|[q d] ws IH]; intros m Hx; [done|].
rewrite fmap_cons, not_elem_of_cons in Hx. destruct Hx as [Hne Hx].
change (apply_writes ((q, d) :: ws) m) with (apply_writes ws (<[q:=d]> m)).
rewrite IH by done.
apply lookup_insert_ne. simpl in Hne. congruence.
Qed.

(** Clearing the podium directories and running the loop, twice. *)
Lemma clear_and_loop_twice pdb_files fs st lg lg' :
  not_in_podium pdb_files ->
  loop (LoopState (clear_podium_directories fs) 0 0 0 lg) pdb_files
  = Returned st ->
  exists st2,
    loop (LoopState (clear_podium_directories (files st)) 0 0 0 lg') pdb_files
    = Returned st2 /\
    files st2 = files st.
Proof.
intros Hsrc Hrun.
destruct (copy_loop_writes _ _ _ Hsrc Hrun) as [Hfiles Hex].
cbn [files] in Hfiles, Hex.
set (fs1 := clear_podium_directories fs) in *.
set (ws := writes fs1 pdb_files) in *.
assert (forall p, p ∈ pdb_files ->
  clear_podium_directories (files st) !! p = fs1 !! p) as Hsame.
{ intros p Hp. rewrite clear_lookup.
  assert (in_cleared_podium p = false) as ->.
  { unfold in_cleared_podium. rewrite bool_decide_eq_false_2; [done|].
    by apply Hsrc. }
  rewrite Hfiles. apply apply_writes_other.
  intros Hin. apply list_elem_of_fmap in Hin as ([q d] & Heq & Hin).
  apply writes_targets in Hin. simpl in Heq. subst q.
  by apply (Hsrc p Hp). }
destruct (copy_loop_returns pdb_files
  (LoopState (clear_podium_directories (files st)) 0 0 0 lg') Hsrc)
  as [st2 Hrun2].
{ intros p Hp Hr. cbn [files]. rewrite Hsame by done. by apply Hex. }
exists st2. split; [done|].
destruct (copy_loop_writes _ _ _ Hsrc Hrun2) as [Hfiles2 _].
cbn [files] in Hfiles2.
rewrite (writes_ext _ fs1 pdb_files Hsame) in Hfiles2. fold ws in Hfiles2.
rewrite Hfiles2, Hfiles. apply apply_writes_agree. intros x.
destruct (decide (x ∈ ws.*1)) as [Hx|Hx]; [by right|left].
rewrite clear_lookup, apply_writes_other by done.
unfold fs1. rewrite clear_lookup.
by destruct (in_cleared_podium x).
Qed.

End Loop.

End RerunRankJoin.

(** C6. Rank Join and Duplicate Resolution run a second time on
    unchanged inputs, starting from the file system the first run left,
    leave the very same file system: the same files with the same
    contents.  Rank Join clears the podium directories and writes the same
    copies again; Duplicate Resolution finds every destination present
    and copies nothing. *)
Theorem rerun_leaves_same_files
    (stats : RankJoin.stats_files) (w : RankJoin.walk)
    (master_file : file_state Pandas.csv)
    (glob_pdb : string -> option (list string))
    (fs : PyPath.filesystem) (st : RankJoin.loop_state) (st' : Doublets.state) :
  (walk_names w ->
   RankJoin.copy_files_with_rankings stats w fs = Returned st ->
   exists st2,
     RankJoin.copy_files_with_rankings stats w (RankJoin.files st)
     = Returned st2 /\
     RankJoin.files st2 = RankJoin.files st) /\
  (Doublets.process_duplicates master_file glob_pdb fs = Returned st' ->
   exists lg,
     Doublets.process_duplicates master_file glob_pdb (Doublets.files st')
     = Returned (Doublets.State (Doublets.files st') [] lg)).
Proof.
split.
- intros Hw. unfold RankJoin.copy_files_with_rankings.
  assert (forall m,
    RankJoin.clear_podium_directories (RankJoin.clear_podium_directories m)
    = RankJoin.clear_podium_directories m) as Hidem.
  { intros m. apply map_eq. intros x. rewrite !clear_lookup.
    by destruct (RankJoin.in_cleared_podium x). }
  destruct (RankJoin.get_file_rankings stats) as [[[ind mas] lg]|e]; [|done].
  destruct (bool_decide (mas = ∅) && bool_decide (ind = ∅)).
  { intros [= <-]. cbn [RankJoin.files]. rewrite Hidem. eauto. }
  destruct (RankJoin.find_corresponding_pdb_files w) as [|p0 ps0] eqn:Hfind.
  { intros [= <-]. cbn [RankJoin.files]. rewrite Hidem. eauto. }
  rewrite <- Hfind.
  assert (not_in_podium (RankJoin.find_corresponding_pdb_files w)) as Hsrc.
  { intros p Hp Hpod. apply (candidate_parent w p Hw) in Hp.
    rewrite Hpod in Hp. done. }
  destruct (RankJoin.copy_loop ind mas
              (RankJoin.LoopState (RankJoin.clear_podium_directories fs) 0 0 0 lg)
              (RankJoin.find_corresponding_pdb_files w))
    as [st1|e] eqn:Hrun; [|done].
  intros [= <-]. cbn [RankJoin.files].
  destruct (clear_and_loop_twice ind mas _ fs st1 lg lg Hsrc Hrun)
    as (st2 & Hrun2 & Hfiles2).
  rewrite Hrun2. eexists. split; [reflexivity|]. done.
- unfold Doublets.process_duplicates.
  destruct (Doublets.get_master_rankings master_file)
    as [[master_rankings lg0]|err]; [|done].
  destruct master_rankings as [|m ms].
  + intros [= <-]. simpl. eauto.
  + intros Hrun. apply process_pooled_dirs_rerun in Hrun as [_ Hre].
    apply (Hre (Doublets.State (Doublets.files st') [] _)). apply grows_refl.
Qed.

(** The [stats] directory and the walk of a small campaign. *)
Definition sample_stats : RankJoin.stats_files :=
RankJoin.StatsFiles (Readable sample_master)
  [("merged_all_final_design_stats.csv", Returned sample_master);
   ("merged_run1_stats.csv", Returned (Pandas.to_csv sample_scores))].

Definition sample_walk : RankJoin.walk :=
[(".", [("run1", []); ("stats", [])]);
 ("./run1", [("pooled", [])]);
 ("./run1/pooled", [("aligned", [])]);
 ("./run1/pooled/aligned",
  [("filtered_pdbs_jc_5.0A",
    ["d_s1_mpnn1_model1.pdb"; "d_s9_mpnn1_model1.pdb"; "notes.txt"])])].

Lemma rerun_leaves_same_files_witness :
  walk_names sample_walk /\
  exists st st',
    RankJoin.copy_files_with_rankings sample_stats sample_walk sample_tree
    = Returned st /\
    Doublets.process_duplicates (Readable sample_rankings) sample_listing
      sample_selection = Returned st' /\
    (exists st2,
       RankJoin.copy_files_with_rankings sample_stats sample_walk
         (RankJoin.files st) = Returned st2 /\
       RankJoin.files st2 = RankJoin.files st) /\
    (exists lg,
       Doublets.process_duplicates (Readable sample_rankings) sample_listing
         (Doublets.files st')
       = Returned (Doublets.State (Doublets.files st') [] lg)).
Proof.
assert (walk_names sample_walk) as Hw.
{ repeat (constructor; simpl); repeat split; done. }
split; [exact Hw|].
destruct (RankJoin.copy_files_with_rankings sample_stats sample_walk sample_tree)
  as [st|e] eqn:Hrun1; [|vm_compute in Hrun1; discriminate Hrun1].
destruct (Doublets.process_duplicates (Readable sample_rankings) sample_listing
            sample_selection) as [st'|e] eqn:Hrun2;
  [|vm_compute in Hrun2; discriminate Hrun2].
exists st, st'. split; [reflexivity|]. split; [reflexivity|].
split.
- exact (proj1 (rerun_leaves_same_files sample_stats sample_walk
                  (Readable sample_rankings) sample_listing sample_tree st st')
           Hw Hrun1).
- exact (proj2 (rerun_leaves_same_files sample_stats sample_walk
                  (Readable sample_rankings) sample_listing sample_selection
                  st st')
           Hrun2).
Defined.

(** The small campaign, run: the ranked file gets its podium copy, named
    after its two ranks. *)
Lemma sample_rank_join_run :
  match RankJoin.copy_files_with_rankings sample_stats sample_walk sample_tree with
  | Returned st =>
    RankJoin.files st
      !! "./run1/pooled/aligned/filtered_pdbs_jc_5.0A/podium/1_3_d_s1_mpnn1_model1.pdb"
    = Some "ATOM./run1/pooled/aligned/filtered_pdbs_jc_5.0A/d_s1_mpnn1_model1.pdb" /\
    size (RankJoin.files st) = 3 /\
    RankJoin.copied_files st = 1 /\ RankJoin.skipped_files st = 1
  | Raised _ => False
  end.
Proof. vm_compute. repeat split. Qed.

(** ** Identifier extraction, applied twice *)

Section Identifiers.
Import PyStr.

Fixpoint all_digits (s : string) : bool :=
match s with
| "" => true
| String c t => is_digit c && all_digits t
end.

(** Whether a greedy run of digits stops at the head of [s]. *)
Definition no_digit_ahead (s : string) : bool :=
match s with
| "" => true
| String c _ => negb (is_digit c)
end.

Lemma span_digits_fst s : all_digits (span_digits s).1 = true.
Proof.
induction s as [|c s IH]; [done|]. simpl.
destruct (is_digit c) eqn:Hc; [|done]. simpl. by rewrite Hc.
Qed.

Lemma span_digits_app d r :
  all_digits d = true -> no_digit_ahead r = true ->
  span_digits (d +:+ r) = (d, r).
Proof.
intros Hd Hr. induction d as [|c d IH].
- destruct r as [|c r]; [done|]. simpl in *.
  apply negb_true_iff in Hr. by rewrite Hr.
- change (String c d +:+ r) with (String c (d +:+ r)).
  simpl in *. apply andb_true_iff in Hd as [Hc Hd].
  rewrite Hc, (IH Hd). done.
Qed.

Lemma append_empty_r s : s +:+ "" = s.
Proof.
induction s as [|c s IH]; [done|].
change (String c s +:+ "") with (String c (s +:+ "")). by rewrite IH.
Qed.

(** A match of [s\d+_mpnn\d+] is matched again, whole, by the same
    expression. *)
Lemma identifier_here_fixed s m :
  RankJoin.identifier_here s = Some m -> RankJoin.identifier_here m = Some m.
Proof.
unfold RankJoin.identifier_here at 1.
destruct s as [|c t]; [done|].
destruct (is_char "s" c); [|done].
pose proof (span_digits_fst t) as Hd1.
destruct (span_digits t) as [d1 r1]. simpl in Hd1.
case_bool_decide as Hne1; [done|].
destruct (startswith "_mpnn" r1); [|done].
pose proof (span_digits_fst (drop 5 r1)) as Hd2.
destruct (span_digits (drop 5 r1)) as [d2 r2]. simpl in Hd2.
case_bool_decide as Hne2; [done|].
intros [= <-].
change ("s" +:+ d1 +:+ "_mpnn" +:+ d2)
  with (String "s" (d1 +:+ String "_" (String "m" (String "p"
          (String "n" (String "n" d2)))))).
unfold RankJoin.identifier_here.
change (is_char "s" "s") with true. cbv iota.
rewrite span_digits_app by done.
rewrite bool_decide_eq_false_2 by done.
assert (startswith "_mpnn"
          (String "_" (String "m" (String "p" (String "n" (String "n" d2)))))
        = true) as -> by (by destruct d2).
cbn [drop].
rewrite <- (append_empty_r d2) at 1.
rewrite span_digits_app by done.
rewrite bool_decide_eq_false_2 by done. done.
Qed.

Lemma extract_identifier_here name m :
  RankJoin.extract_identifier name = Some m ->
  exists s, RankJoin.identifier_here s = Some m.
Proof.
induction name as [|c t IH]; [done|].
cbn [RankJoin.extract_identifier].
destruct (RankJoin.identifier_here (String c t)) as [m'|] eqn:Hm.
- intros [= <-]. eauto.
- exact IH.
Qed.

End Identifiers.

(** ** The core identifier, extracted twice *)

Section CoreIdentifier.
Import PyStr Doublets.

(** No line feed in [s]. *)
Definition lf_free (s : string) : Prop := contains (String LF "") s = false.

Lemma contains_char_cons a c t :
  contains (String a "") (String c t)
  = is_char a c || contains (String a "") t.
Proof. simpl. destruct t; by rewrite andb_true_r. Qed.

Lemma lf_free_cons c t : lf_free (String c t) <-> is_char LF c = false /\ lf_free t.
Proof. unfold lf_free. rewrite contains_char_cons. apply orb_false_iff. Qed.

Lemma lf_free_take n s : lf_free s -> lf_free (take n s).
Proof.
revert n. induction s as [|c s IH]; intros [|n]; try done.
simpl. rewrite !lf_free_cons. intros [Hc Hs]. split; [done|]. by apply IH.
Qed.

Lemma lf_free_drop n s : lf_free s -> lf_free (drop n s).
Proof.
revert n. induction s as [|c s IH]; intros [|n]; try done.
simpl. rewrite lf_free_cons. intros [_ Hs]. by apply IH.
Qed.

Lemma lf_free_prefix p s : startswith p s = true -> lf_free s -> lf_free p.
Proof.
revert s. induction p as [|a p IH]; intros [|c s]; try done. simpl.
intros [Hac Hp]%andb_true_iff. rewrite !lf_free_cons. intros [Hc Hs].
unfold is_char in Hac. apply bool_decide_eq_true in Hac as ->.
split; [done|]. by eapply IH.
Qed.

Lemma span_digits_snd_drop s : exists k, (span_digits s).2 = drop k s.
Proof.
induction s as [|c s [k IH]]; [by exists 0|]. simpl.
destruct (is_digit c); simpl.
- exists (S k). done.
- by exists 0.
Qed.

Lemma lf_free_splitext_root p : lf_free p -> lf_free (splitext_root p).
Proof.
intros Hp. unfold splitext_root.
destruct (rfind "." p) as [dotIndex|]; [|done].
destruct (_ && _); [|done]. by apply lf_free_take.
Qed.

Lemma lf_free_strip_rank_prefix s : lf_free s -> lf_free (strip_rank_prefix s).
Proof.
intros Hs. unfold strip_rank_prefix.
destruct (span_digits_snd_drop s) as [k1 Hk1].
destruct (span_digits s) as [d1 r1]. simpl in Hk1. subst r1.
case_bool_decide; [done|].
destruct (startswith "_" (drop k1 s)); [|done].
destruct (span_digits_snd_drop (drop 1 (drop k1 s))) as [k2 Hk2].
destruct (span_digits (drop 1 (drop k1 s))) as [d2 r2]. simpl in Hk2. subst r2.
case_bool_decide; [done|].
destruct (startswith "_" _); [|done].
apply lf_free_drop, lf_free_drop.
change (lf_free (drop 1 (drop k1 s))). by apply lf_free_drop, lf_free_drop.
Qed.

(** The cut [re.sub] makes on a single line: from the leftmost match of
    the head to the end. *)
Fixpoint cut (cs : list (ascii -> bool)) (s : string) : string :=
match s with
| "" => ""
| String c t => if classes_here cs s then "" else String c (cut cs t)
end.

(** Whether the head matches somewhere in [s]. *)
Fixpoint occurs (cs : list (ascii -> bool)) (s : string) : bool :=
classes_here cs s ||
match s with
| "" => false
| String _ t => occurs cs t
end.

Lemma dot_star_eol_lf_free s : lf_free s -> dot_star_eol s = true.
Proof.
induction s as [|c s IH]; [done|]. rewrite lf_free_cons. intros [Hc Hs].
simpl. rewrite Hc. by apply IH.
Qed.

Lemma final_newline_lf_free s : lf_free s -> final_newline s = "".
Proof.
induction s as [|c s IH]; [done|]. rewrite lf_free_cons. intros [Hc Hs].
simpl. destruct s; [by rewrite Hc|]. by apply IH.
Qed.

Lemma re_sub_to_eol_cut cs s : lf_free s -> re_sub_to_eol cs s = cut cs s.
Proof.
induction s as [|c s IH]; [done|]. intros Hs.
pose proof Hs as [Hc Hs']%lf_free_cons.
cbn [re_sub_to_eol cut].
rewrite dot_star_eol_lf_free by (by apply lf_free_drop).
rewrite andb_true_r. destruct (classes_here cs (String c s)).
- by apply final_newline_lf_free.
- by rewrite IH.
Qed.

Lemma startswith_cut cs s : startswith (cut cs s) s = true.
Proof.
induction s as [|c s IH]; [done|]. cbn [cut].
destruct (classes_here cs (String c s)); [done|]. simpl.
rewrite IH. unfold is_char. by rewrite bool_decide_eq_true_2.
Qed.

Lemma classes_here_prefix cs p s :
  startswith p s = true -> classes_here cs p = true -> classes_here cs s = true.
Proof.
revert p s. induction cs as [|f cs IH]; intros p s Hp; [done|].
destruct p as [|a p]; [done|]. destruct s as [|c s]; [done|].
simpl in Hp. apply andb_true_iff in Hp as [Hac Hp].
unfold is_char in Hac. apply bool_decide_eq_true in Hac as ->.
simpl. intros [Hf Hcs]%andb_true_iff. rewrite Hf. simpl. by eapply IH.
Qed.

Lemma occurs_nil cs : cs <> [] -> occurs cs "" = false.
Proof. by destruct cs. Qed.

Lemma occurs_prefix cs p s :
  cs <> [] -> startswith p s = true -> occurs cs p = true -> occurs cs s = true.
Proof.
intros Hcs. revert s. induction p as [|a p IH]; intros s Hp.
- by rewrite occurs_nil.
- destruct s as [|c s]; [done|]. cbn [occurs].
  intros [H|H]%orb_true_iff.
  + by rewrite (classes_here_prefix cs _ _ Hp H).
  + simpl in Hp. apply andb_true_iff in Hp as [_ Hp].
    rewrite (IH s Hp H). apply orb_true_r.
Qed.

Lemma occurs_cut cs s : cs <> [] -> occurs cs (cut cs s) = false.
Proof.
intros Hcs. induction s as [|c s IH]; [by apply occurs_nil|].
cbn [cut]. destruct (classes_here cs (String c s)) eqn:Hc.
- by apply occurs_nil.
- cbn [occurs]. rewrite IH, orb_false_r.
  destruct (classes_here cs (String c (cut cs s))) eqn:Hc'; [|done].
  rewrite (classes_here_prefix cs (String c (cut cs s)) (String c s)) in Hc;
    [done| |done].
  simpl. rewrite startswith_cut. unfold is_char.
  by rewrite bool_decide_eq_true_2.
Qed.

Lemma cut_id cs s : occurs cs s = false -> cut cs s = s.
Proof.
induction s as [|c s IH]; [done|]. cbn [occurs cut].
intros [-> Hs]%orb_false_iff. by rewrite IH.
Qed.


(** *** The substitution of the legacy token *)

Lemma replace_go_skip old new k s :
  replace_go old new k s = replace_go old new 0 (drop k s).
Proof.
revert k. induction s as [|c s IH]; intros [|k]; try done.
cbn [replace_go drop]. apply IH.
Qed.

Abbreviation subst_ag1 := (replace "_ag1_" "_7_").

Lemma subst_ag1_cons c t :
  subst_ag1 (String c t)
  = if startswith "_ag1_" (String c t)
    then String "_" (String "7" (String "_" (subst_ag1 (drop 4 t))))
    else String c (subst_ag1 t).
Proof.
unfold replace. cbn [replace_go].
destruct (startswith "_ag1_" (String c t)); [|done].
by rewrite replace_go_skip.
Qed.

(** A string that starts with the legacy token, taken apart. *)
Lemma startswith_ag1 c t :
  startswith "_ag1_" (String c t) = true ->
  exists r, String c t = String "_" (String "a" (String "g" (String "1"
              (String "_" r)))) /\ drop 4 t = r.
Proof.
destruct t as [|c1 [|c2 [|c3 [|c4 r]]]]; simpl;
  rewrite ?andb_false_r; try done.
unfold is_char. intros H.
repeat (apply andb_true_iff in H as [? H]).
repeat match goal with
       | Hc : bool_decide _ = true |- _ => apply bool_decide_eq_true in Hc
       end.
subst. by exists r.
Qed.

Lemma string_length_ind (P : string -> Prop) :
  (forall s, (forall t, String.length t < String.length s -> P t) -> P s) ->
  forall s, P s.
Proof.
intros H s. remember (String.length s) as n eqn:Hn.
revert s Hn. induction (lt_wf n) as [n _ IH]. intros s ->.
apply H. intros t Ht. by apply (IH (String.length t)).
Qed.

(** What the substitution writes does not start a match of a head whose
    classes all reject the underscore. *)
Lemma classes_here_subst w s :
  Forall (fun f : ascii -> bool => f "_"%char = false) w ->
  classes_here w (subst_ag1 s) = true -> classes_here w s = true.
Proof.
intros Hw. revert s. induction Hw as [|f w Hf Hw IH]; intros s; [done|].
destruct s as [|c t]; [done|]. rewrite subst_ag1_cons.
destruct (startswith "_ag1_" (String c t)).
- simpl. by rewrite Hf.
- simpl. intros [Hc Ht]%andb_true_iff. rewrite Hc. simpl. by apply IH.
Qed.

(** The heads of the two suffix patterns: an underscore, then classes
    that reject the underscore, the first of which rejects [7] too. *)
Definition suffix_head (pat : list (ascii -> bool)) : Prop :=
exists f1 w,
  pat = is_char "_" :: f1 :: w /\
  f1 "7"%char = false /\
  Forall (fun f : ascii -> bool => f "_"%char = false) (f1 :: w).

Lemma occurs_tail pat c t : occurs pat t = true -> occurs pat (String c t) = true.
Proof. intros H. cbn [occurs]. rewrite H. apply orb_true_r. Qed.

(** The substitution creates no match of such a head. *)
Lemma occurs_subst pat s :
  suffix_head pat -> occurs pat (subst_ag1 s) = true -> occurs pat s = true.
Proof.
intros (f1 & w & -> & H7 & Hw).
induction s as [s IH] using string_length_ind.
destruct s as [|c t]; [done|]. rewrite subst_ag1_cons.
destruct (startswith "_ag1_" (String c t)) eqn:Hag.
- apply startswith_ag1 in Hag as (r & Hs & Hr). rewrite Hr, Hs.
  assert (occurs (is_char "_" :: f1 :: w) (String "_" r) = true ->
          occurs (is_char "_" :: f1 :: w)
            (String "_" (String "a" (String "g" (String "1" (String "_" r)))))
          = true) as Hsuffix.
  { intros H. by do 4 apply occurs_tail. }
  cbn [occurs classes_here]. rewrite H7. 
  change (is_char "_" "7") with false. cbn [andb orb].
  rewrite andb_false_r. cbn [orb].
  intros [H|H]%orb_true_iff.
  + apply Hsuffix. cbn [occurs classes_here].
    apply andb_true_iff in H as [_ H].
    apply (classes_here_subst (f1 :: w) r Hw) in H.
    cbn [classes_here] in H. rewrite H. done.
  + apply Hsuffix, occurs_tail. apply IH; [|done].
    injection Hs as -> ->. simpl. lia.
- cbn [occurs classes_here]. intros [H|H]%orb_true_iff.
  + apply andb_true_iff in H as [Hc H].
    apply (classes_here_subst (f1 :: w) t Hw) in H.
    cbn [classes_here] in H. by rewrite Hc, H.
  + rewrite (IH t); [apply orb_true_r| simpl; lia |done].
Qed.

Lemma lf_free_subst s : lf_free s -> lf_free (subst_ag1 s).
Proof.
induction s as [s IH] using string_length_ind.
destruct s as [|c t]; [done|]. rewrite subst_ag1_cons. intros Hs.
destruct (startswith "_ag1_" (String c t)) eqn:Hag.
- apply startswith_ag1 in Hag as (r & Hst & Hr). rewrite Hr.
  rewrite Hst in Hs. repeat (apply lf_free_cons in Hs as [_ Hs]).
  repeat (apply lf_free_cons; split; [done|]).
  apply IH; [|done]. injection Hst as -> ->. simpl. lia.
- apply lf_free_cons in Hs as [Hc Hs]. apply lf_free_cons. split; [done|].
  apply IH; [simpl; lia|done].
Qed.

Lemma model_head : suffix_head (literal "_model" ++ [is_digit]).
Proof.
eexists _, _. split; [reflexivity|]. split; [done|].
repeat constructor.
Qed.

Lemma aligned_head : suffix_head (literal "_aligned").
Proof.
eexists _, _. split; [reflexivity|]. split; [done|].
repeat constructor.
Qed.

(** *** The normal form *)

(** What [normalize] returns is left alone by the two suffix cuts. *)
Lemma normalize_stable name :
  lf_free name ->
  let b := normalize name in
  lf_free b /\
  occurs (literal "_model" ++ [is_digit]) b = false /\
  occurs (literal "_aligned") b = false.
Proof.
intros Hname b. subst b. unfold normalize, strip_aligned, strip_model.
set (x := strip_rank_prefix (splitext_root name)).
assert (lf_free x) as Hx.
{ by apply lf_free_strip_rank_prefix, lf_free_splitext_root. }
rewrite (re_sub_to_eol_cut _ x Hx).
assert (lf_free (cut (literal "_model" ++ [is_digit]) x)) as Hy.
{ eapply lf_free_prefix; [apply startswith_cut|done]. }
rewrite (re_sub_to_eol_cut _ _ Hy).
split; [|split].
- eapply lf_free_prefix; [apply startswith_cut|done].
- destruct (occurs (literal "_model" ++ [is_digit])
              (cut (literal "_aligned")
                 (cut (literal "_model" ++ [is_digit]) x))) eqn:Ho; [|done].
  apply (occurs_prefix _ _ (cut (literal "_model" ++ [is_digit]) x)) in Ho;
    [|done|apply startswith_cut].
  by rewrite occurs_cut in Ho.
- by apply occurs_cut.
Qed.

(** A line without match of the suffix patterns, without rank prefix and
    without extension is its own normal form. *)
Lemma normalize_fixed r :
  lf_free r ->
  occurs (literal "_model" ++ [is_digit]) r = false ->
  occurs (literal "_aligned") r = false ->
  splitext_root r = r -> strip_rank_prefix r = r ->
  normalize r = r.
Proof.
intros Hlf Hm Ha Hext Hpre. unfold normalize, strip_aligned, strip_model.
rewrite Hext, Hpre.
rewrite (re_sub_to_eol_cut _ r Hlf), (cut_id _ r Hm).
by rewrite (re_sub_to_eol_cut _ r Hlf), (cut_id _ r Ha).
Qed.

End CoreIdentifier.

(** C3, as the code has it.  The extractor of Rank Join is idempotent
    wherever it finds an identifier: the identifier it returns is
    returned unchanged when the extractor is applied to it.  The
    extractor of Duplicate Resolution removes one extension and one rank
    prefix per application, so it returns its own result unchanged
    exactly in the cases where that result has no extension and no rank
    prefix left (for a file name that holds no line feed). *)
Theorem extracted_identifier_is_fixed
    (name : string) (master_rankings : list (string * nat)) :
  (forall m, RankJoin.extract_identifier name = Some m ->
             RankJoin.extract_identifier m = Some m) /\
  (lf_free name ->
   let r :=
     (Doublets.extract_core_identifier_with_ag1_fallback name master_rankings).1 in
   PyStr.splitext_root r = r -> Doublets.strip_rank_prefix r = r ->
   (Doublets.extract_core_identifier_with_ag1_fallback r master_rankings).1 = r).
Proof.
split.
- intros m Hm. apply extract_identifier_here in Hm as [s Hs].
  apply identifier_here_fixed in Hs. destruct m as [|c t]; [done|].
  cbn [RankJoin.extract_identifier]. by rewrite Hs.
- intros Hlf r.
  destruct (normalize_stable name Hlf) as (Hb & Hmodel & Haligned).
  cbv zeta in Hb, Hmodel, Haligned.
  set (b := Doublets.normalize name) in *.
  set (alt := PyStr.replace "_ag1_" "_7_" b).
  assert ((r = b /\
           (Doublets.dict_mem b master_rankings = true \/
            PyStr.contains "_ag1_" b && Doublets.dict_mem alt master_rankings
            = false)) \/
          (r = alt /\ Doublets.dict_mem alt master_rankings = true)) as Hr.
  { subst r. unfold Doublets.extract_core_identifier_with_ag1_fallback.
    fold b. fold alt.
    destruct (Doublets.dict_mem b master_rankings); [left; eauto|].
    destruct (PyStr.contains "_ag1_" b
              && Doublets.dict_mem alt master_rankings) eqn:Halt.
    - right. apply andb_true_iff in Halt as [_ Halt]. done.
    - left. eauto. }
  clearbody r. intros Hext Hpre.
  unfold Doublets.extract_core_identifier_with_ag1_fallback.
  destruct Hr as [[-> Hcase]|[-> Halt]].
  + rewrite (normalize_fixed b) by done. fold alt.
    destruct (Doublets.dict_mem b master_rankings); [done|].
    destruct Hcase as [? | ->]; done.
  + rewrite (normalize_fixed alt); try done.
    * by rewrite Halt.
    * by apply lf_free_subst.
    * destruct (occurs _ alt) eqn:Ho; [|done].
      apply occurs_subst in Ho; [congruence|apply model_head].
    * destruct (occurs _ alt) eqn:Ho; [|done].
      apply occurs_subst in Ho; [congruence|apply aligned_head].
Qed.

Lemma extracted_identifier_is_fixed_witness :
  let name := "1_15_des_ag1_s12_mpnn3_model1_aligned.pdb" in
  let master_rankings := [("des_7_s12_mpnn3", 4)] in
  let r :=
    (Doublets.extract_core_identifier_with_ag1_fallback name master_rankings).1 in
  lf_free name /\
  PyStr.splitext_root r = r /\
  Doublets.strip_rank_prefix r = r /\
  r = "des_7_s12_mpnn3" /\
  (Doublets.extract_core_identifier_with_ag1_fallback r master_rankings).1 = r.
Proof.
intros name master_rankings r.
assert (lf_free name) as H1 by (vm_compute; reflexivity).
assert (PyStr.splitext_root r = r) as H2 by (vm_compute; reflexivity).
assert (Doublets.strip_rank_prefix r = r) as H3 by (vm_compute; reflexivity).
split; [exact H1|]. split; [exact H2|]. split; [exact H3|].
split; [vm_compute; reflexivity|].
exact (proj2 (extracted_identifier_is_fixed name master_rankings) H1 H2 H3).
Defined.

(** C3, as the specification has it, fails for the extractor of
    Duplicate Resolution: a name with two rank prefixes loses one at each
    application, and a name with two dots loses one extension at each. *)
Lemma extract_twice_differs :
  let extract := fun name =>
    (Doublets.extract_core_identifier_with_ag1_fallback name []).1 in
  extract "1_2_3_4_x.pdb" = "3_4_x" /\
  extract (extract "1_2_3_4_x.pdb") = "x" /\
  extract (extract "1_2_3_4_x.pdb") <> extract "1_2_3_4_x.pdb" /\
  extract "des_5.0A_s1.pdb" = "des_5.0A_s1" /\
  extract (extract "des_5.0A_s1.pdb") = "des_5" /\
  extract (extract "des_5.0A_s1.pdb") <> extract "des_5.0A_s1.pdb".
Proof.
intros extract. vm_compute.
repeat split; try reflexivity; intros H; discriminate H.
Qed.


(** * Further properties *)

(** ** The Score Aggregator, table by table *)

Section AggregatorTables.
Import PyStr Pandas Aggregator.

(** The frame a [*.csv] file gives: one when it reads, none otherwise. *)
Definition frame_of_file (subdir : string) (f : csv_file) : list DataFrame :=
match f.2 with
| Returned c => [tag_source subdir f.1 (read_csv c)]
| Raised _ => []
end.

(** The frames a subdirectory gives, in the order they are read. *)
Definition frames_of_subdir (sd : string * list csv_file) : list DataFrame :=
sorted_files (filter (fun f => not_merged f) sd.2) ≫= frame_of_file sd.1.

Lemma read_loop_frames (subdir : string) (files : list csv_file) :
  read_loop subdir files
  = (files ≫= frame_of_file subdir, files ≫= error_of_file).
Proof.
unfold read_loop.
set (step := fun (acc : list DataFrame * list event) (f : csv_file) => _).
assert (forall acc, foldl step acc files
  = (acc.1 ++ (files ≫= frame_of_file subdir),
     acc.2 ++ (files ≫= error_of_file))) as H.
{ induction files as [|f files IH]; intros [dfs errs]; simpl.
  - by rewrite !app_nil_r.
  - rewrite IH. unfold step, frame_of_file, error_of_file.
    destruct f as [name [c|e]]; simpl; by rewrite <- app_assoc. }
apply (H ([], [])).
Qed.

Lemma frame_rows_of_file subdir f :
  frame_rows (frame_of_file subdir f) = lines_of_file subdir f.
Proof.
unfold frame_of_file, lines_of_file, frame_rows.
destruct f as [name [c|e]]; simpl; [|done].
rewrite app_nil_r, <- list_fmap_compose.
rewrite <- (range_index_rows (records c)) at 2.
rewrite <- list_fmap_compose. apply list_fmap_ext. by intros i [k r] _.
Qed.

Lemma frame_rows_bind {A : Type} (l : list A) (f : A -> list DataFrame) :
  frame_rows (l ≫= f) = l ≫= fun x => frame_rows (f x).
Proof.
induction l as [|x l IH]; [done|].
by rewrite !bind_cons, frame_rows_app, IH.
Qed.

Lemma frame_rows_of_subdir sd : frame_rows (frames_of_subdir sd) = lines_of_subdir sd.
Proof.
unfold frames_of_subdir, lines_of_subdir. rewrite frame_rows_bind.
apply list_bind_ext; [|done]. intros f. apply frame_rows_of_file.
Qed.

Variable argsort_quick :
  (row -> row -> comparison) -> list (nat * row) -> list (nat * row).

(** The table written for a subdirectory, if it has a frame at all. *)
Definition table_of_subdir (sd : string * list csv_file)
    : list (string * DataFrame) :=
match frames_of_subdir sd with
| [] => []
| dfs => [(sd.1, (sort_and_report argsort_quick sd.1 (concat_frames dfs)).1)]
end.

(** What is printed while a subdirectory is processed. *)
Definition events_of_subdir (sd : string * list csv_file) : list event :=
(sorted_files (filter (fun f => not_merged f) sd.2) ≫= error_of_file)
++ match frames_of_subdir sd with
   | [] => []
   | dfs => (sort_and_report argsort_quick sd.1 (concat_frames dfs)).2
            ++ [Created ("merged_" +:+ sd.1 +:+ "_stats.csv")]
   end.

Lemma process_subdir_exact all_dfs outs lg sd :
  process_subdir argsort_quick (all_dfs, outs, lg) sd
  = (all_dfs ++ frames_of_subdir sd, outs ++ table_of_subdir sd,
     lg ++ events_of_subdir sd).
Proof.
rewrite process_subdir_eq, read_loop_frames.
unfold table_of_subdir, events_of_subdir. fold (frames_of_subdir sd).
destruct (frames_of_subdir sd) as [|df dfs].
- by rewrite !app_nil_r.
- destruct (sort_and_report argsort_quick sd.1 (concat_frames (df :: dfs))).
  done.
Qed.

Lemma process_subdirs_exact all_dfs outs lg sds :
  foldl (process_subdir argsort_quick) (all_dfs, outs, lg) sds
  = (all_dfs ++ (sds ≫= frames_of_subdir), outs ++ (sds ≫= table_of_subdir),
     lg ++ (sds ≫= events_of_subdir)).
Proof.
revert all_dfs outs lg. induction sds as [|sd sds IH]; intros all_dfs outs lg.
- simpl. by rewrite !app_nil_r.
- cbn [foldl]. rewrite process_subdir_exact, IH. simpl.
  by rewrite <- !app_assoc.
Qed.


(** The whole merge in terms of the subdirectories. *)
Lemma merge_all_eq sds :
  merge_all argsort_quick sds
  = match sds ≫= frames_of_subdir with
    | [] =>
      Outcome (sds ≫= table_of_subdir) None
        ((sds ≫= events_of_subdir) ++ [NoCsvToMerge; PoolingCompleted])
    | all_dfs =>
      let res :=
        sort_and_report argsort_quick "master" (concat_frames all_dfs) in
      Outcome (sds ≫= table_of_subdir)
        (Some match sort_columns (concat_frames all_dfs) with
              | [] => res.1
              | _ => reset_index res.1
              end)
        ((sds ≫= events_of_subdir) ++ res.2 ++
         [Created "merged_all_final_design_stats.csv"; PoolingCompleted])
    end.
Proof.
unfold merge_all. rewrite process_subdirs_exact. simpl.
destruct (sds ≫= frames_of_subdir) as [|df dfs]; [done|].
by destruct (sort_and_report argsort_quick "master" (concat_frames (df :: dfs))).
Qed.






Lemma add_column_elem x col cols :
  x ∈ add_column col cols <-> x ∈ cols \/ x = col.
Proof.
unfold add_column. case_bool_decide as Hc.
- split; [by left|]. intros [? | ->]; done.
- rewrite elem_of_app, list_elem_of_singleton. done.
Qed.

Lemma union_columns_elem x dfs :
  x ∈ union_columns dfs <-> exists df, df ∈ dfs /\ x ∈ columns df.
Proof.
unfold union_columns.
assert (forall cols acc,
  x ∈ foldl (fun a c => add_column c a) acc cols <-> x ∈ acc \/ x ∈ cols) as Hin.
{ induction cols as [|c cols IH]; intros acc; simpl.
  - split; [by left|]. intros [?|H]; [done|]. by apply elem_of_nil in H.
  - rewrite IH, add_column_elem, elem_of_cons. tauto. }
assert (forall acc,
  x ∈ foldl (fun acc df => foldl (fun a c => add_column c a) acc (columns df))
        acc dfs
  <-> x ∈ acc \/ exists df, df ∈ dfs /\ x ∈ columns df) as H.
{ induction dfs as [|df dfs IH]; intros acc; simpl.
  - split; [by left|]. intros [?|(df & H & _)]; [done|].
    by apply elem_of_nil in H.
  - rewrite IH, Hin. split.
    + intros [[?|?]|(df' & ? & ?)]; [by left| |].
      * right. exists df. split; [apply elem_of_cons; by left|done].
      * right. exists df'. split; [apply elem_of_cons; by right|done].
    + intros [?|(df' & [-> | ?]%elem_of_cons & ?)]; [by left; left|by left; right|].
      right. eauto. }
rewrite H. split; [|by right]. intros [Hx|?]; [|done]. by apply elem_of_nil in Hx.
Qed.

Lemma frames_of_subdir_elem sd df :
  df ∈ frames_of_subdir sd <->
  exists f c, (f, Returned c) ∈ sd.2 /\ not_merged (f, Returned c) = true /\
              df = tag_source sd.1 f (read_csv c).
Proof.
unfold frames_of_subdir, sorted_files. rewrite list_elem_of_bind.
setoid_rewrite merge_sort_Permutation. setoid_rewrite list_elem_of_filter.
split.
- intros ([f [c|e]] & Hdf & Hnm & Hin); unfold frame_of_file in Hdf;
    simpl in Hdf.
  + apply list_elem_of_singleton in Hdf. apply Is_true_true in Hnm. eauto.
  + by apply elem_of_nil in Hdf.
- intros (f & c & Hin & Hnm & ->). exists (f, Returned c).
  split; [by apply list_elem_of_singleton|]. split; [by apply Is_true_true|done].
Qed.

(** The header of a tagged frame holds a metric column only if the file
    does. *)
Lemma tag_source_metric_column subdir file df x :
  x <> "source_subfolder" -> x <> "source_file" ->
  x ∈ columns (tag_source subdir file df) <-> x ∈ columns df.
Proof.
intros H1 H2. unfold tag_source. simpl. rewrite !add_column_elem. tauto.
Qed.

End AggregatorTables.

(** ** Which tables the Score Aggregator writes *)


(** ** The master table and the tables of the subdirectories *)

Section MasterAndTables.
Import PyStr Pandas Aggregator.
Variable argsort_quick :
  (row -> row -> comparison) -> list (nat * row) -> list (nat * row).
Hypothesis argsort_quick_perm : forall cmp l, argsort_quick cmp l ≡ₚ l.




End MasterAndTables.





(** ** Tables without metric columns *)

Section NoMetric.
Import PyStr Pandas Aggregator.
Variable argsort_quick :
  (row -> row -> comparison) -> list (nat * row) -> list (nat * row).

(** No file that reads has a metric column. *)
Definition no_metric_columns (sds : list (string * list csv_file)) : Prop :=
forall sd f c, sd ∈ sds -> (f, Returned c) ∈ sd.2 ->
  ("Average_i_pTM" ∉ header c) /\ ("Average_i_pAE" ∉ header c).

Lemma sort_columns_nil dfs :
  (forall df, df ∈ dfs ->
     ("Average_i_pTM" ∉ columns df) /\ ("Average_i_pAE" ∉ columns df)) ->
  sort_columns (concat_frames dfs) = [].
Proof.
intros H. unfold sort_columns. cbn [concat_frames columns].
rewrite !bool_decide_eq_false_2; [done| |].
- intros (df & Hdf & Hc)%union_columns_elem. by destruct (H df Hdf).
- intros (df & Hdf & Hc)%union_columns_elem. by destruct (H df Hdf).
Qed.

Lemma frames_without_metric sds sd df :
  no_metric_columns sds -> sd ∈ sds -> df ∈ frames_of_subdir sd ->
  ("Average_i_pTM" ∉ columns df) /\ ("Average_i_pAE" ∉ columns df).
Proof.
intros Hno Hsd (f & c & Hf & _ & ->)%frames_of_subdir_elem.
destruct (Hno sd f c Hsd Hf) as [H1 H2].
split; rewrite tag_source_metric_column; done.
Qed.

Lemma sort_and_report_unsorted name dfs :
  (forall df, df ∈ dfs ->
     ("Average_i_pTM" ∉ columns df) /\ ("Average_i_pAE" ∉ columns df)) ->
  sort_and_report argsort_quick name (concat_frames dfs)
  = (concat_frames dfs, [WarnNoMetricColumn name]).
Proof.
intros H. unfold sort_and_report. by rewrite (sort_columns_nil dfs H).
Qed.

End NoMetric.

(** X4. When no file has a metric column, nothing is sorted: the master
    table holds the lines of all files in the order they were read
    (subdirectory by subdirectory, the files of each by name), every
    per-subfolder table holds the lines of its subdirectory in that
    order, and instead of a sort a warning is printed for each table. *)
Theorem unranked_tables_keep_reading_order
    (argsort_quick : (Pandas.row -> Pandas.row -> comparison) ->
                     list (nat * Pandas.row) -> list (nat * Pandas.row))
    (sds : list (string * list Aggregator.csv_file)) :
  no_metric_columns sds ->
  let out := Aggregator.merge_all argsort_quick sds in
  master_rows out = sds ≫= lines_of_subdir /\
  (forall name df, (name, df) ∈ Aggregator.merged_subdirs out ->
     exists sd, sd ∈ sds /\ name = sd.1 /\
                (Pandas.body df).*2 = lines_of_subdir sd /\
                Aggregator.WarnNoMetricColumn name ∈ Aggregator.log out) /\
  (Aggregator.master out <> None ->
   Aggregator.WarnNoMetricColumn "master" ∈ Aggregator.log out) /\
  (forall name, Aggregator.SortedData name ∉ Aggregator.log out).
Proof.
intros Hno out. subst out.
assert (forall sd, sd ∈ sds ->
  table_of_subdir argsort_quick sd
  = match frames_of_subdir sd with
    | [] => []
    | dfs => [(sd.1, Pandas.concat_frames dfs)]
    end /\
  events_of_subdir argsort_quick sd
  = (Aggregator.sorted_files
       (filter (fun f => Aggregator.not_merged f) sd.2) ≫= error_of_file)
    ++ match frames_of_subdir sd with
       | [] => []
       | _ => [Aggregator.WarnNoMetricColumn sd.1;
               Aggregator.Created ("merged_" +:+ sd.1 +:+ "_stats.csv")]
       end) as Hsd.
{ intros sd Hsd. unfold table_of_subdir, events_of_subdir.
  pose proof (fun df => frames_without_metric sds sd df Hno Hsd) as Hdf.
  destruct (frames_of_subdir sd) as [|df dfs]; [done|].
  by rewrite (sort_and_report_unsorted argsort_quick sd.1 (df :: dfs) Hdf). }
assert (forall (f : list Aggregator.csv_file) name,
  Aggregator.SortedData name ∉ f ≫= error_of_file) as Herr.
{ intros f name (x & Hx & _)%list_elem_of_bind. unfold error_of_file in Hx.
  destruct (x.2); [by apply elem_of_nil in Hx|].
  by apply list_elem_of_singleton in Hx. }
assert (forall name, Aggregator.SortedData name
                     ∉ sds ≫= events_of_subdir argsort_quick) as Hlog.
{ intros name (sd & Hin & Hsd')%list_elem_of_bind.
  destruct (Hsd sd Hsd') as [_ E]. rewrite E in Hin.
  apply elem_of_app in Hin as [Hin|Hin]; [by apply (Herr _ name) in Hin|].
  destruct (frames_of_subdir sd); [by apply elem_of_nil in Hin|].
  apply elem_of_cons in Hin as [Hin|Hin]; [done|].
  by apply list_elem_of_singleton in Hin. }
assert (forall name df, (name, df) ∈ sds ≫= table_of_subdir argsort_quick ->
  exists sd, sd ∈ sds /\ name = sd.1 /\
    (Pandas.body df).*2 = lines_of_subdir sd /\
    Aggregator.WarnNoMetricColumn name
    ∈ sds ≫= events_of_subdir argsort_quick) as Htab.
{ intros name df (sd & Hin & Hsd')%list_elem_of_bind.
  destruct (Hsd sd Hsd') as [Et Ee]. rewrite Et in Hin.
  exists sd. split; [done|].
  destruct (frames_of_subdir sd) as [|df0 dfs0] eqn:Hfr;
    [by apply elem_of_nil in Hin|].
  apply list_elem_of_singleton in Hin. injection Hin as -> ->.
  split; [done|]. split.
  - rewrite concat_frames_rows, <- Hfr. apply frame_rows_of_subdir.
  - apply list_elem_of_bind. exists sd. split; [|done]. rewrite Ee.
    apply elem_of_app. right. apply elem_of_cons. by left. }
rewrite merge_all_eq.
assert (frame_rows (sds ≫= frames_of_subdir) = sds ≫= lines_of_subdir) as <-.
{ rewrite frame_rows_bind. apply list_bind_ext; [|done].
  intros sd. apply frame_rows_of_subdir. }
assert (forall df, df ∈ sds ≫= frames_of_subdir ->
  ("Average_i_pTM" ∉ Pandas.columns df) /\ ("Average_i_pAE" ∉ Pandas.columns df))
  as Hall.
{ intros df (sd & Hdf & Hsd')%list_elem_of_bind.
  by apply (frames_without_metric sds sd df). }
destruct (sds ≫= frames_of_subdir) as [|df dfs] eqn:E.
- cbn [Aggregator.merged_subdirs Aggregator.master Aggregator.log master_rows].
  split; [done|]. split; [|split; [done|]].
  + intros name df Hin. destruct (Htab name df Hin) as (sd & ? & ? & ? & ?).
    exists sd. repeat (split; [done|]). apply elem_of_app. by left.
  + intros name [Hin|Hin]%elem_of_app; [by apply Hlog in Hin|].
    apply elem_of_cons in Hin as [Hin|Hin]; [done|].
    by apply list_elem_of_singleton in Hin.
- cbv beta iota zeta.
  rewrite (sort_and_report_unsorted argsort_quick "master" (df :: dfs) Hall).
  rewrite (sort_columns_nil (df :: dfs) Hall).
  cbn [Aggregator.merged_subdirs Aggregator.master Aggregator.log master_rows
       fst snd].
  split; [apply concat_frames_rows|]. split; [|split].
  + intros name df' Hin. destruct (Htab name df' Hin) as (sd & ? & ? & ? & ?).
    exists sd. repeat (split; [done|]). apply elem_of_app. by left.
  + intros _. apply elem_of_app. right. apply elem_of_cons. by left.
  + intros name [Hin|Hin]%elem_of_app; [by apply Hlog in Hin|].
    repeat (apply elem_of_cons in Hin as [Hin|Hin]; [done|]).
    by apply elem_of_nil in Hin.
Qed.

(** Two files without metric columns in one subdirectory, listed in
    reverse order of their names. *)
Definition unranked_batch : list (string * list Aggregator.csv_file) :=
[("run1",
  [("b.csv", Returned (Pandas.Csv ["Design"]
                         [Pandas.Row (Some "d_s2_mpnn1") None None "" ""]));
   ("a.csv", Returned (Pandas.Csv ["Design"]
                         [Pandas.Row (Some "d_s1_mpnn1") None None "" ""]))])].

Lemma unranked_tables_keep_reading_order_witness :
  no_metric_columns unranked_batch /\
  master_rows (Aggregator.merge_all (fun _ l => l) unranked_batch)
  = unranked_batch ≫= lines_of_subdir.
Proof.
assert (no_metric_columns unranked_batch) as Hno.
{ intros sd f c Hsd Hf.
  apply list_elem_of_singleton in Hsd. subst sd. simpl in Hf.
  assert (Pandas.header c = ["Design"]) as ->.
  { apply elem_of_cons in Hf as [Hf|Hf]; [by injection Hf as _ ->|].
    apply list_elem_of_singleton in Hf. by injection Hf as _ ->. }
  split; intros Hin; apply list_elem_of_singleton in Hin; discriminate Hin. }
split; [exact Hno|].
exact (proj1 (unranked_tables_keep_reading_order (fun _ l => l)
                unranked_batch Hno)).
Defined.


(** ** The order in which [glob] lists the files *)

Section ListingOrder.
Import PyStr Pandas Aggregator.

Lemma same_name_same_file (files : list csv_file) (x y : csv_file) :
  NoDup files.*1 -> x ∈ files -> y ∈ files -> x.1 = y.1 -> x = y.
Proof.
induction files as [|z files IH]; intros Hnd Hx Hy Hxy.
- by apply elem_of_nil in Hx.
- rewrite fmap_cons in Hnd. apply NoDup_cons in Hnd as [Hz Hnd].
  apply elem_of_cons in Hx as [-> | Hx]; apply elem_of_cons in Hy as [-> | Hy].
  + done.
  + exfalso. apply Hz. rewrite Hxy. by apply list_elem_of_fmap_2.
  + exfalso. apply Hz. rewrite <- Hxy. by apply list_elem_of_fmap_2.
  + by apply IH.
Qed.

Lemma name_order_sorted (files : list csv_file) :
  StronglySorted (fun a b : csv_file => String.le a.1 b.1) (sorted_files files).
Proof.
unfold sorted_files. apply StronglySorted_merge_sort.
- intros a b c Hab Hbc. by etrans.
- intros a b. apply (total String.le).
Qed.

(** The files of a directory have distinct names, so sorting them by
    name gives one order whatever order they are listed in. *)
Lemma sorted_files_listing (files files' : list csv_file) :
  NoDup files.*1 -> files ≡ₚ files' -> sorted_files files = sorted_files files'.
Proof.
intros Hnd Hp.
assert (sorted_files files ≡ₚ files) as H1 by apply merge_sort_Permutation.
assert (sorted_files files' ≡ₚ files') as H2 by apply merge_sort_Permutation.
apply (StronglySorted_unique_strong
         (fun a b : csv_file => String.le a.1 b.1)).
- intros x y Hx Hy Hxy Hyx.
  apply (same_name_same_file files); [done| | |].
  + by rewrite <- H1.
  + by rewrite Hp, <- H2.
  + by apply (anti_symm String.le).
- apply name_order_sorted.
- apply name_order_sorted.
- by rewrite H1, H2.
Qed.

Variable argsort_quick :
  (row -> row -> comparison) -> list (nat * row) -> list (nat * row).

Lemma process_subdir_listing st name (files files' : list csv_file) :
  NoDup files.*1 -> files ≡ₚ files' ->
  process_subdir argsort_quick st (name, files)
  = process_subdir argsort_quick st (name, files').
Proof.
intros Hnd Hp. destruct st as [[all_dfs outs] lg].
unfold process_subdir. cbn [fst snd].
assert (filter (fun f => not_merged f) files
        ≡ₚ filter (fun f => not_merged f) files') as Hf by (by rewrite Hp).
assert (NoDup (filter (fun f => not_merged f) files).*1) as Hnd'.
{ eapply sublist_NoDup; [exact Hnd|]. apply fmap_sublist, sublist_filter. }
rewrite <- (sorted_files_listing _ _ Hnd' Hf).
destruct (filter (fun f => not_merged f) files) as [|f fs] eqn:E1;
  destruct (filter (fun f => not_merged f) files') as [|f' fs'] eqn:E2.
- done.
- by apply Permutation_nil_cons in Hf.
- symmetry in Hf. by apply Permutation_nil_cons in Hf.
- done.
Qed.

End ListingOrder.

(** X5. The outcome of the Score Aggregator does not depend on the
    order in which [glob] lists the files of a subdirectory: with the
    same subdirectories in the same order, each holding the same files
    (under distinct names) in any order, the per-subfolder tables, the
    master table and the log are the same. *)
Theorem listing_order_is_irrelevant
    (argsort_quick : (Pandas.row -> Pandas.row -> comparison) ->
                     list (nat * Pandas.row) -> list (nat * Pandas.row))
    (sds sds' : list (string * list Aggregator.csv_file)) :
  Forall2 (fun sd sd' : string * list Aggregator.csv_file =>
             sd.1 = sd'.1 /\ NoDup sd.2.*1 /\ sd.2 ≡ₚ sd'.2) sds sds' ->
  Aggregator.merge_all argsort_quick sds
  = Aggregator.merge_all argsort_quick sds'.
Proof.
intros H. unfold Aggregator.merge_all.
assert (forall st,
  foldl (Aggregator.process_subdir argsort_quick) st sds
  = foldl (Aggregator.process_subdir argsort_quick) st sds') as Hfold.
{ induction H as [|[name files] [name' files'] sds sds' (Hn & Hnd & Hp) _ IH];
    intros st; cbn [foldl]; [done|].
  cbn [fst snd] in Hn, Hnd, Hp. subst name'.
  rewrite (process_subdir_listing argsort_quick st name files files' Hnd Hp).
  apply IH. }
by rewrite Hfold.
Qed.

Lemma listing_order_is_irrelevant_witness :
  Aggregator.merge_all (fun _ l => l) unranked_batch
  = Aggregator.merge_all (fun _ l => l)
      [("run1", reverse (unranked_batch ≫= snd))].
Proof.
apply (listing_order_is_irrelevant (fun _ l => l)).
unfold unranked_batch. constructor; [|constructor].
cbn [fst snd]. split; [done|]. split.
- cbn. apply NoDup_cons. split; [|apply NoDup_singleton].
  intros H%list_elem_of_singleton. discriminate H.
- vm_compute. apply perm_swap.
Defined.


(** ** The shape of an extracted identifier *)

Section IdentifierShape.
Import PyStr.

Lemma span_digits_split s : s = (span_digits s).1 +:+ (span_digits s).2.
Proof.
induction s as [|c s IH]; [done|]. cbn [span_digits].
destruct (is_digit c); [|done]. cbn [fst snd].
change (String c s = String c ((span_digits s).1 +:+ (span_digits s).2)).
by rewrite <- IH.
Qed.

Lemma span_digits_stop s : no_digit_ahead (span_digits s).2 = true.
Proof.
induction s as [|c s IH]; [done|]. simpl.
destruct (is_digit c) eqn:Hc; [done|]. simpl. by rewrite Hc.
Qed.

Lemma startswith_split p s :
  startswith p s = true -> s = p +:+ drop (String.length p) s.
Proof.
revert s. induction p as [|a p IH]; intros s; [done|].
destruct s as [|b s]; [done|]. simpl.
intros [Hab Hp]%andb_true_iff. apply bool_decide_eq_true in Hab. subst b.
change (String a p +:+ drop (String.length p) s)
  with (String a (p +:+ drop (String.length p) s)).
by rewrite <- IH.
Qed.

Lemma append_assoc (a b c : string) : (a +:+ b) +:+ c = a +:+ (b +:+ c).
Proof.
induction a as [|x a IH]; [done|].
change (String x ((a +:+ b) +:+ c) = String x (a +:+ (b +:+ c))).
by rewrite IH.
Qed.

(** A match at the head of [s]: what is matched and what is left. *)
Lemma identifier_here_shape s m :
  RankJoin.identifier_here s = Some m ->
  exists d1 d2 post,
    m = "s" +:+ d1 +:+ "_mpnn" +:+ d2 /\ s = m +:+ post /\
    d1 <> "" /\ d2 <> "" /\ all_digits d1 = true /\ all_digits d2 = true /\
    no_digit_ahead post = true.
Proof.
unfold RankJoin.identifier_here.
destruct s as [|c t]; [done|].
destruct (is_char "s" c) eqn:Hc; [|done].
apply bool_decide_eq_true in Hc. subst c.
pose proof (span_digits_fst t) as Hd1.
pose proof (span_digits_split t) as Ht.
destruct (span_digits t) as [d1 r1]. cbn [fst snd] in Hd1, Ht.
case_bool_decide as Hne1; [done|].
destruct (startswith "_mpnn" r1) eqn:Hr1; [|done].
apply startswith_split in Hr1. cbn [String.length] in Hr1.
pose proof (span_digits_fst (drop 5 r1)) as Hd2.
pose proof (span_digits_split (drop 5 r1)) as Ht2.
pose proof (span_digits_stop (drop 5 r1)) as Hpost.
destruct (span_digits (drop 5 r1)) as [d2 post].
cbn [fst snd] in Hd2, Ht2, Hpost.
case_bool_decide as Hne2; [done|].
intros [= <-]. exists d1, d2, post.
split; [done|]. split; [|done].
rewrite Ht, Hr1, Ht2.
change ("s" +:+ d1 +:+ "_mpnn" +:+ d2)
  with (String "s" (d1 +:+ ("_mpnn" +:+ d2))).
change (String "s" (d1 +:+ ("_mpnn" +:+ d2)) +:+ post)
  with (String "s" ((d1 +:+ ("_mpnn" +:+ d2)) +:+ post)).
by rewrite !append_assoc.
Qed.

End IdentifierShape.

(** X6. What the extractor of Rank Join returns is a piece of the file
    name: the letter [s], digits, [_mpnn], digits, with at least one
    digit in each run; the second run is not followed by a further
    digit, and no match of the expression starts before it. *)
Theorem extracted_identifier_shape (filename m : string) :
  RankJoin.extract_identifier filename = Some m ->
  exists pre d1 d2 post,
    filename = pre +:+ m +:+ post /\
    m = "s" +:+ d1 +:+ "_mpnn" +:+ d2 /\
    d1 <> "" /\ d2 <> "" /\ all_digits d1 = true /\ all_digits d2 = true /\
    no_digit_ahead post = true /\
    forall k, k < String.length pre ->
      RankJoin.identifier_here (PyStr.drop k filename) = None.
Proof.
induction filename as [|c t IH]; [done|].
cbn [RankJoin.extract_identifier].
destruct (RankJoin.identifier_here (String c t)) as [m'|] eqn:Hhere.
- intros [= ->].
  apply identifier_here_shape in Hhere
    as (d1 & d2 & post & Hm & Hs & H1 & H2 & H3 & H4 & H5).
  exists "", d1, d2, post. repeat (split; [done|]).
  intros k Hk. simpl in Hk. lia.
- intros Hm. destruct (IH Hm)
    as (pre & d1 & d2 & post & Ht & Hm' & H1 & H2 & H3 & H4 & H5 & Hleft).
  exists (String c pre), d1, d2, post.
  split; [by rewrite Ht at 1|]. repeat (split; [done|]).
  intros [|k] Hk; [exact Hhere|].
  cbn [PyStr.drop]. apply Hleft. simpl in Hk. lia.
Qed.

Lemma extracted_identifier_shape_witness :
  exists pre d1 d2 post,
    "1_3_des_s12_mpnn3_model1.pdb" = pre +:+ "s12_mpnn3" +:+ post /\
    "s12_mpnn3" = "s" +:+ d1 +:+ "_mpnn" +:+ d2 /\
    d1 <> "" /\ d2 <> "" /\ all_digits d1 = true /\ all_digits d2 = true /\
    no_digit_ahead post = true /\
    forall k, k < String.length pre ->
      RankJoin.identifier_here (PyStr.drop k "1_3_des_s12_mpnn3_model1.pdb")
      = None.
Proof.
exact (extracted_identifier_shape "1_3_des_s12_mpnn3_model1.pdb" "s12_mpnn3"
         eq_refl).
Defined.

(** ** Ranks printed in file names *)

Section RankPrefix.
Import PyStr.

Lemma pretty_N_go_digits (x : N) (s : string) :
  all_digits s = true -> all_digits (pretty_N_go x s) = true.
Proof.
revert s. induction (N.lt_wf_0 x) as [x _ IH]. intros s Hs.
destruct (decide (0 < x)%N) as [Hx|Hx].
- rewrite pretty_N_go_step by done. apply IH.
  + apply N.div_lt; lia.
  + simpl. by rewrite pretty_N_char_digit.
- assert (x = 0%N) as -> by lia. by rewrite pretty_N_go_0.
Qed.

Lemma pretty_N_go_nonempty (x : N) (s : string) :
  s <> "" -> pretty_N_go x s <> "".
Proof.
revert s. induction (N.lt_wf_0 x) as [x _ IH]. intros s Hs.
destruct (decide (0 < x)%N) as [Hx|Hx].
- rewrite pretty_N_go_step by done. apply IH; [|done].
  apply N.div_lt; lia.
- assert (x = 0%N) as -> by lia. by rewrite pretty_N_go_0.
Qed.

(** A rank is printed as a non-empty run of digits. *)
Lemma pretty_nat_digits (n : nat) :
  all_digits (pretty n) = true /\ pretty n <> "".
Proof.
unfold pretty, pretty_nat, pretty, pretty_N.
case_decide as Hn; [done|]. split.
- by apply pretty_N_go_digits.
- rewrite pretty_N_go_step by lia. by apply pretty_N_go_nonempty.
Qed.

Lemma identifier_here_not_s c t :
  is_char "s" c = false -> RankJoin.identifier_here (String c t) = None.
Proof. intros H. unfold RankJoin.identifier_here. by rewrite H. Qed.

Lemma digit_not_s c : is_digit c = true -> is_char "s" c = false.
Proof.
intros H. unfold is_char. apply bool_decide_eq_false_2. intros <-. done.
Qed.

(** No identifier starts inside a run of digits, nor at an underscore. *)
Lemma extract_identifier_digits d s :
  all_digits d = true ->
  RankJoin.extract_identifier (d +:+ String "_" s)
  = RankJoin.extract_identifier s.
Proof.
intros Hd. induction d as [|c d IH].
- change ("" +:+ String "_" s) with (String "_" s).
  cbn [RankJoin.extract_identifier].
  by rewrite identifier_here_not_s.
- simpl in Hd. apply andb_true_iff in Hd as [Hc Hd].
  change (String c d +:+ String "_" s) with (String c (d +:+ String "_" s)).
  cbn [RankJoin.extract_identifier].
  rewrite identifier_here_not_s by (by apply digit_not_s).
  by apply IH.
Qed.

Lemma new_filename_eq ir mr name :
  RankJoin.new_filename ir mr name
  = pretty ir +:+ String "_" (pretty mr +:+ String "_" name).
Proof.
reflexivity.
Qed.

End RankPrefix.

(** X7. The name Rank Join gives to a podium copy carries the same
    identifier as the file it was copied from: the two ranks put before
    the name hold no identifier and hide none. *)
Theorem podium_copy_keeps_identifier (ir mr : nat) (name : string) :
  RankJoin.extract_identifier (RankJoin.new_filename ir mr name)
  = RankJoin.extract_identifier name.
Proof.
rewrite new_filename_eq.
rewrite extract_identifier_digits by apply pretty_nat_digits.
by rewrite extract_identifier_digits by apply pretty_nat_digits.
Qed.

(** X8. The first rewriting step of the extractor of Duplicate
    Resolution removes exactly the two ranks Rank Join puts before a
    file name. *)
Theorem rank_prefix_round_trip (ir mr : nat) (name : string) :
  Doublets.strip_rank_prefix (RankJoin.new_filename ir mr name) = name.
Proof.
rewrite new_filename_eq. unfold Doublets.strip_rank_prefix.
destruct (pretty_nat_digits ir) as [Hd1 Hn1].
destruct (pretty_nat_digits mr) as [Hd2 Hn2].
rewrite span_digits_app by done.
rewrite bool_decide_eq_false_2 by done.
cbn [PyStr.startswith PyStr.drop].
change (PyStr.is_char "_" "_") with true. cbn [andb].
rewrite span_digits_app by done.
rewrite bool_decide_eq_false_2 by done.
cbn [PyStr.startswith PyStr.drop].
by change (PyStr.is_char "_" "_") with true.
Qed.


(** ** The counters and the reach of Rank Join *)

Section PodiumLoop.
Import PyStr PyPath RankJoin.
Variable individual_rankings : gmap string (gmap string nat).
Variable master_rankings : gmap string nat.

Lemma process_pdb_counts st pdb_path st' :
  process_pdb individual_rankings master_rankings st pdb_path = Returned st' ->
  copied_files st' + skipped_files st' = S (copied_files st + skipped_files st) /\
  copied_files st <= copied_files st' /\
  overwritten_files st <= overwritten_files st' /\
  overwritten_files st' + copied_files st
  <= overwritten_files st + copied_files st'.
Proof.
unfold process_pdb, skip.
destruct (extract_mother_folder_name pdb_path) as [mother_folder|];
  [|intros [= <-]; simpl; lia].
case_bool_decide; [intros [= <-]; simpl; lia|].
destruct (extract_identifier (basename pdb_path)) as [identifier|];
  [|intros [= <-]; simpl; lia].
destruct (individual_lookup individual_rankings mother_folder identifier)
  as [ir|]; destruct (master_rankings !! identifier) as [mr|];
  try (intros [= <-]; simpl; lia).
destruct (copy2 _ _ _) as [fs'|e]; [|done].
intros [= <-]. cbn [copied_files skipped_files overwritten_files].
destruct (exists_ _ (files st)); lia.
Qed.

Lemma copy_loop_counts pdb_files st st' :
  copy_loop individual_rankings master_rankings st pdb_files = Returned st' ->
  copied_files st' + skipped_files st'
  = copied_files st + skipped_files st + length pdb_files /\
  copied_files st <= copied_files st' /\
  overwritten_files st <= overwritten_files st' /\
  overwritten_files st' + copied_files st
  <= overwritten_files st + copied_files st'.
Proof.
revert st. induction pdb_files as [|p ps IH]; intros st Hrun.
- injection Hrun as <-. simpl. lia.
- apply copy_loop_cons in Hrun as (st1 & Hstep & Hrest).
  apply process_pdb_counts in Hstep. apply IH in Hrest. simpl. lia.
Qed.

(** A turn of the loop changes no file outside the directories named
    [podium]. *)
Lemma copy_loop_frame pdb_files st st' x :
  copy_loop individual_rankings master_rankings st pdb_files = Returned st' ->
  basename (dirname x) <> "podium" -> files st' !! x = files st !! x.
Proof.
intros Hrun Hx. revert st Hrun.
induction pdb_files as [|p ps IH]; intros st Hrun.
- by injection Hrun as <-.
- apply copy_loop_cons in Hrun as (st1 & Hstep & Hrest).
  rewrite (IH st1 Hrest). apply process_pdb_spec in Hstep.
  destruct (both_ranks individual_rankings master_rankings p) as [ranks|].
  + destruct Hstep as (data & _ & -> & _). apply lookup_insert_ne.
    intros Heq. apply Hx. rewrite <- Heq. apply podium_path_parent.
  + destruct Hstep as (-> & _). done.
Qed.

End PodiumLoop.

(** X9. The counters of Rank Join add up: every candidate file is
    either copied or skipped, so the two counts sum to the number of
    candidates whenever the summary is printed, and the files counted as
    overwritten are among those counted as copied. *)
Theorem summary_counts_add_up
    (stats : RankJoin.stats_files) (w : RankJoin.walk)
    (fs : PyPath.filesystem) (st : RankJoin.loop_state) :
  RankJoin.copy_files_with_rankings stats w fs = Returned st ->
  RankJoin.copied_files st + RankJoin.skipped_files st
  <= length (RankJoin.find_corresponding_pdb_files w) /\
  RankJoin.overwritten_files st <= RankJoin.copied_files st /\
  forall c o s t,
    last (RankJoin.printed st) = Some (RankJoin.Summary c o s t) ->
    c = RankJoin.copied_files st /\ o = RankJoin.overwritten_files st /\
    s = RankJoin.skipped_files st /\
    t = length (RankJoin.find_corresponding_pdb_files w) /\ c + s = t.
Proof.
unfold RankJoin.copy_files_with_rankings.
destruct (RankJoin.get_file_rankings stats) as [[[ind mas] lg]|e]; [|done].
destruct (bool_decide (mas = ∅) && bool_decide (ind = ∅)).
{ intros [= <-]. cbn. split; [lia|]. split; [lia|].
  intros c o s t. by rewrite last_snoc. }
destruct (RankJoin.find_corresponding_pdb_files w) as [|p0 ps0] eqn:Hfind.
{ intros [= <-]. cbn. split; [lia|]. split; [lia|].
  intros c o s t. by rewrite last_snoc. }
destruct (RankJoin.copy_loop ind mas _ (p0 :: ps0)) as [st1|e] eqn:Hrun;
  [|done].
intros [= <-]. apply copy_loop_counts in Hrun.
cbn [RankJoin.copied_files RankJoin.skipped_files RankJoin.overwritten_files
     RankJoin.printed length] in *.
split; [lia|]. split; [lia|].
intros c o s t. rewrite last_snoc. intros [= <- <- <- <-]. lia.
Qed.

Lemma summary_counts_add_up_witness :
  exists st,
    RankJoin.copy_files_with_rankings sample_stats sample_walk sample_tree
    = Returned st /\
    last (RankJoin.printed st) = Some (RankJoin.Summary 1 0 1 2) /\
    RankJoin.copied_files st + RankJoin.skipped_files st
    <= length (RankJoin.find_corresponding_pdb_files sample_walk).
Proof.
destruct (RankJoin.copy_files_with_rankings sample_stats sample_walk sample_tree)
  as [st|e] eqn:Hrun; [|vm_compute in Hrun; discriminate Hrun].
exists st. split; [reflexivity|]. split.
- vm_compute in Hrun. injection Hrun as <-. reflexivity.
- exact (proj1 (summary_counts_add_up sample_stats sample_walk sample_tree st
                  Hrun)).
Defined.

(** X10. Rank Join touches only files lying directly in a directory
    named [podium]: every other path holds after the stage what it held
    before.  In particular, when the names the walk lists are proper
    names, the candidate files themselves are left as they were. *)
Theorem only_podium_files_change
    (stats : RankJoin.stats_files) (w : RankJoin.walk)
    (fs : PyPath.filesystem) (st : RankJoin.loop_state) :
  RankJoin.copy_files_with_rankings stats w fs = Returned st ->
  (forall x, PyStr.basename (PyPath.dirname x) <> "podium" ->
             RankJoin.files st !! x = fs !! x) /\
  (walk_names w ->
   forall p, p ∈ RankJoin.find_corresponding_pdb_files w ->
             RankJoin.files st !! p = fs !! p).
Proof.
intros Hrun.
assert (forall x, PyStr.basename (PyPath.dirname x) <> "podium" ->
                  RankJoin.files st !! x = fs !! x) as Hframe.
{ intros x Hx.
  assert (RankJoin.clear_podium_directories fs !! x = fs !! x) as Hclear.
  { rewrite clear_lookup. unfold RankJoin.in_cleared_podium.
    by rewrite bool_decide_eq_false_2. }
  revert Hrun. unfold RankJoin.copy_files_with_rankings.
  destruct (RankJoin.get_file_rankings stats) as [[[ind mas] lg]|e]; [|done].
  destruct (bool_decide (mas = ∅) && bool_decide (ind = ∅)).
  { by intros [= <-]. }
  destruct (RankJoin.find_corresponding_pdb_files w) as [|p0 ps0].
  { by intros [= <-]. }
  destruct (RankJoin.copy_loop ind mas _ (p0 :: ps0)) as [st1|e] eqn:Hloop;
    [|done].
  intros [= <-]. cbn [RankJoin.files].
  by rewrite (copy_loop_frame ind mas _ _ _ x Hloop Hx). }
split; [exact Hframe|].
intros Hw p Hp. apply Hframe. intros Hpod.
apply (candidate_parent w p Hw) in Hp. rewrite Hpod in Hp. done.
Qed.

Lemma only_podium_files_change_witness :
  exists st,
    RankJoin.copy_files_with_rankings sample_stats sample_walk sample_tree
    = Returned st /\
    RankJoin.files st
      !! "./run1/pooled/aligned/filtered_pdbs_jc_5.0A/d_s1_mpnn1_model1.pdb"
    = sample_tree
      !! "./run1/pooled/aligned/filtered_pdbs_jc_5.0A/d_s1_mpnn1_model1.pdb".
Proof.
destruct (RankJoin.copy_files_with_rankings sample_stats sample_walk sample_tree)
  as [st|e] eqn:Hrun; [|vm_compute in Hrun; discriminate Hrun].
exists st. split; [reflexivity|].
apply (proj1 (only_podium_files_change sample_stats sample_walk sample_tree st
                Hrun)).
vm_compute. discriminate.
Defined.


(** ** What a ranking holds *)

Section Filled.
Context {M : Type} (lookup : string -> M -> option nat)
  (step : M -> nat * Pandas.row -> M) (key : Pandas.row -> option string).

Hypothesis lookup_step : forall m l id,
  lookup id (step m l)
  = if decide (key l.2 = Some id) then Some l.1 else lookup id m.

Lemma filled_lookup (lines : list (nat * Pandas.row)) (init : M)
    (id : string) (k : nat) :
  lookup id (foldl step init lines) = Some k ->
  lookup id init = Some k \/ exists r, (k, r) ∈ lines /\ key r = Some id.
Proof.
revert init. induction lines as [|l lines IH]; intros init; cbn [foldl].
- by left.
- intros [H|(r & Hin & Hr)]%IH.
  + rewrite lookup_step in H.
    destruct (decide (key l.2 = Some id)) as [Hk|Hk]; [|by left].
    injection H as <-. right. exists l.2. split; [|done].
    apply elem_of_cons. left. by destruct l.
  + right. exists r. split; [|done]. apply elem_of_cons. by right.
Qed.

Lemma filled_none (lines : list (nat * Pandas.row)) (init : M) (id : string) :
  lookup id (foldl step init lines) = None <->
  lookup id init = None /\ forall l, l ∈ lines -> key l.2 <> Some id.
Proof.
revert init. induction lines as [|l lines IH]; intros init; cbn [foldl].
- split; [|by intros [? _]]. intros H. split; [done|].
  intros l Hl. by apply elem_of_nil in Hl.
- rewrite IH, lookup_step. split.
  + intros [H Hrest].
    destruct (decide (key l.2 = Some id)) as [Hk|Hk]; [done|].
    split; [done|]. intros l' [-> | Hl']%elem_of_cons; auto.
  + intros [H Hall]. split.
    * rewrite decide_False; [done|]. apply Hall, elem_of_cons. by left.
    * intros l' Hl'. apply Hall, elem_of_cons. by right.
Qed.

End Filled.

Lemma rank_join_lookup_step (m : gmap string nat) (l : nat * Pandas.row)
    (id : string) :
  match Pandas.Design l.2 with
  | Some d =>
    match RankJoin.extract_identifier d with
    | Some identifier => <[identifier := l.1]> m
    | None => m
    end
  | None => m
  end !! id
  = if decide (join_key l.2 = Some id) then Some l.1 else m !! id.
Proof.
unfold join_key. destruct (Pandas.Design l.2) as [d|]; simpl.
- destruct (RankJoin.extract_identifier d) as [i|]; simpl.
  + destruct (decide (Some i = Some id)) as [[= ->]|Hne].
    * apply lookup_insert_eq.
    * apply lookup_insert_ne. congruence.
  + destruct (decide (None = Some id)); done.
- destruct (decide (None = Some id)); done.
Qed.

Lemma doublets_lookup_step (m : list (string * nat)) (l : nat * Pandas.row)
    (id : string) :
  Doublets.dict_get id
    match Pandas.Design l.2 with
    | Some design =>
      Doublets.dict_set (PyStr.splitext_root (PyStr.strip design)) l.1 m
    | None => m
    end
  = if decide (design_key l.2 = Some id) then Some l.1
    else Doublets.dict_get id m.
Proof.
unfold design_key. destruct (Pandas.Design l.2) as [d|]; simpl.
- rewrite dict_get_set.
  destruct (decide (id = PyStr.splitext_root (PyStr.strip d))) as [->|Hne].
  + by rewrite decide_True.
  + rewrite decide_False by congruence. done.
- destruct (decide (None = Some id)); done.
Qed.

Lemma assign_ranks_lines {A : Type} (lines : list A) (x : A) :
  x ∈ lines <-> exists k, (k, x) ∈ Pandas.assign_ranks lines.
Proof.
assert ((Pandas.assign_ranks lines).*2 = lines) as E.
{ unfold Pandas.assign_ranks. apply snd_zip. by rewrite length_seq. }
split.
- rewrite <- E at 1. intros ([k y] & -> & Hin)%list_elem_of_fmap. eauto.
- intros [k Hin]. rewrite <- E.
  apply list_elem_of_fmap. by exists (k, x).
Qed.

(** X11. A ranking read from the master table holds nothing but the
    table's own keys: the rank found for an identifier is the place of a
    line with that identifier, and no rank is found exactly when no line
    of the table has it.  This holds for the ranking of Rank Join, keyed
    by the identifier extracted from the design name, and for that of
    Duplicate Resolution, keyed by the design name without surrounding
    blanks and extension. *)
Theorem ranking_holds_table_keys (c : Pandas.csv) (id : string) :
  (forall k, RankJoin.table_rankings c ∅ !! id = Some k ->
     exists r, Pandas.records c !! (k - 1) = Some r /\ 1 <= k /\
               join_key r = Some id) /\
  (RankJoin.table_rankings c ∅ !! id = None <->
   forall r, r ∈ Pandas.records c -> join_key r <> Some id) /\
  (forall k,
     Doublets.dict_get id
       (Doublets.fill_rankings (Pandas.assign_ranks (Pandas.records c)))
     = Some k ->
     exists r, Pandas.records c !! (k - 1) = Some r /\ 1 <= k /\
               design_key r = Some id) /\
  (Doublets.dict_get id
     (Doublets.fill_rankings (Pandas.assign_ranks (Pandas.records c)))
   = None <->
   forall r, r ∈ Pandas.records c -> design_key r <> Some id).
Proof.
assert (forall k (r : Pandas.row),
  (k, r) ∈ Pandas.assign_ranks (Pandas.records c) ->
  Pandas.records c !! (k - 1) = Some r /\ 1 <= k) as Hplace.
{ intros k r Hin. unfold Pandas.assign_ranks in Hin.
  apply list_elem_of_lookup in Hin as [i Hi].
  apply lookup_zip_with_Some in Hi as (k' & r' & [= <- <-] & Hk & Hr).
  apply lookup_seq in Hk as [-> _].
  split; [|lia]. by replace (1 + i - 1) with i by lia. }
assert (forall (key : Pandas.row -> option string),
  (forall l, l ∈ Pandas.assign_ranks (Pandas.records c) -> key l.2 <> Some id)
  <-> (forall r, r ∈ Pandas.records c -> key r <> Some id)) as Hall.
{ intros key. split.
  - intros H r [k Hr]%assign_ranks_lines. exact (H (k, r) Hr).
  - intros H [k r] Hin. apply H, assign_ranks_lines. eauto. }
unfold RankJoin.table_rankings, RankJoin.fill_rankings, Doublets.fill_rankings.
split; [|split; [|split]].
- intros k Hk.
  apply (filled_lookup (fun id (m : gmap string nat) => m !! id) _ join_key)
    in Hk as [Hk|(r & Hin & Hr)];
    [done| |intros m l i; apply rank_join_lookup_step].
  exists r. destruct (Hplace k r Hin). done.
- rewrite <- Hall.
  rewrite (filled_none (fun id (m : gmap string nat) => m !! id) _ join_key)
    by (intros m l i; apply rank_join_lookup_step).
  split; [by intros [_ ?]|]. intros H. split; [done|exact H].
- intros k Hk.
  apply (filled_lookup
           (fun id (m : list (string * nat)) => Doublets.dict_get id m)
           _ design_key)
    in Hk as [Hk|(r & Hin & Hr)];
    [done| |intros m l i; apply doublets_lookup_step].
  exists r. destruct (Hplace k r Hin). done.
- rewrite <- Hall.
  rewrite (filled_none
             (fun id (m : list (string * nat)) => Doublets.dict_get id m)
             _ design_key)
    by (intros m l i; apply doublets_lookup_step).
  split; [by intros [_ ?]|]. intros H. split; [done|exact H].
Qed.


(** ** The grouping token *)

Section GroupingToken.
Import PyStr Doublets.

Lemma s_number_here_shape s d :
  s_number_here s = Some d ->
  exists post, s = "_s" +:+ d +:+ "_" +:+ post /\
               d <> "" /\ all_digits d = true.
Proof.
unfold s_number_here.
destruct (startswith "_s" s) eqn:Hs; [|done].
apply startswith_split in Hs. cbn [String.length] in Hs.
pose proof (span_digits_fst (drop 2 s)) as Hd.
pose proof (span_digits_split (drop 2 s)) as Ht.
destruct (span_digits (drop 2 s)) as [d' r]. cbn [fst snd] in Hd, Ht.
case_bool_decide as Hne; [done|].
destruct (startswith "_" r) eqn:Hr; [|done].
apply startswith_split in Hr. cbn [String.length] in Hr.
intros [= <-]. exists (drop 1 r). split; [|done].
rewrite Hs at 1. rewrite Ht. rewrite Hr at 1. done.
Qed.

End GroupingToken.

(** X12. The grouping token of Duplicate Resolution is a non-empty run
    of digits that stands in the file name between [_s] and [_], at the
    leftmost place where the expression matches.  So the test
    [if s_number] of the grouping loop never rejects a token that was
    found. *)
Theorem grouping_token_shape (filename d : string) :
  Doublets.extract_s_number filename = Some d ->
  d <> "" /\ all_digits d = true /\
  exists pre post,
    filename = pre +:+ "_s" +:+ d +:+ "_" +:+ post /\
    forall k, k < String.length pre ->
      Doublets.s_number_here (PyStr.drop k filename) = None.
Proof.
induction filename as [|c t IH]; [done|].
cbn [Doublets.extract_s_number].
destruct (Doublets.s_number_here (String c t)) as [d'|] eqn:Hhere.
- intros [= ->].
  apply s_number_here_shape in Hhere as (post & Hs & Hne & Hd).
  split; [done|]. split; [done|]. exists "", post. split; [done|].
  intros k Hk. simpl in Hk. lia.
- intros Hm. destruct (IH Hm) as (Hne & Hd & pre & post & Ht & Hleft).
  split; [done|]. split; [done|]. exists (String c pre), post.
  split; [by rewrite Ht at 1|].
  intros [|k] Hk; [exact Hhere|].
  cbn [PyStr.drop]. apply Hleft. simpl in Hk. lia.
Qed.

Lemma grouping_token_shape_witness :
  "12" <> "" /\ all_digits "12" = true /\
  exists pre post,
    "des_ag1_s12_mpnn3_model1.pdb" = pre +:+ "_s" +:+ "12" +:+ "_" +:+ post /\
    forall k, k < String.length pre ->
      Doublets.s_number_here (PyStr.drop k "des_ag1_s12_mpnn3_model1.pdb")
      = None.
Proof.
exact (grouping_token_shape "des_ag1_s12_mpnn3_model1.pdb" "12" eq_refl).
Defined.

(** ** The groups *)

Section Grouping.
Import PyStr Doublets.

(** The grouping token of a listed file. *)
Definition token_of (pdb_file : string) : option string :=
extract_s_number (basename pdb_file).

(** The listed files that carry a given token, in the order of the
    listing. *)
Definition with_token (s_number : string) (pdb_files : list string)
    : list string :=
filter (fun f => token_of f = Some s_number) pdb_files.

Lemma dict_set_keys {V : Type} (k : string) (v : V) (d : list (string * V)) :
  (dict_set k v d).*1 = if dict_mem k d then d.*1 else d.*1 ++ [k].
Proof.
unfold dict_mem. induction d as [|[k0 v0] d IH]; [done|].
cbn [dict_set dict_get]. case_bool_decide as Hk.
- subst k0. done.
- rewrite !fmap_cons, IH. cbn [fst]. by destruct (dict_get k d).
Qed.

Lemma dict_get_keys {V : Type} (k : string) (d : list (string * V)) :
  dict_get k d = None <-> k ∉ d.*1.
Proof.
induction d as [|[k0 v0] d IH]; cbn [dict_get].
- split; [|done]. intros _ H. by apply elem_of_nil in H.
- rewrite fmap_cons, not_elem_of_cons. cbn [fst]. case_bool_decide as Hk.
  + split; [done|]. by intros [? _].
  + rewrite IH. split; [done|]. by intros [_ ?].
Qed.

Lemma dict_elem_get {V : Type} (k : string) (v : V) (d : list (string * V)) :
  NoDup d.*1 -> (k, v) ∈ d -> dict_get k d = Some v.
Proof.
induction d as [|[k0 v0] d IH]; intros Hnd Hin.
- by apply elem_of_nil in Hin.
- rewrite fmap_cons in Hnd. apply NoDup_cons in Hnd as [Hk0 Hnd].
  cbn [dict_get]. apply elem_of_cons in Hin as [[= -> ->] | Hin].
  + by rewrite bool_decide_eq_true_2.
  + rewrite bool_decide_eq_false_2; [by apply IH|].
    intros ->. apply Hk0. cbn [fst].
    apply list_elem_of_fmap. by exists (k0, v).
Qed.

(** What the grouping loop has built after the files [pdb_files]: the
    keys are distinct, and each key leads to the files carrying it. *)
Definition grouped (pdb_files : list string)
    (groups : list (string * list string)) : Prop :=
NoDup groups.*1 /\
forall s_number,
  dict_get s_number groups
  = match with_token s_number pdb_files with
    | [] => None
    | members => Some members
    end.

Lemma with_token_snoc s_number pdb_files f :
  with_token s_number (pdb_files ++ [f])
  = with_token s_number pdb_files
    ++ (if decide (token_of f = Some s_number) then [f] else []).
Proof.
unfold with_token. by rewrite filter_app.
Qed.

Lemma grouped_step pdb_files groups f :
  grouped pdb_files groups ->
  grouped (pdb_files ++ [f])
    match extract_s_number (basename f) with
    | Some s_number =>
      if bool_decide (s_number = "") then groups
      else group_append s_number f groups
    | None => groups
    end.
Proof.
intros [Hnd Hget].
destruct (extract_s_number (basename f)) as [sn|] eqn:Htok.
- assert (sn <> "") as Hne.
  { clear -Htok. revert Htok. generalize (basename f). intros name.
    induction name as [|c t IH]; [done|]. cbn [extract_s_number].
    destruct (s_number_here (String c t)) as [d|] eqn:Hh; [|exact IH].
    intros [= ->]. by apply s_number_here_shape in Hh as (_ & _ & ? & _). }
  rewrite bool_decide_eq_false_2 by done. unfold group_append. split.
  + rewrite dict_set_keys. unfold dict_mem.
    destruct (dict_get sn groups) eqn:Hsn; [done|].
    apply NoDup_app. split; [done|]. split; [|apply NoDup_singleton].
    intros x Hx ->%list_elem_of_singleton.
    by apply dict_get_keys in Hsn.
  + intros k. rewrite dict_get_set, with_token_snoc.
    fold (token_of f) in Htok.
    destruct (decide (k = sn)) as [->|Hk].
    * rewrite decide_True by done. rewrite Hget.
      by destruct (with_token sn pdb_files).
    * rewrite decide_False by congruence. rewrite app_nil_r. apply Hget.
- split; [done|]. intros k. rewrite with_token_snoc.
  fold (token_of f) in Htok.
  rewrite decide_False by congruence. rewrite app_nil_r. apply Hget.
Qed.

Lemma group_by_s_number_grouped pdb_files :
  grouped pdb_files (group_by_s_number pdb_files).
Proof.
unfold group_by_s_number.
induction pdb_files as [|f pdb_files IH] using rev_ind.
- split; [apply NoDup_nil_2|]. done.
- rewrite foldl_app. cbn [foldl]. by apply grouped_step.
Qed.

End Grouping.

(** X13. The groups of Duplicate Resolution split the listed files by
    grouping token: no token is the key of two groups, no group is
    empty, and the members of the group of a token are exactly the
    listed files that carry it, in the order of the listing. *)
Theorem groups_partition_listing (pdb_files : list string) :
  let groups := Doublets.group_by_s_number pdb_files in
  NoDup groups.*1 /\
  (forall s_number members,
     (s_number, members) ∈ groups <->
     members = with_token s_number pdb_files /\ members <> []) /\
  (forall f, f ∈ pdb_files ->
     (exists s_number members, (s_number, members) ∈ groups /\ f ∈ members)
     <-> is_Some (token_of f)).
Proof.
intros groups. subst groups.
destruct (group_by_s_number_grouped pdb_files) as [Hnd Hget].
assert (forall s_number members,
  (s_number, members) ∈ Doublets.group_by_s_number pdb_files <->
  members = with_token s_number pdb_files /\ members <> []) as Hgroups.
{ intros k ms. split.
  - intros Hin. apply (dict_elem_get _ _ _ Hnd) in Hin.
    rewrite Hget in Hin.
    destruct (with_token k pdb_files); [done|]. by injection Hin as <-.
  - intros [-> Hne]. apply dict_get_elem. rewrite Hget.
    by destruct (with_token k pdb_files). }
split; [done|]. split; [done|].
intros f Hf. split.
- intros (k & ms & [-> _]%Hgroups & Hin).
  apply list_elem_of_filter in Hin as [-> _]. eauto.
- intros [k Hk]. exists k, (with_token k pdb_files).
  assert (f ∈ with_token k pdb_files) as Hin
    by (by apply list_elem_of_filter).
  split; [|done]. apply Hgroups. split; [done|].
  intros E. rewrite E in Hin. by apply elem_of_nil in Hin.
Qed.


(** ** What every copy of Duplicate Resolution has in common *)

Section EveryCopy.
Import PyStr PyPath Doublets.

(** [ok file_path dest_dir]: the copies the stage may attempt.  [R] is a
    relation between the state before and after a step that every
    attempted copy establishes, and that printing does not disturb. *)
Variable ok : string -> string -> Prop.
Variable R : state -> state -> Prop.
Hypothesis R_refl : forall st, R st st.
Hypothesis R_trans : forall st1 st2 st3, R st1 st2 -> R st2 st3 -> R st1 st3.
Hypothesis R_print : forall st lg, R st (State (files st) (copies st) lg).
Hypothesis R_copy : forall file_path dest_dir st counter st' counter',
  ok file_path dest_dir ->
  copy_if_absent file_path dest_dir st counter = Returned (st', counter') ->
  R st st'.

Lemma copy_worst_every not_unique_dir worst_files st counter st' counter' :
  (forall e, e ∈ worst_files -> ok (path_of e) not_unique_dir) ->
  copy_worst not_unique_dir worst_files st counter = Returned (st', counter') ->
  R st st'.
Proof.
unfold copy_worst. revert st counter.
induction worst_files as [|w ws IH]; intros st counter Hok; cbn [foldl].
- intros [= <- _]. apply R_refl.
- destruct (copy_if_absent (path_of w) not_unique_dir st counter)
    as [[st1 c1]|e] eqn:Hc.
  + intros H. apply (R_trans _ st1).
    * eapply R_copy; [|exact Hc]. apply Hok, elem_of_cons. by left.
    * apply (IH st1 c1); [|done].
      intros e He. apply Hok, elem_of_cons. by right.
  + intros H. exfalso. clear -H.
    induction ws as [|w' ws' IHw]; cbn [foldl] in H; [done|]. auto.
Qed.

Lemma process_group_every unique_dir not_unique_dir master_rankings
    st cu cn group st' cu' cn' :
  (forall f, f ∈ group.2 -> ok f unique_dir /\ ok f not_unique_dir) ->
  process_group unique_dir not_unique_dir master_rankings (st, cu, cn) group
  = Returned (st', cu', cn') ->
  R st st'.
Proof.
destruct group as [s_number members]. cbn [snd]. intros Hok.
destruct (decide (1 < length members)) as [Hlen|Hlen].
- rewrite process_group_many by done. cbv zeta.
  set (st0 := State (files st) (copies st) _).
  assert (R st st0) as H0 by apply R_print.
  destruct (sort_by_rank _) as [|b w] eqn:Hs.
  + by intros [= <- _ _].
  + assert (forall e, e ∈ b :: w -> path_of e ∈ members) as Hmem.
    { intros e He. rewrite <- Hs in He.
      apply sorted_entries_elem in He as (f & Hf & He).
      apply entry_of_Some in He as [-> _]. done. }
    destruct (copy_if_absent (path_of b) unique_dir st0 cu)
      as [[st1 cu1]|err] eqn:Hc1; [|done].
    destruct (copy_worst not_unique_dir w st1 cn)
      as [[st2 cn2]|err] eqn:Hc2; [|done].
    intros [= <- _ _].
    apply (R_trans _ st0); [done|]. apply (R_trans _ st1).
    * eapply R_copy; [|exact Hc1]. apply Hok, Hmem, elem_of_cons. by left.
    * eapply copy_worst_every; [|exact Hc2].
      intros e He. apply Hok, Hmem, elem_of_cons. by right.
- destruct members as [|f1 [|f2 rest]]; [| |simpl in Hlen; lia].
  + unfold process_group. cbn [snd].
    pose proof (find_best_and_worst_spec [] master_rankings) as (Hb & _).
    cbv zeta in Hb.
    destruct (find_best_and_worst_ranked_files [] master_rankings)
      as [[[best worst] all] lg].
    cbn [fst snd] in Hb. subst best. simpl.
    intros [= <- _ _]. apply R_print.
  + unfold process_group. cbn [snd].
    destruct (copy_if_absent f1 unique_dir st cu) as [[st1 cu1]|err] eqn:Hc1;
      [|done].
    intros [= <- _ _]. eapply R_copy; [|exact Hc1].
    apply Hok, list_elem_of_singleton. done.
Qed.

Lemma process_groups_every unique_dir not_unique_dir master_rankings
    groups st cu cn st' cu' cn' :
  (forall g f, g ∈ groups -> f ∈ g.2 ->
     ok f unique_dir /\ ok f not_unique_dir) ->
  process_groups unique_dir not_unique_dir master_rankings (st, cu, cn) groups
  = Returned (st', cu', cn') ->
  R st st'.
Proof.
revert st cu cn. induction groups as [|g groups IH]; intros st cu cn Hok.
- intros [= <- _ _]. apply R_refl.
- intros ([[st1 cu1] cn1] & Hg & Hrest)%process_groups_cons.
  apply (R_trans _ st1).
  + eapply process_group_every; [|exact Hg].
    intros f Hf. apply (Hok g f); [apply elem_of_cons; by left|done].
  + eapply IH; [|exact Hrest].
    intros g' f Hg' Hf. apply (Hok g' f); [apply elem_of_cons; by right|done].
Qed.

Lemma process_pooled_dir_every glob_pdb master_rankings st pooled_dir st' :
  (forall pdb_files f,
     glob_pdb (join selection_dir pooled_dir) = Some pdb_files ->
     f ∈ pdb_files ->
     ok f (join (join selection_dir pooled_dir) "unique") /\
     ok f (join (join selection_dir pooled_dir) "not_unique_basefold")) ->
  process_pooled_dir glob_pdb master_rankings (Returned st) pooled_dir
  = Returned st' ->
  R st st'.
Proof.
intros Hok. unfold process_pooled_dir.
destruct (glob_pdb (join selection_dir pooled_dir)) as [pdb_files|] eqn:Hglob.
- set (st0 := State (files st) (copies st) _).
  destruct (process_groups _ _ master_rankings (st0, 0, 0)
              (group_by_s_number pdb_files))
    as [[[st1 cu] cn]|err] eqn:Hg; [|done].
  intros [= <-]. apply (R_trans _ st0); [apply R_print|].
  apply (R_trans _ st1); [|apply R_print].
  eapply process_groups_every; [|exact Hg].
  intros [k ms] f Hin Hf. apply (Hok pdb_files f eq_refl).
  by destruct (group_members _ _ _ _ Hin Hf).
- intros [= <-]. apply R_print.
Qed.

Lemma process_duplicates_every master_file glob_pdb fs st :
  (forall pooled_dir pdb_files f,
     pooled_dir ∈ pooled_dirs ->
     glob_pdb (join selection_dir pooled_dir) = Some pdb_files ->
     f ∈ pdb_files ->
     ok f (join (join selection_dir pooled_dir) "unique") /\
     ok f (join (join selection_dir pooled_dir) "not_unique_basefold")) ->
  process_duplicates master_file glob_pdb fs = Returned st ->
  R (State fs [] []) st.
Proof.
intros Hok. unfold process_duplicates.
destruct (get_master_rankings master_file) as [[master_rankings lg]|err];
  [|done].
assert (forall dirs st0 st1,
  (forall d, d ∈ dirs -> d ∈ pooled_dirs) ->
  foldl (process_pooled_dir glob_pdb master_rankings) (Returned st0) dirs
  = Returned st1 -> R st0 st1) as Hdirs.
{ induction dirs as [|d dirs IH]; intros st0 st1 Hsub.
  - intros [= <-]. apply R_refl.
  - intros (st2 & Hd & Hrest)%process_pooled_dirs_cons.
    apply (R_trans _ st2).
    + eapply process_pooled_dir_every; [|exact Hd].
      intros pdb_files f. apply Hok, Hsub, elem_of_cons. by left.
    + apply IH; [|done]. intros d' Hd'. apply Hsub, elem_of_cons. by right. }
destruct master_rankings as [|m ms].
- intros [= <-]. apply (R_print (State fs [] [])).
- intros Hrun. apply Hdirs in Hrun; [|done].
  eapply R_trans; [|exact Hrun]. apply (R_print (State fs [] [])).
Qed.

End EveryCopy.

Section Kept.
Import PyStr PyPath Doublets.

(** Between two states: every file is kept with its contents, and every
    new file is the destination of a copy made in between and holds what
    the source of that copy holds. *)
Definition kept (st st' : state) : Prop :=
files st ⊆ files st' /\
exists new, copies st' = copies st ++ new /\
  forall p data, files st' !! p = Some data -> files st !! p = None ->
    exists s, (s, p) ∈ new /\ files st' !! s = Some data.

Lemma kept_print st lg : kept st (State (files st) (copies st) lg).
Proof.
split; [done|]. exists []. split; [by rewrite app_nil_r|].
cbn [files]. intros p data H1 H2. congruence.
Qed.

Lemma kept_refl st : kept st st.
Proof. destruct st as [fs cs pr]. apply (kept_print (State fs cs pr)). Qed.

Lemma kept_trans st1 st2 st3 : kept st1 st2 -> kept st2 st3 -> kept st1 st3.
Proof.
intros (Hs1 & new1 & E1 & H1) (Hs2 & new2 & E2 & H2).
split; [by etrans|]. exists (new1 ++ new2).
split; [by rewrite E2, E1, app_assoc|].
intros p data Hp3 Hp1.
destruct (files st2 !! p) as [d2|] eqn:Hp2.
- pose proof (lookup_weaken _ _ _ _ Hp2 Hs2) as Hp3'.
  assert (d2 = data) as -> by congruence.
  destruct (H1 p data Hp2 Hp1) as (s & Hin & Hs).
  exists s. split; [apply elem_of_app; by left|].
  by apply (lookup_weaken _ _ _ _ Hs Hs2).
- destruct (H2 p data Hp3 Hp2) as (s & Hin & Hs).
  exists s. split; [apply elem_of_app; by right|done].
Qed.

Lemma kept_copy file_path dest_dir st counter st' counter' :
  copy_if_absent file_path dest_dir st counter = Returned (st', counter') ->
  kept st st'.
Proof.
intros H.
apply copy_if_absent_spec in H
  as (_ & _ & _ & [-> | (Hno & data & Hsrc & Hfs & Hcp)]);
  [apply kept_refl|].
unfold exists_ in Hno. apply bool_decide_eq_false in Hno.
apply eq_None_not_Some in Hno.
assert (file_path <> join dest_dir (basename file_path)) as Hne
  by (intros E; rewrite <- E in Hno; congruence).
split.
- rewrite Hfs. by apply insert_subseteq.
- exists [(file_path, join dest_dir (basename file_path))].
  split; [done|]. intros p d Hp Hp0. rewrite Hfs in Hp |- *.
  destruct (decide (join dest_dir (basename file_path) = p)) as [<-|Hp'].
  + rewrite lookup_insert_eq in Hp. injection Hp as <-.
    exists file_path. split; [by apply list_elem_of_singleton|].
    by rewrite lookup_insert_ne.
  + rewrite lookup_insert_ne in Hp by done. congruence.
Qed.

(** The copies made from one state to the next all go from an allowed
    source into an allowed directory, under the name of the source. *)
Definition routed (ok : string -> string -> Prop) (st st' : state) : Prop :=
exists new, copies st' = copies st ++ new /\
  forall s d, (s, d) ∈ new ->
    exists dest_dir, ok s dest_dir /\ d = join dest_dir (basename s).

Lemma routed_print ok st lg : routed ok st (State (files st) (copies st) lg).
Proof.
exists []. split; [by rewrite app_nil_r|].
intros s d H. by apply elem_of_nil in H.
Qed.

Lemma routed_refl ok st : routed ok st st.
Proof. destruct st as [fs cs pr]. apply (routed_print ok (State fs cs pr)). Qed.

Lemma routed_trans ok st1 st2 st3 :
  routed ok st1 st2 -> routed ok st2 st3 -> routed ok st1 st3.
Proof.
intros (new1 & E1 & H1) (new2 & E2 & H2). exists (new1 ++ new2).
split; [by rewrite E2, E1, app_assoc|].
intros s d [H|H]%elem_of_app; eauto.
Qed.

Lemma routed_copy (ok : string -> string -> Prop)
    file_path dest_dir st counter st' counter' :
  ok file_path dest_dir ->
  copy_if_absent file_path dest_dir st counter = Returned (st', counter') ->
  routed ok st st'.
Proof.
intros Hok H.
apply copy_if_absent_spec in H
  as (_ & _ & _ & [-> | (_ & data & _ & _ & Hcp)]);
  [apply routed_refl|].
exists [(file_path, join dest_dir (basename file_path))]. split; [done|].
intros s d [= -> ->]%list_elem_of_singleton. eauto.
Qed.

End Kept.

(** X14. Duplicate Resolution never removes and never overwrites a
    file: every file present before the stage is present after it with
    the same contents, and every file that is new is the destination of
    one of the copies the stage made and holds the contents of the
    source of that copy. *)
Theorem existing_files_are_kept
    (master_file : file_state Pandas.csv)
    (glob_pdb : string -> option (list string)) (fs : PyPath.filesystem)
    (st : Doublets.state) :
  Doublets.process_duplicates master_file glob_pdb fs = Returned st ->
  fs ⊆ Doublets.files st /\
  forall p data, Doublets.files st !! p = Some data -> fs !! p = None ->
    exists s, (s, p) ∈ Doublets.copies st /\
              Doublets.files st !! s = Some data.
Proof.
intros Hrun.
apply (process_duplicates_every (fun _ _ => True) kept kept_refl kept_trans
         kept_print) in Hrun.
- destruct Hrun as (Hsub & new & E & Hnew). cbn [Doublets.files] in *.
  split; [done|]. intros p data Hp Hp0.
  destruct (Hnew p data Hp Hp0) as (s & Hin & Hs).
  exists s. split; [|done]. by rewrite E.
- intros f dir st0 c st1 c' _. apply kept_copy.
- done.
Qed.

Lemma existing_files_are_kept_witness :
  exists st,
    Doublets.process_duplicates (Readable sample_rankings) sample_listing
      sample_selection = Returned st /\
    sample_selection ⊆ Doublets.files st.
Proof.
destruct (Doublets.process_duplicates (Readable sample_rankings) sample_listing
            sample_selection) as [st|e] eqn:Hrun;
  [|vm_compute in Hrun; discriminate Hrun].
exists st. split; [reflexivity|].
exact (proj1 (existing_files_are_kept (Readable sample_rankings) sample_listing
                sample_selection st Hrun)).
Defined.

(** X15. Every copy Duplicate Resolution makes takes a file listed in
    one of the three pooled directories into the [unique] or the
    [not_unique_basefold] directory of that pooled directory, under the
    name the file has. *)
Theorem copies_go_to_output_directories
    (master_file : file_state Pandas.csv)
    (glob_pdb : string -> option (list string)) (fs : PyPath.filesystem)
    (st : Doublets.state) (s d : string) :
  Doublets.process_duplicates master_file glob_pdb fs = Returned st ->
  (s, d) ∈ Doublets.copies st ->
  exists pooled_dir pdb_files out,
    pooled_dir ∈ Doublets.pooled_dirs /\
    glob_pdb (PyPath.join Doublets.selection_dir pooled_dir) = Some pdb_files /\
    s ∈ pdb_files /\
    (out = "unique" \/ out = "not_unique_basefold") /\
    d = PyPath.join
          (PyPath.join (PyPath.join Doublets.selection_dir pooled_dir) out)
          (PyStr.basename s).
Proof.
intros Hrun Hin.
set (ok := fun (f dest_dir : string) =>
  exists pooled_dir pdb_files out,
    pooled_dir ∈ Doublets.pooled_dirs /\
    glob_pdb (PyPath.join Doublets.selection_dir pooled_dir) = Some pdb_files /\
    f ∈ pdb_files /\
    (out = "unique" \/ out = "not_unique_basefold") /\
    dest_dir = PyPath.join (PyPath.join Doublets.selection_dir pooled_dir) out).
apply (process_duplicates_every ok (routed ok) (routed_refl ok)
         (routed_trans ok) (routed_print ok)) in Hrun.
- destruct Hrun as (new & E & Hnew). cbn [Doublets.copies] in E.
  rewrite E in Hin. cbn [app] in Hin.
  destruct (Hnew s d Hin)
    as (dir & (pd & l & out & H1 & H2 & H3 & H4 & ->) & ->).
  exists pd, l, out. done.
- intros f dir st0 c st1 c'. apply routed_copy.
- intros pd l f Hpd Hglob Hf. split.
  + exists pd, l, "unique". eauto 10.
  + exists pd, l, "not_unique_basefold". eauto 10.
Qed.

Lemma copies_go_to_output_directories_witness :
  exists st s d,
    Doublets.process_duplicates (Readable sample_rankings) sample_listing
      sample_selection = Returned st /\
    (s, d) ∈ Doublets.copies st /\
    exists pooled_dir pdb_files out,
      pooled_dir ∈ Doublets.pooled_dirs /\
      sample_listing (PyPath.join Doublets.selection_dir pooled_dir)
      = Some pdb_files /\
      s ∈ pdb_files /\
      (out = "unique" \/ out = "not_unique_basefold") /\
      d = PyPath.join
            (PyPath.join (PyPath.join Doublets.selection_dir pooled_dir) out)
            (PyStr.basename s).
Proof.
destruct (Doublets.process_duplicates (Readable sample_rankings) sample_listing
            sample_selection) as [st|e] eqn:Hrun;
  [|vm_compute in Hrun; discriminate Hrun].
destruct (Doublets.copies st) as [|[s d] rest] eqn:Hcopies.
- exfalso. vm_compute in Hrun. injection Hrun as <-. discriminate Hcopies.
- exists st, s, d. split; [reflexivity|].
  assert ((s, d) ∈ Doublets.copies st) as Hin
    by (rewrite Hcopies; apply elem_of_cons; by left).
  split; [exact Hin|].
  exact (copies_go_to_output_directories (Readable sample_rankings)
           sample_listing sample_selection st s d Hrun Hin).
Defined.


(** ** The two counters of Duplicate Resolution *)

Section Counters.
Import PyStr PyPath Doublets.

(** The copies of a trace that went into [dest_dir]. *)
Definition copies_into (dest_dir : string) (cs : list (string * string)) : nat :=
length (filter (fun c : string * string => c.2 = join dest_dir (basename c.1)) cs).

Lemma copies_into_app dest_dir cs1 cs2 :
  copies_into dest_dir (cs1 ++ cs2)
  = copies_into dest_dir cs1 + copies_into dest_dir cs2.
Proof. unfold copies_into. by rewrite filter_app, length_app. Qed.

Variables unique_dir not_unique_dir : string.
Hypothesis apart : forall x,
  slash_free x -> join unique_dir x <> join not_unique_dir x.

(** From one state of the loop to a later one: the counters have grown
    by the number of copies made into the two directories. *)
Definition counted (gs gs' : group_state) : Prop :=
exists new,
  copies gs'.1.1 = copies gs.1.1 ++ new /\
  gs'.1.2 = gs.1.2 + copies_into unique_dir new /\
  gs'.2 = gs.2 + copies_into not_unique_dir new /\
  length new = copies_into unique_dir new + copies_into not_unique_dir new.

Lemma counted_print st lg cu cn :
  counted (st, cu, cn) (State (files st) (copies st) lg, cu, cn).
Proof. exists []. cbn. rewrite app_nil_r. repeat split; lia. Qed.

Lemma counted_refl gs : counted gs gs.
Proof. exists []. cbn. rewrite app_nil_r. repeat split; lia. Qed.

Lemma counted_trans gs1 gs2 gs3 :
  counted gs1 gs2 -> counted gs2 gs3 -> counted gs1 gs3.
Proof.
intros (new1 & E1 & Hu1 & Hn1 & Hl1) (new2 & E2 & Hu2 & Hn2 & Hl2).
exists (new1 ++ new2). rewrite !copies_into_app, length_app.
split; [by rewrite E2, E1, app_assoc|]. repeat split; lia.
Qed.

Lemma copies_into_one_same dest_dir f :
  copies_into dest_dir [(f, join dest_dir (basename f))] = 1.
Proof.
unfold copies_into. rewrite filter_cons_True by done. by rewrite filter_nil.
Qed.

Lemma copies_into_one_other dest_dir dest_dir' f :
  join dest_dir' (basename f) <> join dest_dir (basename f) ->
  copies_into dest_dir [(f, join dest_dir' (basename f))] = 0.
Proof.
intros H. unfold copies_into. rewrite filter_cons_False by done.
by rewrite filter_nil.
Qed.

Lemma counted_unique f st cu cn st' cu' :
  copy_if_absent f unique_dir st cu = Returned (st', cu') ->
  counted (st, cu, cn) (st', cu', cn).
Proof.
unfold copy_if_absent.
destruct (exists_ _ (files st)); [intros [= <- <-]; apply counted_refl|].
destruct (copy2 _ _ _) as [fs'|e]; [|done].
intros [= <- <-]. exists [(f, join unique_dir (basename f))].
cbn [fst snd copies]. rewrite copies_into_one_same.
rewrite copies_into_one_other
  by (apply apart, basename_slash_free).
cbn [length]. repeat split; lia.
Qed.

Lemma counted_not_unique f st cu cn st' cn' :
  copy_if_absent f not_unique_dir st cn = Returned (st', cn') ->
  counted (st, cu, cn) (st', cu, cn').
Proof.
unfold copy_if_absent.
destruct (exists_ _ (files st)); [intros [= <- <-]; apply counted_refl|].
destruct (copy2 _ _ _) as [fs'|e]; [|done].
intros [= <- <-]. exists [(f, join not_unique_dir (basename f))].
cbn [fst snd copies]. rewrite copies_into_one_same.
rewrite copies_into_one_other
  by (intros E; apply (apart (basename f)); [apply basename_slash_free|done]).
cbn [length]. repeat split; lia.
Qed.

Lemma counted_worst worst_files st cu cn st' cn' :
  copy_worst not_unique_dir worst_files st cn = Returned (st', cn') ->
  counted (st, cu, cn) (st', cu, cn').
Proof.
unfold copy_worst. revert st cn.
induction worst_files as [|w ws IH]; intros st cn; cbn [foldl].
- intros [= <- <-]. apply counted_refl.
- destruct (copy_if_absent (path_of w) not_unique_dir st cn)
    as [[st1 c1]|e] eqn:Hc.
  + intros H. apply (counted_trans _ (st1, cu, c1)).
    * by eapply counted_not_unique.
    * by apply IH.
  + intros H. exfalso. clear -H.
    induction ws as [|w' ws' IHw]; cbn [foldl] in H; [done|]. auto.
Qed.

Lemma counted_group master_rankings gs group gs' :
  process_group unique_dir not_unique_dir master_rankings gs group
  = Returned gs' ->
  counted gs gs'.
Proof.
destruct gs as [[st cu] cn]. destruct group as [s_number members].
destruct (decide (1 < length members)) as [Hlen|Hlen].
- rewrite process_group_many by done. cbv zeta.
  set (st0 := State (files st) (copies st) _).
  assert (counted (st, cu, cn) (st0, cu, cn)) as H0 by apply counted_print.
  destruct (sort_by_rank _) as [|b w].
  + by intros [= <-].
  + destruct (copy_if_absent (path_of b) unique_dir st0 cu)
      as [[st1 cu1]|err] eqn:Hc1; [|done].
    destruct (copy_worst not_unique_dir w st1 cn)
      as [[st2 cn2]|err] eqn:Hc2; [|done].
    intros [= <-].
    apply (counted_trans _ (st0, cu, cn)); [done|].
    apply (counted_trans _ (st1, cu1, cn)).
    * by eapply counted_unique.
    * by eapply counted_worst.
- destruct members as [|f1 [|f2 rest]]; [| |simpl in Hlen; lia].
  + unfold process_group. cbn [snd].
    pose proof (find_best_and_worst_spec [] master_rankings) as (Hb & _).
    cbv zeta in Hb.
    destruct (find_best_and_worst_ranked_files [] master_rankings)
      as [[[best worst] all] lg].
    cbn [fst snd] in Hb. subst best. simpl.
    intros [= <-]. apply counted_print.
  + unfold process_group. cbn [snd].
    destruct (copy_if_absent f1 unique_dir st cu) as [[st1 cu1]|err] eqn:Hc1;
      [|done].
    intros [= <-]. by eapply counted_unique.
Qed.

Lemma counted_groups master_rankings groups gs gs' :
  process_groups unique_dir not_unique_dir master_rankings gs groups
  = Returned gs' ->
  counted gs gs'.
Proof.
revert gs. induction groups as [|g groups IH]; intros gs.
- intros [= <-]. apply counted_refl.
- intros (gs1 & Hg & Hrest)%process_groups_cons.
  apply (counted_trans _ gs1); [by eapply counted_group|by apply IH].
Qed.

End Counters.

Lemma output_directories_apart (pooled_dir x : string) :
  pooled_dir ∈ Doublets.pooled_dirs -> slash_free x ->
  PyPath.join
    (PyPath.join (PyPath.join Doublets.selection_dir pooled_dir) "unique") x
  <> PyPath.join
       (PyPath.join (PyPath.join Doublets.selection_dir pooled_dir)
          "not_unique_basefold") x.
Proof.
intros Hpd Hx. apply startswith_slash_free in Hx.
unfold Doublets.pooled_dirs in Hpd.
repeat (apply elem_of_cons in Hpd as [-> | Hpd]);
  [| | |by apply elem_of_nil in Hpd];
  unfold PyPath.join at 1 4; rewrite Hx; vm_compute; intros [=].
Qed.

(** X16. The two numbers Duplicate Resolution prints for a pooled
    directory are the numbers of copies it made there into [unique] and
    into [not_unique_basefold], and it made no other copy. *)
Theorem printed_counts_match_copies
    (glob_pdb : string -> option (list string))
    (master_rankings : list (string * nat))
    (st st' : Doublets.state) (pooled_dir : string) :
  pooled_dir ∈ Doublets.pooled_dirs ->
  is_Some (glob_pdb (PyPath.join Doublets.selection_dir pooled_dir)) ->
  Doublets.process_pooled_dir glob_pdb master_rankings (Returned st) pooled_dir
  = Returned st' ->
  let pooled_path := PyPath.join Doublets.selection_dir pooled_dir in
  exists new cu cn,
    Doublets.copies st' = Doublets.copies st ++ new /\
    last (Doublets.printed st') = Some (Doublets.CopiedCounts cu cn) /\
    cu = copies_into (PyPath.join pooled_path "unique") new /\
    cn = copies_into (PyPath.join pooled_path "not_unique_basefold") new /\
    length new = cu + cn.
Proof.
intros Hpd [pdb_files Hglob]. unfold Doublets.process_pooled_dir.
rewrite Hglob.
set (st0 := Doublets.State (Doublets.files st) (Doublets.copies st) _).
destruct (Doublets.process_groups _ _ master_rankings (st0, 0, 0)
            (Doublets.group_by_s_number pdb_files))
  as [[[st1 cu] cn]|err] eqn:Hg; [|done].
intros [= <-].
apply counted_groups in Hg as (new & E & Hu & Hn & Hl);
  [|intros x; by apply output_directories_apart].
cbn [fst snd Doublets.copies Doublets.printed] in *.
exists new, cu, cn. rewrite last_snoc. repeat split; try done. lia.
Qed.

Lemma printed_counts_match_copies_witness :
  let st := Doublets.State sample_selection [] [] in
  exists st' new,
    Doublets.process_pooled_dir sample_listing [("a_s1_x", 1); ("b_s1_y", 2)]
      (Returned st) "filtered_pdbs_jc_5.0A" = Returned st' /\
    Doublets.copies st' = Doublets.copies st ++ new /\
    length new
    = copies_into "./selection/filtered_pdbs_jc_5.0A/unique" new
      + copies_into "./selection/filtered_pdbs_jc_5.0A/not_unique_basefold" new.
Proof.
intros st.
destruct (Doublets.process_pooled_dir sample_listing
            [("a_s1_x", 1); ("b_s1_y", 2)] (Returned st)
            "filtered_pdbs_jc_5.0A") as [st'|e] eqn:Hrun;
  [|vm_compute in Hrun; discriminate Hrun].
assert ("filtered_pdbs_jc_5.0A" ∈ Doublets.pooled_dirs) as Hpd
  by (apply elem_of_cons; by left).
assert (is_Some (sample_listing
                   (PyPath.join Doublets.selection_dir "filtered_pdbs_jc_5.0A")))
  as Hglob by (vm_compute; eauto).
destruct (printed_counts_match_copies sample_listing
            [("a_s1_x", 1); ("b_s1_y", 2)] st st' "filtered_pdbs_jc_5.0A"
            Hpd Hglob Hrun) as (new & cu & cn & E & _ & Hu & Hn & Hl).
exists st', new. split; [reflexivity|]. split; [exact E|].
rewrite Hl, Hu, Hn. reflexivity.
Defined.


(** ** When a file has a global rank *)

Section Resolved.
Import PyStr PyPath Doublets.

Lemma startswith_refl s : startswith s s = true.
Proof.
induction s as [|c s IH]; [done|]. simpl.
unfold is_char. by rewrite bool_decide_eq_true_2.
Qed.

Lemma contains_refl s : contains s s = true.
Proof. destruct s; cbn [contains]; by rewrite startswith_refl. Qed.

(** Whether a key of the ranking and an identifier overlap, as the fuzzy
    look-up tests it. *)
Definition overlaps (csv_name core_identifier : string) : bool :=
contains csv_name core_identifier || contains core_identifier csv_name.

Lemma fuzzy_match_None core_identifier master_rankings :
  fuzzy_match core_identifier master_rankings = None <->
  forall k v, (k, v) ∈ master_rankings -> overlaps k core_identifier = false.
Proof.
unfold overlaps.
induction master_rankings as [|[k0 v0] rest IH]; cbn [fuzzy_match].
- split; [|done]. intros _ k v H. by apply elem_of_nil in H.
- destruct (contains k0 core_identifier || contains core_identifier k0) eqn:Ho.
  + split; [done|]. intros H.
    rewrite (H k0 v0) in Ho by (apply elem_of_cons; by left). done.
  + rewrite IH. split.
    * intros H k v [[= -> ->] | Hin]%elem_of_cons; eauto.
    * intros H k v Hin. apply (H k v). apply elem_of_cons. by right.
Qed.

Lemma fuzzy_match_Some core_identifier master_rankings k r :
  fuzzy_match core_identifier master_rankings = Some (k, r) ->
  (k, r) ∈ master_rankings /\ overlaps k core_identifier = true.
Proof.
unfold overlaps.
induction master_rankings as [|[k0 v0] rest IH]; cbn [fuzzy_match]; [done|].
destruct (contains k0 core_identifier || contains core_identifier k0) eqn:Ho.
- intros [= <- <-]. split; [apply elem_of_cons; by left|done].
- intros [Hin ?]%IH. split; [apply elem_of_cons; by right|done].
Qed.

End Resolved.

(** X17. In Duplicate Resolution a file gets a global rank exactly when
    some key of the master ranking contains the core identifier of the
    file or is contained in it.  The rank it gets is the rank of such a
    key: that of the identifier itself when it is a key, otherwise that
    of the first overlapping key in the order of the master table. *)
Theorem rank_found_iff_key_overlaps
    (master_rankings : list (string * nat)) (file_path : string) :
  let core_identifier :=
    (Doublets.extract_core_identifier_with_ag1_fallback
       (PyStr.basename file_path) master_rankings).1 in
  (resolved_rank master_rankings file_path = None <->
   forall k v, (k, v) ∈ master_rankings -> overlaps k core_identifier = false) /\
  (forall r, resolved_rank master_rankings file_path = Some r ->
     exists k, (k, r) ∈ master_rankings /\ overlaps k core_identifier = true) /\
  (forall r, Doublets.dict_get core_identifier master_rankings = Some r ->
     resolved_rank master_rankings file_path = Some r) /\
  (Doublets.dict_get core_identifier master_rankings = None ->
   resolved_rank master_rankings file_path
   = snd <$> Doublets.fuzzy_match core_identifier master_rankings).
Proof.
unfold resolved_rank, Doublets.resolve.
destruct (Doublets.extract_core_identifier_with_ag1_fallback
            (PyStr.basename file_path) master_rankings) as [core lg].
cbn [fst]. rewrite <- fuzzy_match_None.
destruct (Doublets.dict_get core master_rankings) as [rank|] eqn:Hget.
- cbn [fst]. split; [|split; [|split; [|done]]].
  + split; [done|]. intros Hnone.
    apply dict_get_elem in Hget.
    pose proof (proj1 (fuzzy_match_None core master_rankings) Hnone
                  core rank Hget) as Ho.
    unfold overlaps in Ho. by rewrite contains_refl in Ho.
  + intros r [= <-]. exists core. split; [by apply dict_get_elem|].
    unfold overlaps. by rewrite contains_refl.
  + by intros r [= <-].
- destruct (Doublets.fuzzy_match core master_rankings) as [[k r]|] eqn:Hfz;
    cbn [fst snd fmap option_fmap option_map].
  + split; [done|]. split; [|done].
    intros r' [= <-]. exists k. by apply fuzzy_match_Some.
  + done.
Qed.

(** X18. A file that is alone in its group is put into the [unique]
    directory whatever the master ranking holds, even when the file has
    no rank there: the ranking is not consulted, nothing goes to
    [not_unique_basefold] and nothing is printed. *)
Theorem single_file_goes_to_unique
    (unique_dir not_unique_dir : string)
    (master_rankings master_rankings' : list (string * nat))
    (st st' : Doublets.state) (cu cn cu' cn' : nat)
    (s_number file_path : string) :
  Doublets.process_group unique_dir not_unique_dir master_rankings
    (st, cu, cn) (s_number, [file_path]) = Returned (st', cu', cn') ->
  PyPath.exists_ (PyPath.join unique_dir (PyStr.basename file_path))
    (Doublets.files st') = true /\
  cn' = cn /\ Doublets.printed st' = Doublets.printed st /\
  (forall s d, (s, d) ∈ Doublets.copies st' ->
     (s, d) ∈ Doublets.copies st \/
     (s, d) = (file_path,
               PyPath.join unique_dir (PyStr.basename file_path))) /\
  Doublets.process_group unique_dir not_unique_dir master_rankings'
    (st, cu, cn) (s_number, [file_path]) = Returned (st', cu', cn').
Proof.
unfold Doublets.process_group. cbn [snd].
destruct (Doublets.copy_if_absent file_path unique_dir st cu)
  as [[st1 cu1]|err] eqn:Hc; [|done].
intros [= <- <- <-].
apply copy_if_absent_spec in Hc
  as (Hex & _ & Hpr & [-> | (_ & data & _ & _ & Hcp)]).
- repeat (split; [done|]). split; [|done]. intros s d Hin. by left.
- repeat (split; [done|]). split; [|done]. intros s d Hin.
  rewrite Hcp in Hin.
  apply elem_of_app in Hin as [Hin|Hin%list_elem_of_singleton]; auto.
Qed.

Lemma single_file_goes_to_unique_witness :
  let st := Doublets.State sample_selection [] [] in
  exists st' cu',
    Doublets.process_group "./out/unique" "./out/not_unique_basefold" []
      (st, 0, 0)
      ("1", ["./selection/filtered_pdbs_jc_5.0A/a_s1_x.pdb"])
    = Returned (st', cu', 0) /\
    PyPath.exists_ "./out/unique/a_s1_x.pdb" (Doublets.files st') = true.
Proof.
intros st.
destruct (Doublets.process_group "./out/unique" "./out/not_unique_basefold" []
            (st, 0, 0)
            ("1", ["./selection/filtered_pdbs_jc_5.0A/a_s1_x.pdb"]))
  as [[[st' cu'] cn']|e] eqn:Hrun; [|vm_compute in Hrun; discriminate Hrun].
destruct (single_file_goes_to_unique _ _ _ [] _ _ _ _ _ _ _ _ Hrun)
  as (Hex & -> & _).
exists st', cu'. split; [reflexivity|exact Hex].
Defined.


(** ** The mother folder of a candidate file *)

Section MotherFolder.
Import PyStr PyPath RankJoin.

Lemma join_plain a b :
  ends_in_name a = true -> slash_free b -> join a b = a +:+ String "/" b.
Proof.
intros Ha Hb. unfold join. rewrite startswith_slash_free by done.
rewrite endswith_slash_name by done.
rewrite bool_decide_eq_false_2 by (by destruct a). done.
Qed.

Lemma split_slash_free x : slash_free x -> split "/" x = [x].
Proof.
unfold slash_free. induction x as [|c x IH]; [done|].
rewrite has_slash_cons. intros [Hc Hx]%orb_false_elim.
cbn [split]. by rewrite Hc, IH.
Qed.

Lemma split_app_slash a b :
  slash_free a -> split "/" (a +:+ String "/" b) = a :: split "/" b.
Proof.
unfold slash_free. induction a as [|c a IH].
- intros _. change ("" +:+ String "/" b) with (String "/" b).
  cbn [split]. by change (is_char "/" "/") with true.
- rewrite has_slash_cons. intros [Hc Ha]%orb_false_elim.
  change (String c a +:+ String "/" b) with (String c (a +:+ String "/" b)).
  cbn [split]. by rewrite Hc, IH.
Qed.

(** The path of a file two levels below [./m/pooled/aligned], spelled
    out. *)
Lemma candidate_path m sub file :
  is_name sub -> slash_free file ->
  join (join ("./" +:+ m +:+ "/pooled/aligned") sub) file
  = String "." (String "/"
      (m +:+ String "/" ("pooled" +:+ String "/" ("aligned" +:+ String "/"
         (sub +:+ String "/" file))))).
Proof.
intros [Hne Hsub] Hfile.
assert (ends_in_name ("./" +:+ m +:+ "/pooled/aligned") = true) as Hroot.
{ change ("./" +:+ m +:+ "/pooled/aligned")
    with (String "." (String "/" m) +:+ "/pooled/aligned").
  by rewrite ends_in_name_app. }
rewrite (join_plain _ sub) by done.
assert (ends_in_name (("./" +:+ m +:+ "/pooled/aligned") +:+ String "/" sub)
        = true) as Hdir.
{ rewrite ends_in_name_app by done.
  destruct (slash_free_ends_in_name sub Hne Hsub). by destruct sub. }
rewrite (join_plain _ file) by done.
change ("./" +:+ m +:+ "/pooled/aligned")
  with (String "." (String "/" (m +:+ "/pooled/aligned"))).
change ((String "." (String "/" (m +:+ "/pooled/aligned")) +:+ String "/" sub)
        +:+ String "/" file)
  with (String "." (String "/"
          (((m +:+ "/pooled/aligned") +:+ String "/" sub) +:+ String "/" file))).
rewrite !append_assoc. done.
Qed.

End MotherFolder.

(** X19. For a file found two levels below [./m/pooled/aligned], the
    mother folder Rank Join looks the per-subfolder rank up under is
    [m], the directory the [pooled] directory lies in. *)
Theorem mother_folder_of_candidate (m sub file : string) :
  is_name m -> m <> "." -> is_name sub -> is_name file ->
  RankJoin.extract_mother_folder_name
    (PyPath.join (PyPath.join ("./" +:+ m +:+ "/pooled/aligned") sub) file)
  = Some m.
Proof.
intros [Hne Hm] Hdot Hsub [_ Hfile].
rewrite candidate_path by done.
unfold RankJoin.extract_mother_folder_name, PyPath.parts.
cbn [PyStr.startswith]. change (PyStr.is_char "/" ".") with false.
cbn [andb app].
change (String "." (String "/" ?x)) with ("." +:+ String "/" x).
rewrite split_app_slash by done.
rewrite split_app_slash by done.
rewrite (split_app_slash "pooled") by done.
rewrite filter_cons_False by (intros [_ H]; done).
rewrite filter_cons_True by done.
rewrite filter_cons_True by done.
cbn [RankJoin.mother_go]. by rewrite bool_decide_eq_true_2.
Qed.

Lemma mother_folder_of_candidate_witness :
  RankJoin.extract_mother_folder_name
    (PyPath.join
       (PyPath.join ("./" +:+ "run1" +:+ "/pooled/aligned")
          "filtered_pdbs_jc_5.0A")
       "d_s1_mpnn1_model1.pdb")
  = Some "run1".
Proof.
apply (mother_folder_of_candidate "run1" "filtered_pdbs_jc_5.0A"
         "d_s1_mpnn1_model1.pdb"); [done|done|done|done].
Defined.


(** ** From the name of a per-subfolder table back to the subfolder *)

Section SubfolderName.
Import PyStr RankJoin.

Lemma replace_absent old new s : contains old s = false -> replace old new s = s.
Proof.
unfold replace. induction s as [|c t IH]; [done|].
cbn [contains replace_go]. intros [Hs Ht]%orb_false_elim.
by rewrite Hs, IH.
Qed.

(** [_stats.csv] does not overlap itself: where it starts inside
    [sd +:+ "_stats.csv"] before the end of [sd], it lies within [sd]. *)
Lemma stats_suffix_apart sd :
  startswith "_stats.csv" (sd +:+ "_stats.csv") = true ->
  sd = "" \/ startswith "_stats.csv" sd = true.
Proof.
intros H.
unfold is_char in H.
do 10 (destruct sd as [|? sd];
  [first [by left
         |exfalso; repeat (apply andb_true_iff in H as [? H]);
          by repeat match goal with
                    | Hc : bool_decide (_ = _) = true |- _ =>
                      try discriminate Hc; clear Hc
                    end]|]).
right. exact H.
Qed.

Lemma strip_stats_suffix sd :
  contains "_stats.csv" sd = false ->
  replace "_stats.csv" "" (sd +:+ "_stats.csv") = sd.
Proof.
unfold replace. induction sd as [|c t IH]; [intros _; by vm_compute|].
cbn [contains]. intros [Hs Ht]%orb_false_elim.
change (String c t +:+ "_stats.csv") with (String c (t +:+ "_stats.csv")).
cbn [replace_go].
destruct (startswith "_stats.csv" (String c (t +:+ "_stats.csv"))) eqn:Hh.
- apply (stats_suffix_apart (String c t)) in Hh as [Hh|Hh]; congruence.
- by rewrite IH.
Qed.

End SubfolderName.

(** X20. Rank Join recovers the name of a subfolder from the name the
    Score Aggregator gives to the table of that subfolder,
    [merged_<subfolder>_stats.csv], as long as [merged_] occurs nowhere
    else in that name and [_stats.csv] does not occur in the name of the
    subfolder. *)
Theorem subfolder_name_round_trip (subdir : string) :
  PyStr.contains "merged_" (subdir +:+ "_stats.csv") = false ->
  PyStr.contains "_stats.csv" subdir = false ->
  RankJoin.subfolder_name ("merged_" +:+ subdir +:+ "_stats.csv") = subdir.
Proof.
intros Hm Hs. unfold RankJoin.subfolder_name.
change (PyStr.replace "merged_" "" ("merged_" +:+ subdir +:+ "_stats.csv"))
  with (PyStr.replace "merged_" "" (subdir +:+ "_stats.csv")).
rewrite (replace_absent "merged_") by done. by apply strip_stats_suffix.
Qed.

Lemma subfolder_name_round_trip_witness :
  RankJoin.subfolder_name ("merged_" +:+ "run1" +:+ "_stats.csv") = "run1".
Proof.
apply (subfolder_name_round_trip "run1"); reflexivity.
Defined.


(** ** The normal form of a file name *)

Section NormalForm.
Import PyStr Doublets.

Lemma startswith_trans a b c :
  startswith a b = true -> startswith b c = true -> startswith a c = true.
Proof.
revert b c. induction a as [|x a IH]; intros b c; [done|].
destruct b as [|y b]; [done|]. destruct c as [|z c]; [done|].
cbn [startswith]. intros [Hxy Hab]%andb_true_iff [Hyz Hbc]%andb_true_iff.
apply bool_decide_eq_true in Hxy, Hyz. subst y z.
apply andb_true_iff. split; [by apply bool_decide_eq_true_2|by eapply IH].
Qed.

End NormalForm.

(** X21. The name Duplicate Resolution normalizes a file name to (for a
    file name that holds no line feed) is the beginning of that name
    once its extension and its rank prefix are removed, and it holds
    neither [_model] followed by a digit nor [_aligned]: both suffixes
    are cut off together with everything after them. *)
Theorem core_identifier_normal_form (filename : string) :
  lf_free filename ->
  let base_name := Doublets.normalize filename in
  PyStr.startswith base_name
    (Doublets.strip_rank_prefix (PyStr.splitext_root filename)) = true /\
  occurs (PyStr.literal "_model" ++ [PyStr.is_digit]) base_name = false /\
  occurs (PyStr.literal "_aligned") base_name = false.
Proof.
intros Hlf. destruct (normalize_stable filename Hlf) as (_ & Hm & Ha).
split; [|done].
unfold Doublets.normalize, Doublets.strip_aligned, Doublets.strip_model.
set (x := Doublets.strip_rank_prefix (PyStr.splitext_root filename)).
assert (lf_free x) as Hx
  by (by apply lf_free_strip_rank_prefix, lf_free_splitext_root).
rewrite (re_sub_to_eol_cut _ x Hx).
assert (lf_free (cut (PyStr.literal "_model" ++ [PyStr.is_digit]) x)) as Hy
  by (eapply lf_free_prefix; [apply startswith_cut|done]).
rewrite (re_sub_to_eol_cut _ _ Hy).
eapply startswith_trans; apply startswith_cut.
Qed.

Lemma core_identifier_normal_form_witness :
  lf_free "1_15_des_ag1_s12_mpnn3_model1_aligned.pdb" /\
  Doublets.normalize "1_15_des_ag1_s12_mpnn3_model1_aligned.pdb"
  = "des_ag1_s12_mpnn3" /\
  occurs (PyStr.literal "_aligned")
    (Doublets.normalize "1_15_des_ag1_s12_mpnn3_model1_aligned.pdb") = false.
Proof.
assert (lf_free "1_15_des_ag1_s12_mpnn3_model1_aligned.pdb") as Hlf
  by (by vm_compute).
split; [exact Hlf|]. split; [by vm_compute|].
exact (proj2 (proj2 (core_identifier_normal_form
                       "1_15_des_ag1_s12_mpnn3_model1_aligned.pdb" Hlf))).
Defined.

(** X22. Rank Join clears the podium directories before it looks for
    the master table.  When the master table is missing, or has no
    [Design] column, the stage has thus removed the podium copies of
    earlier runs and writes none: every other file is as before, and
    nothing is counted. *)
Theorem missing_master_still_clears_podium
    (stats : RankJoin.stats_files) (w : RankJoin.walk)
    (fs : PyPath.filesystem) :
  RankJoin.master_file stats = Absent \/
  (exists c, RankJoin.master_file stats = Readable c /\
             "Design" ∉ Pandas.header c) ->
  exists st,
    RankJoin.copy_files_with_rankings stats w fs = Returned st /\
    (forall x, RankJoin.files st !! x
               = if RankJoin.in_cleared_podium x then None else fs !! x) /\
    RankJoin.copied_files st = 0 /\ RankJoin.skipped_files st = 0 /\
    last (RankJoin.printed st) = Some RankJoin.NoRankingsFound.
Proof.
intros Hmaster. unfold RankJoin.copy_files_with_rankings.
assert (exists lg, RankJoin.get_file_rankings stats = Returned (∅, ∅, lg))
  as [lg ->].
{ unfold RankJoin.get_file_rankings.
  destruct Hmaster as [-> | (c & -> & Hc)]; [eauto|].
  rewrite bool_decide_eq_false_2 by done. eauto. }
rewrite !bool_decide_eq_true_2 by done. cbn [andb].
eexists. split; [reflexivity|]. cbn. rewrite last_snoc.
split; [apply clear_lookup|done].
Qed.

Lemma missing_master_still_clears_podium_witness :
  exists st,
    RankJoin.copy_files_with_rankings (RankJoin.StatsFiles Absent [])
      sample_walk
      (<["./run1/pooled/aligned/podium/1_1_old.pdb" := "ATOM"]> sample_tree)
    = Returned st /\
    RankJoin.files st !! "./run1/pooled/aligned/podium/1_1_old.pdb" = None.
Proof.
destruct (missing_master_still_clears_podium (RankJoin.StatsFiles Absent [])
            sample_walk
            (<["./run1/pooled/aligned/podium/1_1_old.pdb" := "ATOM"]> sample_tree)
            (or_introl eq_refl)) as (st & Hrun & Hfiles & _).
exists st. split; [exact Hrun|].
rewrite Hfiles. reflexivity.
Defined.

(** ** A [stats] directory without subdirectories *)

(** X23. When the [stats] directory has no subdirectory, the Score
    Aggregator treats the tables lying directly in it as the tables of
    one subdirectory called [direct_files]: the outcome is that of a
    run over that single subdirectory.  With no table at all the script
    stops at once: it writes no table and prints only that it found
    none. *)
Theorem run_without_subdirectories
    (argsort_quick : (Pandas.row -> Pandas.row -> comparison) ->
                     list (nat * Pandas.row) -> list (nat * Pandas.row))
    (stats : Aggregator.stats_dir) :
  Aggregator.subdirs stats = [] ->
  Aggregator.run argsort_quick stats
  = match Aggregator.direct_csv stats with
    | [] => Returned (Aggregator.Outcome [] None [Aggregator.NoCsvFound])
    | files =>
      Aggregator.run argsort_quick (Aggregator.Stats [("direct_files", files)] [])
    end.
Proof.
intros Hsub. unfold Aggregator.run. rewrite Hsub.
destruct (Aggregator.direct_csv stats) as [|f files]; [done|].
cbn [Aggregator.subdirs]. f_equal.
unfold Aggregator.merge_all. cbn [foldl]. f_equal.
unfold Aggregator.process_subdir. cbn [fst snd].
by rewrite list_filter_filter_l.
Qed.

Lemma run_without_subdirectories_witness :
  Aggregator.run (fun _ l => l) (Aggregator.Stats [] (sample_batch ≫= snd))
  = Aggregator.run (fun _ l => l)
      (Aggregator.Stats [("direct_files", sample_batch ≫= snd)] []).
Proof.
exact (run_without_subdirectories (fun _ l => l)
         (Aggregator.Stats [] (sample_batch ≫= snd)) eq_refl).
Defined.
